(** * eurosec-backend: draft orders, VAT invoices and their upload

    A shallow embedding of the service layer of the repository
    ([services/draftOrder.service.js], [services/pdf.service.js], the
    invoice coordinator and the Shopify file service) together with the
    properties its specification states about them, followed by the
    cart service, the routes and further properties of the code.

    Conventions of the embedding.
    - A JavaScript string is a [string] holding its UTF-8 bytes.
    - A property that may be [undefined] or [null] is an [option]; both
      are [None], the code never tells them apart where that is used.
    - A JavaScript number is a binary64 value, [spec_float] at precision
      53 and maximal exponent 1024; integers that are only counted or
      printed (attempt counters, the clock in milliseconds) are in [Z].
    - Asynchronous methods run in a monad that threads the observable
      world (requests issued, timers awaited, log lines) and may throw. *)

From Stdlib Require Import String Ascii List ZArith Lia Bool.
From Stdlib Require Import Floats.SpecFloat.
Import ListNotations.

Local Open Scope string_scope.

(* ================================================================== *)
(** * JavaScript strings *)
(* ================================================================== *)

Module JsString.

(** [!!s] for a string: every string but the empty one is truthy. *)
Definition truthy (s : string) : bool :=
  match s with
  | EmptyString => false
  | String _ _ => true
  end.

(** Truthiness of a property holding a string, [undefined] or [null]. *)
Definition truthy_opt (v : option string) : bool :=
  match v with
  | Some s => truthy s
  | None => false
  end.

(** [a || b] where both operands may be absent. *)
Definition or_opt (a b : option string) : option string :=
  if truthy_opt a then a else b.

(** [a || d] where [d] is a string: the chain ends in a string. *)
Definition or_str (a : option string) (d : string) : string :=
  match a with
  | Some s => if truthy s then s else d
  | None => d
  end.

(** The value of a property when it is truthy: what a guard
    [if (v) ...] lets through. *)
Definition when_set (v : option string) : option string :=
  if truthy_opt v then v else None.

(** [a && b] used as a condition. *)
Definition both (a b : option string) : bool :=
  truthy_opt a && truthy_opt b.

(** Interpolation [`${v}`] of a property that is known to be present
    where the code interpolates it; an absent one prints as JavaScript
    prints [undefined]. *)
Definition interpolate (v : option string) : string :=
  match v with
  | Some s => s
  | None => "undefined"
  end.

Definition is_digit (c : ascii) : bool :=
  let n := nat_of_ascii c in (48 <=? n)%nat && (n <=? 57)%nat.

Fixpoint all_digits (s : string) : bool :=
  match s with
  | EmptyString => true
  | String c r => is_digit c && all_digits r
  end.

Fixpoint has_digit (s : string) : bool :=
  match s with
  | EmptyString => false
  | String c r => is_digit c || has_digit r
  end.

(** Whether [s] starts with a decimal digit. *)
Definition leading_digit (s : string) : bool :=
  match s with
  | EmptyString => false
  | String c _ => is_digit c
  end.

(** The longest prefix of decimal digits. *)
Fixpoint take_digits (s : string) : string :=
  match s with
  | EmptyString => EmptyString
  | String c r => if is_digit c then String c (take_digits r) else EmptyString
  end.

Fixpoint drop_digits (s : string) : string :=
  match s with
  | EmptyString => EmptyString
  | String c r => if is_digit c then drop_digits r else s
  end.

(** [s.match(/\d+/)]: the leftmost maximal run of decimal digits,
    [None] (a [null] match) when [s] holds no digit. *)
Fixpoint match_digits (s : string) : option string :=
  match s with
  | EmptyString => None
  | String c r => if is_digit c then Some (take_digits s) else match_digits r
  end.

(** [s.replace(/[^0-9]/g, '')]: every character that is not a decimal
    digit is deleted. *)
Fixpoint keep_digits (s : string) : string :=
  match s with
  | EmptyString => EmptyString
  | String c r => if is_digit c then String c (keep_digits r) else keep_digits r
  end.

Fixpoint rev_onto (s acc : string) : string :=
  match s with
  | EmptyString => acc
  | String c r => rev_onto r (String c acc)
  end.

Definition rev (s : string) : string := rev_onto s EmptyString.

Fixpoint drop (n : nat) (s : string) : string :=
  match n, s with
  | O, _ => s
  | S _, EmptyString => EmptyString
  | S k, String _ r => drop k r
  end.

(** [s.slice(-k)] for a positive [k]: the last [k] characters, the
    whole string when it is shorter. *)
Definition slice_last (k : nat) (s : string) : string :=
  drop (String.length s - k) s.

(** The white space and line terminators that [trim] removes, as the
    UTF-8 encodings of U+0009..U+000D, U+0020, U+00A0, U+1680,
    U+2000..U+200A, U+2028, U+2029, U+202F, U+205F, U+3000, U+FEFF.
    [white_prefix s] is the number of bytes of the white space
    character [s] starts with, 0 when it starts with none. *)
Definition white_prefix (s : string) : nat :=
  match s with
  | EmptyString => 0
  | String c r =>
      let n := nat_of_ascii c in
      if ((9 <=? n) && (n <=? 13)) || (n =? 32) then 1
      else
        match r with
        | EmptyString => 0
        | String c2 r2 =>
            let n2 := nat_of_ascii c2 in
            if (n =? 194) && (n2 =? 160) then 2
            else
              match r2 with
              | EmptyString => 0
              | String c3 _ =>
                  let n3 := nat_of_ascii c3 in
                  if (n =? 225) && (n2 =? 154) && (n3 =? 128) then 3
                  else if (n =? 226) && (n2 =? 128)
                          && (((128 <=? n3) && (n3 <=? 138))
                              || (n3 =? 168) || (n3 =? 169) || (n3 =? 175))
                  then 3
                  else if (n =? 226) && (n2 =? 129) && (n3 =? 159) then 3
                  else if (n =? 227) && (n2 =? 128) && (n3 =? 128) then 3
                  else if (n =? 239) && (n2 =? 187) && (n3 =? 191) then 3
                  else 0
              end
        end
  end%nat.

(** The same test on a reversed string, whose first bytes are the
    last bytes of the original: the number of bytes of the white space
    character the original ends with. *)
Definition white_suffix_rev (s : string) : nat :=
  match s with
  | EmptyString => 0
  | String c r =>
      let n := nat_of_ascii c in
      if ((9 <=? n) && (n <=? 13)) || (n =? 32) then 1
      else
        match r with
        | EmptyString => 0
        | String c2 r2 =>
            if (nat_of_ascii c2 =? 194) && (n =? 160) then 2
            else
              match r2 with
              | EmptyString => 0
              | String c3 _ =>
                  if white_prefix (String c3 (String c2 (String c EmptyString))) =? 3
                  then 3 else 0
              end
        end
  end%nat.

Fixpoint trim_with (white : string -> nat) (fuel : nat) (s : string) : string :=
  match fuel with
  | O => s
  | S f =>
      match white s with
      | O => s
      | k => trim_with white f (drop k s)
      end
  end.

Definition trimStart (s : string) : string :=
  trim_with white_prefix (String.length s) s.

Definition trimEnd (s : string) : string :=
  rev (trim_with white_suffix_rev (String.length s) (rev s)).

(** [s.trim()]. *)
Definition trim (s : string) : string := trimEnd (trimStart s).

End JsString.

Import JsString.

(* ================================================================== *)
(** * Addresses, customers, companies *)
(* ================================================================== *)

(** An address as it travels through the services.  Every property may
    be missing. *)
Record Address := mkAddress {
  firstName : option string;
  lastName : option string;
  address1 : option string;
  address2 : option string;
  city : option string;
  province : option string;
  provinceCode : option string;
  country : option string;
  countryCode : option string;
  zip : option string;
  phone : option string;
  company : option string
}.

(** The object literal [{}]. *)
Definition emptyAddress : Address :=
  mkAddress None None None None None None None None None None None None.

Record Customer := mkCustomer {
  customer_id : option string;
  customer_email : option string;
  customer_firstName : option string;
  customer_lastName : option string
}.

Record Company := mkCompany {
  company_name : option string
}.

(** ** [DraftOrderService.mergeAddress] *)

(** One property of the merged object: [primary.f || fallback.f || '']. *)
Definition mergeField (p f : option string) : option string :=
  Some (or_str (or_opt p f) "").

(** [mergeAddress(primary, fallback = {})].  The second argument is
    [None] when the caller passes [undefined]. *)
Definition mergeAddress (primary : Address) (fallback : option Address) : Address :=
  let fallback := match fallback with Some a => a | None => emptyAddress end in
  {| firstName := mergeField (firstName primary) (firstName fallback);
     lastName := mergeField (lastName primary) (lastName fallback);
     address1 := mergeField (address1 primary) (address1 fallback);
     address2 := mergeField (address2 primary) (address2 fallback);
     city := mergeField (city primary) (city fallback);
     province := mergeField (province primary) (province fallback);
     provinceCode := mergeField (provinceCode primary) (provinceCode fallback);
     country := mergeField (country primary) (country fallback);
     countryCode := mergeField (countryCode primary) (countryCode fallback);
     zip := mergeField (zip primary) (zip fallback);
     phone := mergeField (phone primary) (phone fallback);
     company := mergeField (company primary) (company fallback) |}.

(** The twelve properties of an address, by name. *)
Definition address_fields : list (string * (Address -> option string)) :=
  [ ("firstName", firstName); ("lastName", lastName);
    ("address1", address1); ("address2", address2);
    ("city", city); ("province", province);
    ("provinceCode", provinceCode); ("country", country);
    ("countryCode", countryCode); ("zip", zip);
    ("phone", phone); ("company", company) ].

(** A property is non-empty when it is present and not the empty string. *)
Definition nonEmpty (v : option string) : Prop :=
  exists s, v = Some s /\ s <> "".

Definition isEmpty (v : option string) : Prop :=
  v = None \/ v = Some "".

(** ** [PdfService.formatInvoiceAddress] *)

Record InvoiceAddress := mkInvoiceAddress {
  ia_companyName : string;
  ia_name : string;
  ia_line1 : string;
  ia_line2 : string;
  ia_city : string;
  ia_zip : string;
  ia_province : option string;
  ia_country : string
}.

(** [`${a} ${b}`.trim()] *)
Definition fullName (a b : option string) : string :=
  trim (interpolate a ++ " " ++ interpolate b).

(** Optional chaining [o?.f] on a property that holds a string. *)
Definition chain {A : Type} (o : option A) (f : A -> option string) : option string :=
  match o with
  | Some x => f x
  | None => None
  end.

(** [customer?.firstName && customer?.lastName
       ? `${customer.firstName} ${customer.lastName}`.trim() : 'Customer'] *)
Definition customerName (customer : option Customer) : string :=
  let first := chain customer customer_firstName in
  let last := chain customer customer_lastName in
  if both first last then fullName first last else "Customer".

(** [company?.name] *)
Definition companyName (purchaser : option Company) : option string :=
  chain purchaser company_name.

(** [formatInvoiceAddress(address, customer, company = null)]; the third
    parameter is called [purchaser] here, [company] being a property of
    addresses.  The object returned for a missing address has no
    [province] property. *)
Definition formatInvoiceAddress (address : option Address)
    (customer : option Customer) (purchaser : option Company) : InvoiceAddress :=
  match address with
  | None =>
      {| ia_companyName := or_str (companyName purchaser) "";
         ia_name := customerName customer;
         ia_line1 := ""; ia_line2 := ""; ia_city := ""; ia_zip := "";
         ia_province := None;
         ia_country := "" |}
  | Some a =>
      let name :=
        if both (firstName a) (lastName a)
        then fullName (firstName a) (lastName a)
        else customerName customer in
      {| ia_companyName := or_str (or_opt (companyName purchaser) (company a)) "";
         ia_name := name;
         ia_line1 := or_str (address1 a) "";
         ia_line2 := or_str (address2 a) "";
         ia_city := or_str (city a) "";
         ia_zip := or_str (zip a) "";
         ia_province := Some (or_str (province a) "");
         ia_country := or_str (country a) "" |}
  end.

(* ================================================================== *)
(** * Integers printed in decimal *)
(* ================================================================== *)

Module Decimal.

Local Open Scope Z_scope.

(** The character of a digit value; values outside 0..9 do not occur. *)
Definition digit_char (d : Z) : ascii :=
  ascii_of_nat (48 + Z.to_nat d).

(** Digits of a non-negative [n], most significant first, pushed in
    front of [acc].  [fuel] bounds the number of digits. *)
Fixpoint digits_onto (fuel : nat) (n : Z) (acc : string) : string :=
  match fuel with
  | O => acc
  | S f =>
      let acc' := String (digit_char (n mod 10)) acc in
      if n <? 10 then acc' else digits_onto f (n / 10) acc'
  end.

(** A number of binary digits bounds the number of decimal digits. *)
Definition digit_fuel (n : Z) : nat := S (Z.to_nat (Z.log2 n)).

Definition of_nonneg (n : Z) : string :=
  digits_onto (digit_fuel n) n EmptyString.

(** [String(n)], [n.toString()] and [`${n}`] for an integer [n]. *)
Definition toString (n : Z) : string :=
  if n <? 0 then String "-"%char (of_nonneg (- n)) else of_nonneg n.

(** Value of a string of decimal digits read after the value [acc]. *)
Fixpoint value_from (acc : Z) (s : string) : Z :=
  match s with
  | EmptyString => acc
  | String c r => value_from (10 * acc + (Z.of_nat (nat_of_ascii c) - 48)) r
  end.

Definition value (s : string) : Z := value_from 0 s.

(** The characters of [s] before its trailing zeros. *)
Fixpoint strip_trailing_zeros (s : string) : string :=
  match s with
  | EmptyString => EmptyString
  | String c r =>
      match strip_trailing_zeros r with
      | EmptyString => if Ascii.eqb c "0"%char then EmptyString else String c EmptyString
      | r' => String c r'
      end
  end.

(** [s] padded with zeros on the left to at least [k] characters. *)
Fixpoint pad_zeros (k : nat) (s : string) : string :=
  match k - String.length s with
  | O => s
  | S _ =>
      match k with
      | O => s
      | S k' => String "0"%char (pad_zeros k' s)
      end
  end%nat.

(** [`${ms / 1000}`] for an integer number of milliseconds: the
    quotient written with the digits it needs and no more.  This is
    what JavaScript prints as long as the quotient has at most 15
    significant digits. *)
Definition seconds_of_millis (ms : Z) : string :=
  let a := Z.abs ms in
  let whole := of_nonneg (a / 1000) in
  let frac := strip_trailing_zeros (pad_zeros 3 (of_nonneg (a mod 1000))) in
  let body :=
    match frac with
    | EmptyString => whole
    | _ => whole ++ "." ++ frac
    end in
  if ms <? 0 then String "-"%char body else body.

End Decimal.

(* ================================================================== *)
(** * Invoice numbers *)
(* ================================================================== *)

(** The default of the [prefix] parameter, and the prefix the invoice
    coordinator writes out in full. *)
Definition defaultPrefix : string := "INV-EE-".

(** [PdfService.generateInvoiceNumber(draftOrderName, prefix = 'INV-EE-')].
    [now] is the value [Date.now()] returns when the fallback reads it. *)
Definition generateInvoiceNumber (now : Z)
    (draftOrderName : option string) (prefix : option string) : string :=
  let prefix := match prefix with Some p => p | None => defaultPrefix end in
  let found :=
    match draftOrderName with
    | Some name => if truthy name then match_digits name else None
    | None => None
    end in
  match found with
  | Some digits => prefix ++ digits
  | None =>
      let timestamp := slice_last 6 (Decimal.toString now) in
      prefix ++ timestamp
  end.

(** The invoice number that [InvoicePdfService.generateAndAttachPdf]
    builds for the file name:
    [draftOrder.name ? `INV-EE-${draftOrder.name.replace(/[^0-9]/g, '')}`
                     : `INV-EE-${Date.now()}`]. *)
Definition filenameInvoiceNumber (now : Z) (name : option string) : string :=
  match name with
  | Some n =>
      if truthy n then "INV-EE-" ++ keep_digits n
      else "INV-EE-" ++ Decimal.toString now
  | None => "INV-EE-" ++ Decimal.toString now
  end.

(** [`vat_invoice_${invoiceNumber}.pdf`] *)
Definition invoiceFilename (invoiceNumber : string) : string :=
  "vat_invoice_" ++ invoiceNumber ++ ".pdf".

(* ================================================================== *)
(** * JavaScript numbers *)
(* ================================================================== *)

Module JsNumber.

Local Open Scope Z_scope.

(** A JavaScript number: a binary64 floating-point value. *)
Definition number : Type := spec_float.

Definition prec : Z := 53.
Definition emax : Z := 1024.

Definition NaN : number := S754_nan.
Definition zero : number := S754_zero false.

(** The number an integer literal denotes. *)
Definition of_Z (z : Z) : number := binary_normalize prec emax z 0 false.

Definition one : number := Eval vm_compute in of_Z 1.

(** The number nearest to [m * 10 ^ e] for a non-negative [m], ties to
    the even significand: the value of a decimal literal and of the
    digits [parseFloat] reads. *)
Definition of_decimal (negative : bool) (m e : Z) : number :=
  match m with
  | Z0 => S754_zero negative
  | Zneg _ => NaN
  | Zpos _ =>
      if 0 <=? e
      then binary_normalize prec emax (cond_Zopp negative (m * 10 ^ e)) 0 negative
      else
        let '(q, e', l) := SFdiv_core_binary prec emax m 0 (10 ^ (- e)) 0 in
        binary_round_aux prec emax negative q e' l
  end.

Definition mul : number -> number -> number := SFmul prec emax.
Definition add : number -> number -> number := SFadd prec emax.
Definition sub : number -> number -> number := SFsub prec emax.

(** [x > y] *)
Definition gt (x y : number) : bool := SFltb y x.

(** [!!x]: zero of either sign and NaN are falsy. *)
Definition truthy_num (x : number) : bool :=
  match x with
  | S754_zero _ | S754_nan => false
  | S754_infinity _ | S754_finite _ _ _ => true
  end.

(** [a || d] for a property that holds a number or is absent. *)
Definition or_num (a : option number) (d : number) : number :=
  match a with
  | Some x => if truthy_num x then x else d
  | None => d
  end.

(** ** Exact values *)

(** [10 ^ 21 <= m * 2 ^ e] *)
Definition at_least_1e21 (m : positive) (e : Z) : bool :=
  if 0 <=? e then 10 ^ 21 <=? Zpos m * 2 ^ e
  else 10 ^ 21 * 2 ^ (- e) <=? Zpos m.

(** The integer nearest to [m * 2 ^ e * 100], the larger one of two
    that are equally near. *)
Definition hundredths (m : positive) (e : Z) : Z :=
  if 0 <=? e then Zpos m * 2 ^ e * 100
  else (Zpos m * 200 + 2 ^ (- e)) / 2 ^ (1 - e).

(** The integer part of [m * 2 ^ e]. *)
Definition integer_part (m : positive) (e : Z) : Z :=
  if 0 <=? e then Zpos m * 2 ^ e else Zpos m / 2 ^ (- e).

(** ** [Number::toString] for numbers of 10^21 and more *)

(** Characters of [s] from the first, at most [k] of them. *)
Fixpoint take (k : nat) (s : string) : string :=
  match k, s with
  | O, _ => EmptyString
  | S _, EmptyString => EmptyString
  | S k', String c r => String c (take k' r)
  end.

(** Scientific notation of a positive integer [c] with no digit lost:
    first digit, the other significant digits after a point, the
    decimal exponent after [e+]. *)
Definition scientific (c : Z) : string :=
  let all := Decimal.of_nonneg c in
  let exponent := Decimal.toString (Z.of_nat (String.length all) - 1) in
  match Decimal.strip_trailing_zeros all with
  | EmptyString => all
  | String d EmptyString => String d ("e+" ++ exponent)
  | String d rest => String d ("." ++ rest ++ "e+" ++ exponent)
  end.

(** Whether the integer [c] is read back as the number [m * 2 ^ e], for
    [e >= 2]: it lies between the midpoints to the neighbouring
    numbers, a midpoint counting when the significand is even. *)
Definition reads_back (m : positive) (e : Z) (c : Z) : bool :=
  let v := Zpos m * 2 ^ e in
  let up := 2 ^ (e - 1) in
  let down := if (Zpos m =? 2 ^ (prec - 1)) then 2 ^ (e - 2) else 2 ^ (e - 1) in
  if Z.even (Zpos m)
  then (v - down <=? c) && (c <=? v + up)
  else (v - down <? c) && (c <? v + up).

(** The shortest decimal that is read back as [m * 2 ^ e], searched
    from [k] significant digits upwards; the nearer of the two
    candidates when both qualify. *)
Fixpoint shortest (fuel : nat) (m : positive) (e : Z) (k : Z) : Z :=
  let v := Zpos m * 2 ^ e in
  match fuel with
  | O => v
  | S f =>
      let n := Z.of_nat (String.length (Decimal.of_nonneg v)) in
      let p := 10 ^ (n - k) in
      let below := v / p * p in
      let above := below + p in
      match reads_back m e below, reads_back m e above with
      | true, true => if v - below <=? above - v then below else above
      | true, false => below
      | false, true => above
      | false, false => shortest f m e (k + 1)
      end
  end.

(** [Number::toString] of a positive number that is at least 10^21. *)
Definition toString_large (m : positive) (e : Z) : string :=
  scientific (shortest 17 m e 1).

(** [Number::toString] on the numbers it is applied to here: those
    without a fractional part, the infinities and NaN. *)
Definition toString_integral (x : number) : string :=
  match x with
  | S754_nan => "NaN"
  | S754_infinity false => "Infinity"
  | S754_infinity true => "-Infinity"
  | S754_zero _ => "0"
  | S754_finite s m e =>
      let body :=
        if at_least_1e21 m e then toString_large m e
        else Decimal.of_nonneg (integer_part m e) in
      if s then String "-"%char body else body
  end.

(** ** [Number.prototype.toFixed(2)] *)

(** The decimal digits of [n] hundredths with the point in place. *)
Definition fixed2 (n : Z) : string :=
  let digits := Decimal.pad_zeros 3 (Decimal.of_nonneg n) in
  take (String.length digits - 2) digits ++ "." ++ slice_last 2 digits.

Definition toFixed2 (x : number) : string :=
  match x with
  | S754_nan => "NaN"
  | S754_infinity false => "Infinity"
  | S754_infinity true => "-Infinity"
  | S754_zero _ => fixed2 0
  | S754_finite s m e =>
      let body :=
        if at_least_1e21 m e then toString_large m e
        else fixed2 (hundredths m e) in
      if s then String "-"%char body else body
  end.

(** ** [Math.round] *)

Definition round (x : number) : number :=
  match x with
  | S754_finite s m e =>
      if 0 <=? e then x
      else
        let k := - e in
        if s then
          (* the least integer that is not below [m / 2^k - 1/2] *)
          let n := - ((- (2 * Zpos m - 2 ^ k)) / 2 ^ (k + 1)) in
          if n <=? 0 then S754_zero true
          else binary_normalize prec emax (- n) 0 true
        else
          let n := (2 * Zpos m + 2 ^ k) / 2 ^ (k + 1) in
          binary_normalize prec emax n 0 false
  | _ => x
  end.

(** ** [parseFloat] *)

Definition starts_with (p s : string) : bool :=
  String.eqb (take (String.length p) s) p.

(** An exponent part [e], [e+] or [e-] followed by digits, if [s]
    starts with one; the exponent is 0 otherwise. *)
Definition exponent_part (s : string) : Z :=
  match s with
  | String c r =>
      if Ascii.eqb c "e"%char || Ascii.eqb c "E"%char then
        match r with
        | String "+"%char r' =>
            match take_digits r' with
            | EmptyString => 0
            | d => Decimal.value d
            end
        | String "-"%char r' =>
            match take_digits r' with
            | EmptyString => 0
            | d => - Decimal.value d
            end
        | _ =>
            match take_digits r with
            | EmptyString => 0
            | d => Decimal.value d
            end
        end
      else 0
  | EmptyString => 0
  end.

(** The longest prefix of [s] that is an unsigned decimal literal. *)
Definition unsigned_literal (negative : bool) (s : string) : number :=
  if starts_with "Infinity" s then S754_infinity negative
  else
    let whole := take_digits s in
    let rest := drop_digits s in
    match rest with
    | String "."%char after =>
        let frac := take_digits after in
        match whole, frac with
        | EmptyString, EmptyString => NaN
        | _, _ =>
            of_decimal negative (Decimal.value (whole ++ frac))
              (exponent_part (drop_digits after) - Z.of_nat (String.length frac))
        end
    | _ =>
        match whole with
        | EmptyString => NaN
        | _ => of_decimal negative (Decimal.value whole) (exponent_part rest)
        end
    end.

(** [parseFloat(s)]: leading white space is skipped, then an optional
    sign and the longest decimal literal are read; NaN when there is
    none. *)
Definition parseFloat (s : string) : number :=
  match trimStart s with
  | String "-"%char r => unsigned_literal true r
  | String "+"%char r => unsigned_literal false r
  | r => unsigned_literal false r
  end.

End JsNumber.

Import JsNumber.

(* ================================================================== *)
(** * The draft order projection *)
(* ================================================================== *)

(** The two values that stand for "no value". *)
Inductive Nullish := undefined | null.

(** A monetary amount as the platform or a caller hands it over: a
    string such as ["12.50"], a number, or nothing. *)
Inductive Amount :=
| Missing (n : Nullish)
| Numeric (x : number)
| Textual (s : string).

(** The argument of [formatPrice]: a number, or nothing. *)
Inductive Price :=
| Unpriced (n : Nullish)
| Priced (x : number).

Record TaxLine := mkTaxLine {
  tax_title : option string;
  tax_rate : option number;
  tax_price : Amount
}.

Record Variant := mkVariant {
  variant_id : option string;
  variant_title : option string;
  variant_sku : option string
}.

(** The [node] of one edge of [lineItems]. *)
Record LineItemNode := mkLineItemNode {
  node_id : option string;
  node_title : option string;
  node_quantity : option number;
  node_originalUnitPrice : Amount;
  node_taxLines : option (list TaxLine);
  node_variant : option Variant
}.

(** The connection [lineItems { edges { node {...} } }]; an edge is
    identified with its node. *)
Record LineItemConnection := mkConnection {
  edges : option (list LineItemNode)
}.

Record ShippingLine := mkShippingLine {
  shipping_title : option string;
  shipping_price : Amount;
  shipping_taxLines : option (list TaxLine)
}.

Record PurchasingEntityNode := mkPurchasingEntityNode {
  pe_company : option Company
}.

(** A draft order, both as the platform returns it (with
    [purchasingEntity]) and as [formatDraftOrderResponse] hands it on
    (with [company]).  The discount properties, which no operation
    below reads, are left out. *)
Record DraftOrder := mkDraftOrder {
  id : option string;
  name : option string;
  status : option string;
  invoiceUrl : option string;
  createdAt : option string;
  updatedAt : option string;
  totalPrice : Amount;
  subtotalPrice : Amount;
  totalTax : Amount;
  currencyCode : option string;
  taxLines : option (list TaxLine);
  shippingLine : option ShippingLine;
  customer : option Customer;
  shippingAddress : option Address;
  billingAddress : option Address;
  lineItems : option LineItemConnection;
  purchasingEntity : option PurchasingEntityNode;
  draftOrder_company : option Company
}.

(* ================================================================== *)
(** * [PdfService]: the pure helpers behind the invoice document *)
(* ================================================================== *)

(** The regional default of 24%, the literal [0.24]. *)
Definition defaultVatRate : number := Eval vm_compute in of_decimal false 24 (-2).

(** The literal [100]. *)
Definition hundred : number := Eval vm_compute in of_Z 100.

(** [parseAmount(amount)] *)
Definition parseAmount (amount : Amount) : number :=
  match amount with
  | Missing _ => zero
  | Numeric x => x
  | Textual s => or_num (Some (parseFloat s)) zero
  end.

(** The default of the [currencySymbol] parameter. *)
Definition euro : string := "€".

(** [formatPrice(price, currencySymbol = '€')] *)
Definition formatPrice (price : Price) (currencySymbol : option string) : string :=
  let currencySymbol := match currencySymbol with Some s => s | None => euro end in
  match price with
  | Unpriced _ => currencySymbol ++ "0.00"
  | Priced x => currencySymbol ++ toFixed2 x
  end.

(** [getLineItemVatRate(taxLines)] *)
Definition getLineItemVatRate (taxLines : option (list TaxLine)) : number :=
  match taxLines with
  | None | Some [] => zero
  | Some (first :: _) => or_num (tax_rate first) zero
  end.

(** One entry of the list [processInvoiceLineItems] returns. *)
Record InvoiceLine := mkInvoiceLine {
  description : string;
  title : option string;
  variantTitle : string;
  sku : string;
  quantity : number;
  unitPrice : string;
  unitPriceRaw : number;
  vatRate : number;
  vatRateFormatted : string;
  amount : string;
  amountRaw : number
}.

(** [`${Math.round(rate * 100)}%`] *)
Definition formatRate (rate : number) : string :=
  toString_integral (round (mul rate hundred)) ++ "%".

(** [a !== b] between a string and a property that may be absent. *)
Definition differs (a : string) (b : option string) : bool :=
  match b with
  | Some s => negb (String.eqb a s)
  | None => true
  end.

(** The body of the [map] callback in [processInvoiceLineItems]. *)
Definition processLineItem (currencySymbol : string) (node : LineItemNode) : InvoiceLine :=
  let quantity := or_num (node_quantity node) one in
  let unitPrice := parseAmount (node_originalUnitPrice node) in
  let lineTotal := mul unitPrice quantity in
  let vatRate := getLineItemVatRate (node_taxLines node) in
  let variantTitle := chain (node_variant node) variant_title in
  let sku := chain (node_variant node) variant_sku in
  let description := or_str (node_title node) "Product" in
  let description :=
    match variantTitle with
    | Some v =>
        if truthy v && negb (String.eqb v "Default Title") && differs v (node_title node)
        then description ++ " (" ++ v ++ ")"
        else description
    | None => description
    end in
  let description :=
    match sku with
    | Some s => if truthy s then description ++ " (" ++ s ++ ")" else description
    | None => description
    end in
  {| description := description;
     title := node_title node;
     variantTitle := or_str variantTitle "";
     sku := or_str sku "";
     quantity := quantity;
     unitPrice := formatPrice (Priced unitPrice) (Some currencySymbol);
     unitPriceRaw := unitPrice;
     vatRate := vatRate;
     vatRateFormatted := formatRate vatRate;
     amount := formatPrice (Priced lineTotal) (Some currencySymbol);
     amountRaw := lineTotal |}.

(** [processInvoiceLineItems(lineItems, currencySymbol)] *)
Definition processInvoiceLineItems (lineItems : option LineItemConnection)
    (currencySymbol : string) : list InvoiceLine :=
  match lineItems with
  | None => []
  | Some connection =>
      match edges connection with
      | None => []
      | Some nodes => map (processLineItem currencySymbol) nodes
      end
  end.

(** [getPrimaryVatRate(lineItems, orderTaxLines)] *)
Definition getPrimaryVatRate (lineItems : option (list InvoiceLine))
    (orderTaxLines : option (list TaxLine)) : number :=
  let fromLines :=
    match lineItems with
    | Some items => find (fun item => gt (vatRate item) zero) items
    | None => None
    end in
  match fromLines with
  | Some firstWithRate => vatRate firstWithRate
  | None =>
      match orderTaxLines with
      | Some (first :: _) => or_num (tax_rate first) zero
      | Some [] | None => defaultVatRate
      end
  end.

(** [calculateShippingTax(shippingLine)] *)
Definition calculateShippingTax (shippingLine : option ShippingLine) : number :=
  match shippingLine with
  | None => zero
  | Some line =>
      match shipping_taxLines line with
      | None | Some [] => zero
      | Some taxes => fold_left (fun sum tax => add sum (parseAmount (tax_price tax))) taxes zero
      end
  end.

(** [getShippingTaxRate(shippingLine)] *)
Definition getShippingTaxRate (shippingLine : option ShippingLine) : number :=
  match shippingLine with
  | None => defaultVatRate
  | Some line =>
      match shipping_taxLines line with
      | None | Some [] => defaultVatRate
      | Some (first :: _) => or_num (tax_rate first) defaultVatRate
      end
  end.

(** The process-wide configuration read by the invoice document:
    [fastify.config.invoice.prefix]. *)
Record InvoiceConfig := mkInvoiceConfig {
  config_prefix : option string
}.

(** The part of [prepareInvoiceTemplateData] that the operations above
    determine.  [currencySymbol] is what [getCurrencySymbol] answers for
    the order's currency, [now] what [Date.now()] returns. *)
Record InvoiceDocument := mkInvoiceDocument {
  invoiceNumber : string;
  invoiceTotal : string;
  billTo : InvoiceAddress;
  shipTo : InvoiceAddress;
  doc_lineItems : list InvoiceLine;
  pricing_subtotal : string;
  pricing_subtotalRaw : number;
  pricing_vatRate : number;
  pricing_vatRateFormatted : string;
  pricing_vatAmount : string;
  pricing_shipping : string;
  pricing_shippingRaw : number;
  pricing_shippingVatRate : number;
  pricing_shippingVatRateFormatted : string;
  pricing_shippingVat : string;
  pricing_total : string;
  pricing_totalRaw : number
}.

Definition prepareInvoiceTemplateData (config : InvoiceConfig) (now : Z)
    (currencySymbol : string) (draftOrder : DraftOrder) : InvoiceDocument :=
  let invoiceNumber := generateInvoiceNumber now (name draftOrder) (config_prefix config) in
  let subtotal := parseAmount (subtotalPrice draftOrder) in
  let totalTax := parseAmount (totalTax draftOrder) in
  let total := parseAmount (totalPrice draftOrder) in
  let shippingLine := shippingLine draftOrder in
  let shippingPrice :=
    parseAmount (match shippingLine with
                 | Some line => shipping_price line
                 | None => Missing undefined
                 end) in
  let shippingTax := calculateShippingTax shippingLine in
  let shippingTaxRate := getShippingTaxRate shippingLine in
  let lineItems := processInvoiceLineItems (lineItems draftOrder) currencySymbol in
  let primaryVatRate := getPrimaryVatRate (Some lineItems) (taxLines draftOrder) in
  let billToAddress :=
    formatInvoiceAddress
      (match billingAddress draftOrder with
       | Some a => Some a
       | None => shippingAddress draftOrder
       end)
      (customer draftOrder) (draftOrder_company draftOrder) in
  let shipToAddress :=
    formatInvoiceAddress (shippingAddress draftOrder)
      (customer draftOrder) (draftOrder_company draftOrder) in
  let price x := formatPrice (Priced x) (Some currencySymbol) in
  {| invoiceNumber := invoiceNumber;
     invoiceTotal := price total;
     billTo := billToAddress;
     shipTo := shipToAddress;
     doc_lineItems := lineItems;
     pricing_subtotal := price subtotal;
     pricing_subtotalRaw := subtotal;
     pricing_vatRate := primaryVatRate;
     pricing_vatRateFormatted := formatRate primaryVatRate;
     pricing_vatAmount := price (sub totalTax shippingTax);
     pricing_shipping := price shippingPrice;
     pricing_shippingRaw := shippingPrice;
     pricing_shippingVatRate := shippingTaxRate;
     pricing_shippingVatRateFormatted := formatRate shippingTaxRate;
     pricing_shippingVat := price shippingTax;
     pricing_total := price total;
     pricing_totalRaw := total |}.

(* ================================================================== *)
(** * Requests to the commerce platform *)
(* ================================================================== *)

(** ** What [createDraftOrder] receives and sends *)

Record Property := mkProperty {
  prop_key : option string;
  prop_value : option string
}.

(** A cart line; the properties [createDraftOrder] does not read
    (title, price, image, ...) are left out. *)
Record CartLine := mkCartLine {
  line_variantId : option string;
  line_quantity : option Z;
  line_properties : option (list Property)
}.

(** [data.purchasingEntity], flattened to the two identifiers read
    through it: [company?.id] and [location?.id]. *)
Record PurchasingEntity := mkPurchasingEntity {
  entity_companyId : option string;
  entity_locationId : option string
}.

Record CheckoutData := mkCheckoutData {
  cartLines : option (list CartLine);
  data_customer : option Customer;
  data_purchasingEntity : option PurchasingEntity;
  data_shippingAddress : option Address;
  data_billingAddress : option Address;
  note : option string;
  cartToken : option string
}.

Record LineItemInput := mkLineItemInput {
  input_variantId : option string;
  input_quantity : option Z;
  customAttributes : option (list Property)
}.

Record PurchasingCompany := mkPurchasingCompany {
  companyId : option string;
  companyLocationId : option string;
  companyContactId : option string
}.

(** The [input] variable of the [draftOrderCreate] mutation. *)
Record DraftOrderInput := mkDraftOrderInput {
  input_lineItems : list LineItemInput;
  input_email : option string;
  input_purchasingEntity : option PurchasingCompany;
  input_shippingAddress : option Address;
  input_billingAddress : option Address;
  input_note : option string;
  input_tags : list string
}.

(** ** Requests and responses *)

Inductive Request :=
| NodeQuery (fileId : string)
| CustomerCompanyContacts (customerId : string)
| DraftOrderCreate (input : DraftOrderInput).

Record FileError := mkFileError {
  error_code : string;
  error_message : string
}.

(** [response.data.node] of the file status query. *)
Record FileNode := mkFileNode {
  fileStatus : option string;
  file_url : option string;
  fileErrors : option (list FileError)
}.

Record ContactProfile := mkContactProfile {
  profile_id : option string;
  profile_companyId : option string
}.

Record CustomerNode := mkCustomerNode {
  companyContactProfiles : option (list ContactProfile)
}.

Record UserError := mkUserError {
  userError_message : string
}.

Record DraftOrderCreatePayload := mkDraftOrderCreatePayload {
  payload_draftOrder : option DraftOrder;
  userErrors : option (list UserError)
}.

(** The [data] of a response, one property per operation; a property
    the platform did not send is [None], as is every property of a
    response without [data]. *)
Record Response := mkResponse {
  data_node : option FileNode;
  data_customerNode : option CustomerNode;
  data_draftOrderCreate : option DraftOrderCreatePayload
}.

Definition emptyResponse : Response := mkResponse None None None.

(* ================================================================== *)
(** * Asynchronous methods *)
(* ================================================================== *)

(** [new Error(message)] *)
Inductive exn := Error (message : string).

Definition message (e : exn) : string :=
  match e with Error m => m end.

(** How a call ends. *)
Inductive Outcome (A : Type) :=
| Returned (a : A)
| Thrown (e : exn).

Arguments Returned {A} a.
Arguments Thrown {A} e.

Inductive Level := info | warn | error | console.

(** What a run leaves behind, in the order it happened. *)
Inductive Event :=
| Requested (r : Request)
| Slept (ms : Z)
| Logged (level : Level) (text : string).

(** The platform behind the admin client: what it answers to the
    request that is issued as the [k]-th one, counting from 0. *)
Definition Platform : Type := nat -> Request -> Outcome Response.

Record World := mkWorld {
  adminClient : option Platform;
  clock : Z;
  trace : list Event
}.

Definition is_request (e : Event) : bool :=
  match e with
  | Requested _ => true
  | _ => false
  end.

(** The requests issued so far. *)
Definition requests (w : World) : list Event := filter is_request (trace w).

Definition is_sleep (e : Event) : bool :=
  match e with
  | Slept _ => true
  | _ => false
  end.

Definition sleeps (w : World) : list Event := filter is_sleep (trace w).

Definition record (e : Event) (w : World) : World :=
  {| adminClient := adminClient w; clock := clock w; trace := trace w ++ [e] |}.

(** A method body: it reads and extends the world and returns or
    throws.  What happened before a throw stays in the world. *)
Definition M (A : Type) : Type := World -> Outcome A * World.

Definition ret {A : Type} (a : A) : M A := fun w => (Returned a, w).

Definition throw {A : Type} (e : exn) : M A := fun w => (Thrown e, w).

Definition bind {A B : Type} (c : M A) (k : A -> M B) : M B :=
  fun w =>
    match c w with
    | (Returned a, w') => k a w'
    | (Thrown e, w') => (Thrown e, w')
    end.

(** [try { c } catch (error) { handler error }] *)
Definition try_catch {A : Type} (c : M A) (handler : exn -> M A) : M A :=
  fun w =>
    match c w with
    | (Returned a, w') => (Returned a, w')
    | (Thrown e, w') => handler e w'
    end.

Declare Scope js_scope.
Delimit Scope js_scope with js.
Notation "x <- c ;; k" := (bind c (fun x => k))
  (at level 61, c at next level, right associativity) : js_scope.
Notation "c ;; k" := (bind c (fun _ => k))
  (at level 61, right associativity) : js_scope.
Local Open Scope js_scope.

(** [this.fastify.log.<level>(..., text)] and [console.log]. *)
Definition log (level : Level) (text : string) : M unit :=
  fun w => (Returned tt, record (Logged level text) w).

(** [Date.now()] *)
Definition dateNow : M Z := fun w => (Returned (clock w), w).

(** [await new Promise(resolve => setTimeout(resolve, ms))] *)
Definition sleep (ms : Z) : M unit :=
  fun w =>
    (Returned tt,
     {| adminClient := adminClient w;
        clock := clock w + Z.max ms 0;
        trace := trace w ++ [Slept ms] |}).

(** [await this.adminClient.request(...)].  Without a client the
    property access itself throws. *)
Definition request (r : Request) : M Response :=
  fun w =>
    match adminClient w with
    | None =>
        (Thrown (Error "Cannot read properties of undefined (reading 'request')"), w)
    | Some platform =>
        (platform (List.length (requests w)) r, record (Requested r) w)
    end.

(** [xs.join(', ')] *)
Definition join (xs : list string) : string := String.concat ", " xs.

(* ================================================================== *)
(** * [ShopifyFileService.waitForFileUrl] *)
(* ================================================================== *)

Definition status_is (s : string) (file : option FileNode) : bool :=
  match chain file fileStatus with
  | Some t => String.eqb t s
  | None => false
  end.

(** [file?.fileErrors?.map(e => `${e.code}: ${e.message}`).join(', ')] *)
Definition fileErrorsText (file : option FileNode) : option string :=
  match file with
  | Some f =>
      match fileErrors f with
      | Some errors =>
          Some (join (map (fun e => error_code e ++ ": " ++ error_message e) errors))
      | None => None
      end
  | None => None
  end.

(** The message of the error thrown when the attempts are used up. *)
Definition timeoutMessage (fileId : string) (maxRetries delayMs : Z) : string :=
  "File " ++ fileId ++ " did not become ready after "
  ++ Decimal.toString maxRetries ++ " attempts ("
  ++ Decimal.seconds_of_millis (maxRetries * delayMs) ++ "s timeout)".

(** How one turn of the [while] loop ends when it neither returns a
    URL nor throws: with the incremented counter. *)
Inductive Turn :=
| Ready (url : string)
| Again (attempts : Z).

(** The body of the loop, entered with [attempts < maxRetries]. *)
Definition pollOnce (fileId : string) (maxRetries delayMs attempts : Z) : M Turn :=
  response <- request (NodeQuery fileId) ;;
  let file := data_node response in
  let readyUrl :=
    if status_is "READY" file then when_set (chain file file_url) else None in
  match readyUrl with
  | Some url =>
      log info "File URL is ready" ;;
      ret (Ready url)
  | None =>
      if status_is "FAILED" file then
        throw (Error ("File processing failed: "
                      ++ or_str (fileErrorsText file) "Unknown error"))
      else
        let attempts := (attempts + 1)%Z in
        (if (attempts <? maxRetries)%Z
         then log info "File not ready yet, waiting..." ;; sleep delayMs
         else ret tt) ;;
        ret (Again attempts)
  end.

(** [while (attempts < maxRetries) { ... }] followed by the final
    [throw].  [fuel] bounds the number of turns; [None] means the bound
    was too small to see the loop end. *)
Fixpoint pollFile (fuel : nat) (fileId : string) (maxRetries delayMs attempts : Z)
    (w : World) : option (Outcome string * World) :=
  if (attempts <? maxRetries)%Z then
    match fuel with
    | O => None
    | S fuel' =>
        match pollOnce fileId maxRetries delayMs attempts w with
        | (Returned (Ready url), w') => Some (Returned url, w')
        | (Returned (Again attempts'), w') =>
            pollFile fuel' fileId maxRetries delayMs attempts' w'
        | (Thrown e, w') => Some (Thrown e, w')
        end
    end
  else Some (Thrown (Error (timeoutMessage fileId maxRetries delayMs)), w).

(** [waitForFileUrl(fileId, maxRetries = 10, delayMs = 1000)] *)
Definition waitForFileUrl (fileId : string) (maxRetries delayMs : option Z)
    (w : World) : option (Outcome string * World) :=
  let maxRetries := match maxRetries with Some n => n | None => 10%Z end in
  let delayMs := match delayMs with Some d => d | None => 1000%Z end in
  let '(_, w) := log info "Waiting for file URL to become available" w in
  pollFile (Z.to_nat maxRetries) fileId maxRetries delayMs 0 w.

(* ================================================================== *)
(** * [DraftOrderService] *)
(* ================================================================== *)

(** [hasAddressData(address)] *)
Definition hasAddressData (address : Address) : bool :=
  truthy_opt (address1 address) || truthy_opt (city address)
  || truthy_opt (country address) || truthy_opt (countryCode address).

(** [buildShopifyAddress(address)] *)
Definition buildShopifyAddress (address : Address) : Address :=
  {| firstName := when_set (firstName address);
     lastName := when_set (lastName address);
     address1 := when_set (address1 address);
     address2 := when_set (address2 address);
     city := when_set (city address);
     province := when_set (province address);
     provinceCode := when_set (provinceCode address);
     country := when_set (country address);
     countryCode := when_set (countryCode address);
     zip := when_set (zip address);
     phone := when_set (phone address);
     company := when_set (company address) |}.

(** [formatDraftOrderResponse(draftOrder)] *)
Definition formatDraftOrderResponse (draftOrder : DraftOrder) : DraftOrder :=
  {| id := id draftOrder;
     name := name draftOrder;
     status := status draftOrder;
     invoiceUrl := invoiceUrl draftOrder;
     createdAt := createdAt draftOrder;
     updatedAt := updatedAt draftOrder;
     totalPrice := totalPrice draftOrder;
     subtotalPrice := subtotalPrice draftOrder;
     totalTax := totalTax draftOrder;
     currencyCode := currencyCode draftOrder;
     taxLines := Some (match taxLines draftOrder with Some l => l | None => [] end);
     shippingLine := shippingLine draftOrder;
     customer := customer draftOrder;
     shippingAddress := shippingAddress draftOrder;
     billingAddress := billingAddress draftOrder;
     lineItems := lineItems draftOrder;
     purchasingEntity := None;
     draftOrder_company :=
       match purchasingEntity draftOrder with
       | Some entity => pe_company entity
       | None => None
       end |}.

(** [profile.company?.id === companyId] *)
Definition profileOf (companyId : string) (profile : ContactProfile) : bool :=
  match profile_companyId profile with
  | Some c => String.eqb c companyId
  | None => false
  end.

(** [fetchCompanyContactId(customerId, companyId)] *)
Definition fetchCompanyContactId (customerId companyId : string) : M (option string) :=
  fun w =>
    match adminClient w with
    | None => (Returned None, w)
    | Some _ =>
        try_catch
          (response <- request (CustomerCompanyContacts customerId) ;;
           let profiles :=
             match data_customerNode response with
             | Some c =>
                 match companyContactProfiles c with
                 | Some l => l
                 | None => []
                 end
             | None => []
             end in
           log console "profiles" ;;
           match find (profileOf companyId) profiles with
           | Some found => ret (profile_id found)
           | None => ret None
           end)
          (fun _ =>
             log warn "Failed to fetch company contact ID" ;;
             ret None)
          w
    end%js.

(** The line item built for one cart line. *)
Definition buildLineItem (line : CartLine) : LineItemInput :=
  {| input_variantId := line_variantId line;
     input_quantity := line_quantity line;
     customAttributes :=
       match line_properties line with
       | Some (p :: ps) =>
           Some (map (fun prop => mkProperty (prop_key prop) (prop_value prop)) (p :: ps))
       | Some [] | None => None
       end |}.

(** The purchasing company of a B2B order, present when both the
    company and the location are identified. *)
Definition resolvePurchasingEntity (data : CheckoutData) : M (option PurchasingCompany) :=
  let customerId := chain (data_customer data) customer_id in
  match when_set (chain (data_purchasingEntity data) entity_companyId),
        when_set (chain (data_purchasingEntity data) entity_locationId) with
  | Some company, Some location =>
      contact <-
        match when_set customerId with
        | Some customer =>
            fetched <- fetchCompanyContactId customer company ;;
            ret (if truthy_opt fetched then fetched else customerId)
        | None => ret customerId
        end ;;
      ret (Some {| companyId := Some company;
                   companyLocationId := Some location;
                   companyContactId := contact |})
  | _, _ => ret None
  end.

(** [data.a && this.hasAddressData(data.a)], then [buildShopifyAddress]. *)
Definition addressInput (address : option Address) : option Address :=
  match address with
  | Some a => if hasAddressData a then Some (buildShopifyAddress a) else None
  | None => None
  end.

(** [createDraftOrder(data)] *)
Definition createDraftOrder (data : CheckoutData) : M DraftOrder :=
  fun w =>
    match adminClient w with
    | None => (Thrown (Error "Admin API client not configured"), w)
    | Some _ =>
        match cartLines data with
        | None | Some [] => (Thrown (Error "No line items provided"), w)
        | Some lines =>
            (log info "Creating draft order" ;;
             let lineItems := map buildLineItem lines in
             let email := when_set (chain (data_customer data) customer_email) in
             log info "Processing checkout data" ;;
             entity <- resolvePurchasingEntity data ;;
             let input :=
               {| input_lineItems := lineItems;
                  input_email := email;
                  input_purchasingEntity := entity;
                  input_shippingAddress := addressInput (data_shippingAddress data);
                  input_billingAddress := addressInput (data_billingAddress data);
                  input_note := when_set (note data);
                  input_tags :=
                    if truthy_opt (cartToken data)
                    then ["quote-request"; "cart-api"]
                    else ["quote-request"] |} in
             try_catch
               (log console "input" ;;
                response <- request (DraftOrderCreate input) ;;
                let payload := data_draftOrderCreate response in
                match payload with
                | Some {| userErrors := Some (e :: es) |} =>
                    log error "Draft order creation failed with user errors" ;;
                    throw (Error ("Draft order creation failed: "
                                  ++ join (map userError_message (e :: es))))
                | _ =>
                    match payload with
                    | Some {| payload_draftOrder := Some draftOrder |} =>
                        log info "Draft order created successfully" ;;
                        ret (formatDraftOrderResponse draftOrder)
                    | _ =>
                        throw (Error "Draft order creation failed: No draft order returned")
                    end
                end)
               (fun err =>
                  log error "Failed to create draft order" ;;
                  throw (Error ("Failed to create draft order: " ++ message err)))) w
        end
    end%js.

(* ================================================================== *)
(** * [InvoicePdfService] *)
(* ================================================================== *)

(** The bytes of a rendered PDF. *)
Definition Pdf : Type := list Byte.byte.

(** The argument of [generateInvoicePdf]. *)
Record InvoiceData := mkInvoiceData {
  invoice_draftOrder : DraftOrder;
  invoice_payload : option CheckoutData
}.

(** What [uploadPdf] resolves to: the file record with the ready URL. *)
Record FileRecord := mkFileRecord {
  record_id : option string;
  record_url : option string
}.

(** The methods [generateAndAttachPdf] reaches through
    [this.fastify.services]: the renderer ([services.pdf]) and the
    uploader ([services.shopifyFile]).  Any of them may throw. *)
Record Services := mkServices {
  generateInvoicePdf : InvoiceData -> M Pdf;
  uploadPdf : Pdf -> string -> string -> M FileRecord;
  attachFileToDraftOrder : option string -> option string -> M unit
}.

(** The object [generateAndAttachPdf] resolves to. *)
Record PdfResult := mkPdfResult {
  result_status : string;
  result_url : option string
}.

(** [generateAndAttachPdf(draftOrder, payload = null)].  The third
    argument of [uploadPdf] is the [alt] text of its metadata. *)
Definition generateAndAttachPdf (services : Services)
    (draftOrder : DraftOrder) (payload : option CheckoutData) : M PdfResult :=
  try_catch
    (let invoiceData :=
       {| invoice_draftOrder := draftOrder; invoice_payload := payload |} in
     pdfFile <- generateInvoicePdf services invoiceData ;;
     let pdfBuffer := pdfFile in
     now <- dateNow ;;
     let invoiceNumber := filenameInvoiceNumber now (name draftOrder) in
     let filename := invoiceFilename invoiceNumber in
     file <- uploadPdf services pdfBuffer filename ("VAT Invoice " ++ invoiceNumber) ;;
     attachFileToDraftOrder services (id draftOrder) (record_url file) ;;
     log info "VAT Invoice PDF created and attached successfully" ;;
     ret {| result_status := "completed"; result_url := record_url file |})
    (fun _ =>
       log error "PDF generation/upload failed" ;;
       ret {| result_status := "pdf_failed"; result_url := None |})%js.

(* ================================================================== *)
(** * More of the language: substrings and dates *)
(* ================================================================== *)

(** [s.includes(needle)] *)
Fixpoint includes (needle s : string) : bool :=
  String.prefix needle s
  || match s with
     | EmptyString => false
     | String _ r => includes needle r
     end.

Module JsDate.

Local Open Scope Z_scope.

Definition msPerDay : Z := 86400000.

(** Year, month (1 to 12) and day of the month of the day that lies
    [days] days after 1 January 1970 in the Gregorian calendar, which
    is counted in eras of 400 years that start on 1 March. *)
Definition civil (days : Z) : Z * Z * Z :=
  let z := days + 719468 in
  let era := z / 146097 in
  let doe := z mod 146097 in
  let yoe := (doe - doe / 1460 + doe / 36524 - doe / 146096) / 365 in
  let doy := doe - (365 * yoe + yoe / 4 - yoe / 100) in
  let mp := (5 * doy + 2) / 153 in
  let d := doy - (153 * mp + 2) / 5 + 1 in
  let m := if mp <? 10 then mp + 3 else mp - 9 in
  (yoe + era * 400 + (if m <=? 2 then 1 else 0), m, d).

Definition two (n : Z) : string := Decimal.pad_zeros 2 (Decimal.of_nonneg n).

Definition three (n : Z) : string := Decimal.pad_zeros 3 (Decimal.of_nonneg n).

(** The year as [toISOString] writes it: four digits from 0 to 9999,
    a sign and six digits otherwise. *)
Definition isoYear (y : Z) : string :=
  if (0 <=? y) && (y <=? 9999) then Decimal.pad_zeros 4 (Decimal.of_nonneg y)
  else String (if y <? 0 then "-"%char else "+"%char)
         (Decimal.pad_zeros 6 (Decimal.of_nonneg (Z.abs y))).

(** [new Date(t).toISOString()] for a time value [t] in milliseconds. *)
Definition toISOString (t : Z) : string :=
  let '(y, m, d) := civil (t / msPerDay) in
  let ms := t mod msPerDay in
  (isoYear y ++ "-" ++ two m ++ "-" ++ two d
   ++ "T" ++ two (ms / 3600000) ++ ":" ++ two (ms / 60000 mod 60)
   ++ ":" ++ two (ms / 1000 mod 60) ++ "." ++ three (ms mod 1000) ++ "Z")%string.

End JsDate.

(* ================================================================== *)
(** * The other operations of the admin client *)
(* ================================================================== *)

(** ** What is sent *)

(** One entry of the [input] of [stagedUploadsCreate]. *)
Record StagedUploadInput := mkStagedUploadInput {
  staged_filename : string;
  staged_mimeType : string;
  staged_resource : string;
  staged_httpMethod : string
}.

(** One entry of the [files] of [fileCreate]. *)
Record FileCreateInput := mkFileCreateInput {
  create_alt : string;
  create_contentType : string;
  create_originalSource : option string
}.

Record MetafieldInput := mkMetafieldInput {
  metafield_namespace : string;
  metafield_key : string;
  metafield_type : string;
  metafield_value : option string
}.

(** The [input] of [draftOrderUpdate]: metafields, or a note. *)
Record DraftOrderUpdateInput := mkDraftOrderUpdateInput {
  update_metafields : option (list MetafieldInput);
  update_note : option string
}.

(** The [email] variable of [draftOrderInvoiceSend]; a property that
    was not set is absent. *)
Record EmailInput := mkEmailInput {
  email_to : option string;
  email_from : option string;
  email_bcc : option (list string);
  email_subject : option string;
  email_customMessage : option string
}.

Inductive Operation :=
| StagedUploadsCreate (input : list StagedUploadInput)
| FileCreate (files : list FileCreateInput)
| DraftOrderUpdate (id : option string) (input : DraftOrderUpdateInput)
| DraftOrderById (id : string)
| DraftOrderInvoiceSend (id : option string) (email : option EmailInput).

(** ** What is answered

    Where the code reads a property without a guard ([file.id],
    [stagedUpload.parameters]), the schema of the platform declares it
    non-null and the record has it without [option]. *)

Record StagedParameter := mkStagedParameter {
  parameter_name : string;
  parameter_value : string
}.

Record StagedTarget := mkStagedTarget {
  target_url : option string;
  target_resourceUrl : option string;
  target_parameters : list StagedParameter
}.

Record StagedUploadsCreatePayload := mkStagedUploadsCreatePayload {
  stagedTargets : option (list StagedTarget);
  staged_userErrors : option (list UserError)
}.

Record GenericFile := mkGenericFile {
  file_id : string;
  generic_url : option string;
  file_alt : option string;
  file_createdAt : option string
}.

Record FileCreatePayload := mkFileCreatePayload {
  created_files : option (list GenericFile);
  created_userErrors : option (list UserError)
}.

(** The draft order a [draftOrderUpdate] returns; its metafields, which
    are only counted for a log line, are left out. *)
Record UpdatedDraftOrder := mkUpdatedDraftOrder {
  updated_id : option string;
  updated_note : option string
}.

Record DraftOrderUpdatePayload := mkDraftOrderUpdatePayload {
  updated_draftOrder : option UpdatedDraftOrder;
  updated_userErrors : option (list UserError)
}.

(** What [sendInvoice] resolves to. *)
Record SentInvoice := mkSentInvoice {
  sent_id : option string;
  sent_name : option string;
  invoiceSentAt : option string;
  sent_invoiceUrl : option string
}.

Record InvoiceSendPayload := mkInvoiceSendPayload {
  sent_draftOrder : option SentInvoice;
  sent_userErrors : option (list UserError)
}.

(** The [data] of an answer, one property per operation, as in
    [Response]. *)
Record Reply := mkReply {
  data_stagedUploadsCreate : option StagedUploadsCreatePayload;
  data_fileCreate : option FileCreatePayload;
  data_draftOrderUpdate : option DraftOrderUpdatePayload;
  data_draftOrder : option DraftOrder;
  data_draftOrderInvoiceSend : option InvoiceSendPayload
}.

Definition emptyReply : Reply := mkReply None None None None None.

(** What the platform answers to these operations: an answer or a
    failed request.  No method below issues the same operation twice,
    so a function of the operation describes every run of a method. *)
Definition Backend : Type := Operation -> Outcome Reply.

(** [await this.adminClient.request(...)] for them.  The client of a
    service that was built without credentials is [null]. *)
Definition adminRequest (answers : Backend) (op : Operation) : M Reply :=
  fun w =>
    match adminClient w with
    | None => (Thrown (Error "Cannot read properties of null (reading 'request')"), w)
    | Some _ => (answers op, w)
    end.

(** [response.data?.<operation>?.userErrors] when its length exceeds 0. *)
Definition someErrors (errors : option (list UserError)) : option (list UserError) :=
  match errors with
  | Some (e :: es) => Some (e :: es)
  | Some [] | None => None
  end.

(** [errors.map(e => e.message).join(', ')] *)
Definition errorMessages (errors : list UserError) : string :=
  join (map userError_message errors).

(** ** The staged upload over HTTP *)

Inductive FormValue :=
| Text (s : string)
| Binary (pdf : list Byte.byte).

(** The fields of a [FormData], in the order they were appended. *)
Definition Form : Type := list (string * FormValue).

(** [axios.post(url, formData, ...)]: it goes through or throws. *)
Definition Uploader : Type := option string -> Form -> Outcome unit.

Definition httpPost (post : Uploader) (url : option string) (form : Form) : M unit :=
  fun w => (post url form, w).

(* ================================================================== *)
(** * [ShopifyFileService]: staging, creating and attaching *)
(* ================================================================== *)

(** [waitForFileUrl(fileId)] as a method body.  The wait ends for every
    argument and in every world, as is shown below, so that the second
    branch is never taken. *)
Definition awaitFileUrl (fileId : string) : M string :=
  fun w =>
    match waitForFileUrl fileId None None w with
    | Some result => result
    | None => (Thrown (Error (timeoutMessage fileId 10 1000)), w)
    end.

Module ShopifyFileService.

Section Methods.

Variable answers : Backend.
Variable post : Uploader.

(** [createStagedUpload(filename)] *)
Definition createStagedUpload (filename : string) : M StagedTarget :=
  log info "Creating staged upload" ;;
  response <-
    adminRequest answers
      (StagedUploadsCreate
         [{| staged_filename := filename;
             staged_mimeType := "FILE";
             staged_resource := "FILE";
             staged_httpMethod := "POST" |}]) ;;
  log info "Staged upload created successfully" ;;
  let payload := data_stagedUploadsCreate response in
  match someErrors (match payload with Some p => staged_userErrors p | None => None end) with
  | Some errors =>
      throw (Error ("Staged upload creation failed: " ++ errorMessages errors))
  | None =>
      match payload with
      | Some {| stagedTargets := Some (stagedTarget :: _) |} => ret stagedTarget
      | _ => throw (Error "No staged target returned")
      end
  end.

(** [uploadToStagedUrl(pdfBuffer, stagedUpload)] *)
Definition uploadToStagedUrl (pdfBuffer : list Byte.byte) (stagedUpload : StagedTarget)
    : M unit :=
  log info "Uploading to staged URL" ;;
  let formData :=
    (map (fun param => (parameter_name param, Text (parameter_value param)))
       (target_parameters stagedUpload)
     ++ [("file", Binary pdfBuffer)])%list in
  log info "Uploading file to staged URL" ;;
  httpPost post (target_url stagedUpload) formData ;;
  log info "File uploaded to staged URL successfully".

(** [createFileRecord(resourceUrl, filename, metadata = {})];
    [alt] is [metadata.alt]. *)
Definition createFileRecord (resourceUrl : option string) (filename : string)
    (alt : option string) : M GenericFile :=
  log info "Creating file record in Shopify" ;;
  response <-
    adminRequest answers
      (FileCreate
         [{| create_alt := or_str alt ("Quote PDF - " ++ filename);
             create_contentType := "FILE";
             create_originalSource := resourceUrl |}]) ;;
  let payload := data_fileCreate response in
  match someErrors (match payload with Some p => created_userErrors p | None => None end) with
  | Some errors => throw (Error ("File creation failed: " ++ errorMessages errors))
  | None =>
      match payload with
      | Some {| created_files := Some (file :: _) |} => ret file
      | _ => throw (Error "No file returned from fileCreate")
      end
  end.

(** [uploadPdf(pdfBuffer, filename, metadata = {})]; [alt] is
    [metadata.alt], which the body does not read. *)
Definition uploadPdf (pdfBuffer : list Byte.byte) (filename : string)
    (alt : option string) : M GenericFile :=
  fun w =>
    match adminClient w with
    | None => (Thrown (Error "Shopify Admin API client not configured"), w)
    | Some _ =>
        (log info "Uploading PDF to Shopify" ;;
         try_catch
           (stagedUpload <- createStagedUpload filename ;;
            uploadToStagedUrl pdfBuffer stagedUpload ;;
            log info "just before file create" ;;
            file <- createFileRecord (target_resourceUrl stagedUpload) filename None ;;
            fileUrl <- awaitFileUrl (file_id file) ;;
            log info "PDF uploaded successfully and ready" ;;
            ret {| file_id := file_id file;
                   generic_url := Some fileUrl;
                   file_alt := file_alt file;
                   file_createdAt := file_createdAt file |})
           (fun err =>
              log error "Failed to upload PDF to Shopify" ;;
              throw (Error ("Shopify file upload failed: " ++ message err)))) w
    end.

(** [attachFileToDraftOrder(draftOrderId, pdfUrl)] *)
Definition attachFileToDraftOrder (draftOrderId pdfUrl : option string)
    : M (option UpdatedDraftOrder) :=
  log info "Attaching PDF URL to draft order metafield custom.quote_pdf" ;;
  now <- dateNow ;;
  let timestamp := JsDate.toISOString now in
  response <-
    adminRequest answers
      (DraftOrderUpdate draftOrderId
         {| update_metafields :=
              Some [{| metafield_namespace := "custom";
                       metafield_key := "quote_pdf";
                       metafield_type := "url";
                       metafield_value := pdfUrl |};
                    {| metafield_namespace := "custom";
                       metafield_key := "quote_pdf_generated_at";
                       metafield_type := "date_time";
                       metafield_value := Some timestamp |}];
            update_note := None |}) ;;
  let payload := data_draftOrderUpdate response in
  match someErrors (match payload with Some p => updated_userErrors p | None => None end) with
  | Some errors =>
      log error "Failed to attach PDF URL metafield to draft order" ;;
      throw (Error ("Failed to attach PDF metafield: " ++ errorMessages errors))
  | None =>
      let draftOrder :=
        match payload with Some p => updated_draftOrder p | None => None end in
      match draftOrder with
      | Some _ => log info "PDF URL metafield and timestamp attached successfully"
      | None => ret tt
      end ;;
      ret draftOrder
  end.

(** [addPdfToNote(draftOrderId, pdfUrl, existingNote = '')] *)
Definition addPdfToNote (draftOrderId : option string) (pdfUrl : string)
    (existingNote : option string) : M (option UpdatedDraftOrder) :=
  log info "Adding PDF URL to draft order note" ;;
  let pdfNote := String "010" (String "010" "Quote PDF: ") ++ pdfUrl in
  let newNote :=
    match existingNote with
    | Some existing => if truthy existing then existing ++ pdfNote else trim pdfNote
    | None => trim pdfNote
    end in
  response <-
    adminRequest answers
      (DraftOrderUpdate draftOrderId
         {| update_metafields := None; update_note := Some newNote |}) ;;
  let payload := data_draftOrderUpdate response in
  match someErrors (match payload with Some p => updated_userErrors p | None => None end) with
  | Some _ => log warn "Failed to update note with PDF URL"
  | None => ret tt
  end ;;
  ret (match payload with Some p => updated_draftOrder p | None => None end).

End Methods.

End ShopifyFileService.

(** The services the invoice coordinator reaches when the file service
    is the one above and [renderer] is the PDF service's
    [generateInvoicePdf]. *)
Definition liveServices (renderer : InvoiceData -> M Pdf) (answers : Backend)
    (post : Uploader) : Services :=
  {| generateInvoicePdf := renderer;
     uploadPdf := fun pdfBuffer filename alt =>
       file <- ShopifyFileService.uploadPdf answers post pdfBuffer filename (Some alt) ;;
       ret {| record_id := Some (file_id file); record_url := generic_url file |};
     attachFileToDraftOrder := fun draftOrderId pdfUrl =>
       ShopifyFileService.attachFileToDraftOrder answers draftOrderId pdfUrl ;;
       ret tt |}.

(* ================================================================== *)
(** * [DraftOrderService]: fetching an order, sending its invoice *)
(* ================================================================== *)

(** [fetchDraftOrderById(draftOrderId)] *)
Definition fetchDraftOrderById (answers : Backend) (draftOrderId : string) : M DraftOrder :=
  fun w =>
    match adminClient w with
    | None => (Thrown (Error "Admin API client not configured"), w)
    | Some _ =>
        (log info "Fetching draft order by ID" ;;
         try_catch
           (response <- adminRequest answers (DraftOrderById draftOrderId) ;;
            match data_draftOrder response with
            | None => throw (Error ("Draft order not found: " ++ draftOrderId))
            | Some draftOrder =>
                log info "Draft order fetched successfully" ;;
                ret (formatDraftOrderResponse draftOrder)
            end)
           (fun err =>
              log error "Failed to fetch draft order" ;;
              throw (Error ("Failed to fetch draft order: " ++ message err)))) w
    end.

(** The [email] object [sendInvoice] builds from its options: a
    property is copied when it is truthy, the list of hidden
    recipients when it is not empty. *)
Definition emailOf (emailOptions : EmailInput) : EmailInput :=
  {| email_to := when_set (email_to emailOptions);
     email_from := when_set (email_from emailOptions);
     email_bcc :=
       match email_bcc emailOptions with
       | Some (b :: bs) => Some (b :: bs)
       | Some [] | None => None
       end;
     email_subject := when_set (email_subject emailOptions);
     email_customMessage := when_set (email_customMessage emailOptions) |}.

(** [Object.keys(email).length > 0] *)
Definition hasKeys (email : EmailInput) : bool :=
  match email_to email, email_from email, email_bcc email,
        email_subject email, email_customMessage email with
  | None, None, None, None, None => false
  | _, _, _, _, _ => true
  end.

(** [sendInvoice(draftOrderId, emailOptions = null)] *)
Definition sendInvoice (answers : Backend) (draftOrderId : option string)
    (emailOptions : option EmailInput) : M SentInvoice :=
  fun w =>
    match adminClient w with
    | None => (Thrown (Error "Admin API client not configured"), w)
    | Some _ =>
        (log info "Sending draft order invoice" ;;
         try_catch
           (let email :=
              match emailOptions with
              | Some options =>
                  if hasKeys (emailOf options) then Some (emailOf options) else None
              | None => None
              end in
            response <- adminRequest answers (DraftOrderInvoiceSend draftOrderId email) ;;
            let payload := data_draftOrderInvoiceSend response in
            match someErrors (match payload with
                              | Some p => sent_userErrors p
                              | None => None
                              end) with
            | Some errors =>
                log error "Draft order invoice send failed with user errors" ;;
                throw (Error ("Failed to send invoice: " ++ errorMessages errors))
            | None =>
                match payload with
                | Some {| sent_draftOrder := Some draftOrder |} =>
                    log info "Draft order invoice sent successfully" ;;
                    ret {| sent_id := sent_id draftOrder;
                           sent_name := sent_name draftOrder;
                           invoiceSentAt := invoiceSentAt draftOrder;
                           sent_invoiceUrl := sent_invoiceUrl draftOrder |}
                | _ => throw (Error "Failed to send invoice: No draft order returned")
                end
            end)
           (fun err =>
              log error "Failed to send draft order invoice" ;;
              throw (Error ("Failed to send invoice: " ++ message err)))) w
    end.

(* ================================================================== *)
(** * [CartService] *)
(* ================================================================== *)

(** ** The cart of the storefront

    A property the code reads without a guard ([cart.lines],
    [node.merchandise], [variant.price.amount], [cart.cost], ...) is
    declared non-null by the schema of the storefront and has no
    [option] here; a property it guards has one. *)

Record Money := mkMoney {
  money_amount : string;
  money_currencyCode : option string
}.

Record Image := mkImage {
  image_url : option string
}.

Record Product := mkProduct {
  product_id : option string;
  product_title : option string
}.

(** [node.merchandise], a product variant. *)
Record Merchandise := mkMerchandise {
  merchandise_id : option string;
  merchandise_title : option string;
  merchandise_sku : option string;
  merchandise_price : Money;
  merchandise_product : Product;
  merchandise_image : option Image
}.

(** The [node] of one edge of [cart.lines]; its attributes have the
    shape of the properties of a cart line. *)
Record CartLineNode := mkCartLineNode {
  cartLine_id : option string;
  cartLine_quantity : Z;
  cartLine_merchandise : Merchandise;
  cartLine_attributes : list Property
}.

Record BuyerCustomer := mkBuyerCustomer {
  buyer_id : option string;
  buyer_email : option string;
  buyer_firstName : option string;
  buyer_lastName : option string;
  buyer_phone : option string
}.

Record BuyerIdentity := mkBuyerIdentity {
  identity_email : option string;
  identity_phone : option string;
  identity_customer : option BuyerCustomer
}.

Record CartCost := mkCartCost {
  totalAmount : Money;
  subtotalAmount : Money
}.

Record CartDiscountCode := mkCartDiscountCode {
  discount_code : string;
  applicable : bool
}.

(** A cart.  [cart_lines] are the nodes of [lines.edges];
    [deliveryAddress] is [deliveryGroups?.edges[0]?.node?.deliveryAddress],
    whose [countryCodeV2] is kept in the property [countryCode]. *)
Record Cart := mkCart {
  cart_id : option string;
  cart_note : option string;
  buyerIdentity : option BuyerIdentity;
  cart_lines : list CartLineNode;
  cost : CartCost;
  discountCodes : list CartDiscountCode;
  deliveryAddress : option Address
}.

(** What the storefront answers to the cart query for a cart
    identifier: [response.data?.cart], or a failed request. *)
Definition Storefront : Type := string -> Outcome (option Cart).

Definition storefrontRequest (client : Storefront) (cartId : string) : M (option Cart) :=
  fun w => (client cartId, w).

(** [fetchCartByToken(cartToken)] of a service whose storefront client
    is [storefrontClient]. *)
Definition fetchCartByToken (storefrontClient : option Storefront)
    (cartToken : option string) : M (option Cart) :=
  match storefrontClient with
  | None => throw (Error "Storefront API client not configured")
  | Some client =>
      match when_set cartToken with
      | None => throw (Error "Cart token is required")
      | Some cartToken =>
          log info "Fetching cart from Storefront API" ;;
          try_catch
            (let cartId :=
               if starts_with "gid://" cartToken
               then cartToken
               else "gid://shopify/Cart/" ++ cartToken in
             cart <- storefrontRequest client cartId ;;
             match cart with
             | None =>
                 log warn "Cart not found" ;;
                 ret None
             | Some found =>
                 log info "Cart fetched successfully" ;;
                 ret (Some found)
             end)
            (fun err =>
               log error "Failed to fetch cart" ;;
               throw (Error ("Failed to fetch cart: " ++ message err)))
      end
  end.

(** ** The payload a cart is turned into *)

(** A cart line with everything the storefront knows about it. *)
Record QuoteLine := mkQuoteLine {
  quote_id : option string;
  quote_quantity : Z;
  quote_title : option string;
  quote_variantTitle : option string;
  quote_price : number;
  quote_image : string;
  quote_productId : option string;
  quote_variantId : option string;
  quote_sku : string;
  quote_properties : list Property
}.

Record Pricing := mkPricing {
  pricing_subtotal_live : number;
  pricing_total_live : number;
  pricing_currency : option string;
  pricing_discountCodes : list string
}.

(** The result of [transformCartToPayload]; the customer's [phone]
    stands beside the four properties of [Customer]. *)
Record TransformedCart := mkTransformedCart {
  transformed_cartLines : list QuoteLine;
  transformed_customer : Customer;
  transformed_phone : string;
  transformed_pricing : Pricing;
  transformed_shippingAddress : Address;
  transformed_note : option string
}.

(** The body of the [map] callback over [cart.lines.edges]. *)
Definition transformLine (node : CartLineNode) : QuoteLine :=
  let variant := cartLine_merchandise node in
  {| quote_id := cartLine_id node;
     quote_quantity := cartLine_quantity node;
     quote_title := product_title (merchandise_product variant);
     quote_variantTitle := merchandise_title variant;
     quote_price := parseFloat (money_amount (merchandise_price variant));
     quote_image := or_str (chain (merchandise_image variant) image_url) "";
     quote_productId := product_id (merchandise_product variant);
     quote_variantId := merchandise_id variant;
     quote_sku := or_str (merchandise_sku variant) "";
     quote_properties :=
       map (fun attr => mkProperty (prop_key attr) (prop_value attr))
         (cartLine_attributes node) |}.

(** [transformCartToPayload(cart)] *)
Definition transformCartToPayload (cart : Cart) : TransformedCart :=
  let cartLines := map transformLine (cart_lines cart) in
  let customer :=
    match buyerIdentity cart with
    | Some identity => identity_customer identity
    | None => None
    end in
  let deliveryAddress :=
    match deliveryAddress cart with
    | Some a => a
    | None => emptyAddress
    end in
  {| transformed_cartLines := cartLines;
     transformed_customer :=
       {| customer_id := chain customer buyer_id;
          customer_email :=
            or_opt (chain customer buyer_email) (chain (buyerIdentity cart) identity_email);
          customer_firstName := Some (or_str (chain customer buyer_firstName) "");
          customer_lastName := Some (or_str (chain customer buyer_lastName) "") |};
     transformed_phone :=
       or_str (or_opt (chain customer buyer_phone) (chain (buyerIdentity cart) identity_phone))
         "";
     transformed_pricing :=
       {| pricing_subtotal_live := parseFloat (money_amount (subtotalAmount (cost cart)));
          pricing_total_live := parseFloat (money_amount (totalAmount (cost cart)));
          pricing_currency := money_currencyCode (totalAmount (cost cart));
          pricing_discountCodes :=
            map discount_code (filter applicable (discountCodes cart)) |};
     transformed_shippingAddress :=
       {| firstName := Some (or_str (firstName deliveryAddress) "");
          lastName := Some (or_str (lastName deliveryAddress) "");
          address1 := Some (or_str (address1 deliveryAddress) "");
          address2 := Some (or_str (address2 deliveryAddress) "");
          city := Some (or_str (city deliveryAddress) "");
          province := Some (or_str (province deliveryAddress) "");
          provinceCode := Some (or_str (provinceCode deliveryAddress) "");
          country := Some (or_str (country deliveryAddress) "");
          countryCode := Some (or_str (countryCode deliveryAddress) "");
          zip := Some (or_str (zip deliveryAddress) "");
          phone := Some (or_str (phone deliveryAddress) "");
          company := Some (or_str (company deliveryAddress) "") |};
     transformed_note := when_set (cart_note cart) |}.

(* ================================================================== *)
(** * [DraftOrderService.processCheckoutData] *)
(* ================================================================== *)

(** A line of the live cart as [createDraftOrder] reads it. *)
Definition cartLineOf (line : QuoteLine) : CartLine :=
  {| line_variantId := quote_variantId line;
     line_quantity := Some (quote_quantity line);
     line_properties := Some (quote_properties line) |}.

(** The object [cartData] built from the payload and the live cart.
    Its [pricing], which [createDraftOrder] does not read, is left out. *)
Definition mergeCart (payload : CheckoutData) (transformedCart : TransformedCart)
    : CheckoutData :=
  {| cartLines := Some (map cartLineOf (transformed_cartLines transformedCart));
     data_customer :=
       if truthy_opt (customer_email (transformed_customer transformedCart))
       then Some (transformed_customer transformedCart)
       else data_customer payload;
     data_purchasingEntity := data_purchasingEntity payload;
     data_shippingAddress :=
       Some (mergeAddress (transformed_shippingAddress transformedCart)
               (data_shippingAddress payload));
     data_billingAddress :=
       match data_billingAddress payload with
       | Some a => Some a
       | None => Some (transformed_shippingAddress transformedCart)
       end;
     note := or_opt (transformed_note transformedCart) (note payload);
     cartToken := cartToken payload |}.

(** [processCheckoutData(payload)] of a service whose cart service has
    the storefront client [storefrontClient]. *)
Definition processCheckoutData (storefrontClient : option Storefront)
    (payload : CheckoutData) : M DraftOrder :=
  log info "Processing checkout data" ;;
  cartData <-
    (if truthy_opt (cartToken payload) then
       log info "Cart token provided, fetching cart data" ;;
       try_catch
         (cart <- fetchCartByToken storefrontClient (cartToken payload) ;;
          match cart with
          | Some found =>
              let transformedCart := transformCartToPayload found in
              log info "Using cart data from Storefront API" ;;
              ret (mergeCart payload transformedCart)
          | None =>
              log warn "Cart not found, using payload data" ;;
              ret payload
          end)
         (fun _ =>
            log warn "Failed to fetch cart, falling back to payload data" ;;
            ret payload)
     else
       log info "No cart token provided, using payload data" ;;
       ret payload) ;;
  createDraftOrder cartData.

(* ================================================================== *)
(** * The routes *)
(* ================================================================== *)

(** The methods of [fastify.services.draftOrder] the routes call. *)
Record DraftOrderApi := mkDraftOrderApi {
  api_processCheckoutData : CheckoutData -> M DraftOrder;
  api_fetchDraftOrderById : string -> M DraftOrder;
  api_sendInvoice : option string -> option EmailInput -> M SentInvoice
}.

(** [fastify.services] as the routes see it: the draft order service
    and [invoicePdf.generateAndAttachPdf]; either may be [null]. *)
Record Registry := mkRegistry {
  services_draftOrder : option DraftOrderApi;
  services_invoicePdf : option (DraftOrder -> option CheckoutData -> M PdfResult)
}.

(** The bodies the routes answer with. *)
Inductive Body :=
| QuoteError (error : string)
| QuoteAccepted
| QuoteResult (result : PdfResult)
| SendError (error : string)
| SendSuccess (draftOrder : SentInvoice)
| OrderError (error : string) (message : string)
| OrderSuccess (draftOrder : DraftOrder) (message : string).

Record HttpReply := mkHttpReply {
  reply_code : Z;
  reply_body : Body
}.

Definition draftOrderService (registry : option Registry) : option DraftOrderApi :=
  match registry with
  | Some services => services_draftOrder services
  | None => None
  end.



(** The handler of [POST /print-quote/from-draft]. *)
Definition printQuoteFromDraft (registry : option Registry) (draftOrderId : string)
    : M HttpReply :=
  try_catch
    (match registry with
     | Some {| services_draftOrder := Some api;
               services_invoicePdf := Some generateAndAttach |} =>
         log info "Generating PDF for existing draft order" ;;
         draftOrder <- api_fetchDraftOrderById api draftOrderId ;;
         result <- generateAndAttach draftOrder None ;;
         ret {| reply_code := 201; reply_body := QuoteResult result |}
     | _ =>
         ret {| reply_code := 500;
                reply_body := QuoteError "Shopify services not configured" |}
     end)
    (fun err =>
       log error "Failed to generate PDF from draft order" ;;
       if includes "not found" (message err) || includes "Draft order" (message err)
       then ret {| reply_code := 400; reply_body := QuoteError (message err) |}
       else ret {| reply_code := 500; reply_body := QuoteError (message err) |}).

(** The handler of [POST /send-quote]. *)
Definition sendQuote (registry : option Registry) (draftOrderId : string)
    (email : option EmailInput) : M HttpReply :=
  try_catch
    (match draftOrderService registry with
     | Some api =>
         log info "Sending invoice for draft order" ;;
         result <- api_sendInvoice api (Some draftOrderId) email ;;
         ret {| reply_code := 200; reply_body := SendSuccess result |}
     | None =>
         ret {| reply_code := 500;
                reply_body := SendError "Shopify services not configured" |}
     end)
    (fun err =>
       log error "Failed to send invoice" ;;
       if includes "not found" (message err)
          || includes "not configured" (message err)
          || includes "user errors" (message err)
       then ret {| reply_code := 400; reply_body := SendError (message err) |}
       else ret {| reply_code := 500; reply_body := SendError (message err) |}).

(** The handler of [POST /draft-orders]. *)
Definition draftOrders (registry : option Registry) (payload : CheckoutData)
    : M HttpReply :=
  try_catch
    (match draftOrderService registry with
     | Some api =>
         log info "Creating draft order from checkout data" ;;
         draftOrder <- api_processCheckoutData api payload ;;
         ret {| reply_code := 201;
                reply_body := OrderSuccess draftOrder "Draft order created successfully" |}
     | None =>
         ret {| reply_code := 500;
                reply_body :=
                  OrderError "Shopify services not configured"
                    "Please configure Shopify API credentials" |}
     end)
    (fun err =>
       log error "Failed to create draft order" ;;
       if includes "No line items" (message err)
          || includes "Draft order creation failed" (message err)
       then ret {| reply_code := 400;
                   reply_body := OrderError (message err) "Invalid request data" |}
       else ret {| reply_code := 500;
                   reply_body := OrderError (message err) "Failed to create draft order" |}).

(** The registry of an application whose Shopify plugin is loaded:
    every service exists, with or without credentials behind it. *)
Definition liveRegistry (renderer : InvoiceData -> M Pdf)
    (storefrontClient : option Storefront) (answers : Backend) (post : Uploader)
    : Registry :=
  {| services_draftOrder :=
       Some {| api_processCheckoutData := processCheckoutData storefrontClient;
               api_fetchDraftOrderById := fetchDraftOrderById answers;
               api_sendInvoice := sendInvoice answers |};
     services_invoicePdf :=
       Some (generateAndAttachPdf (liveServices renderer answers post)) |}.

(* ================================================================== *)
(** * [PdfService]: the helpers of the legacy quote *)
(* ================================================================== *)

(** [getFullName(customer)] *)
Definition getFullName (customer : option Customer) : string :=
  match customer with
  | None => ""
  | Some c =>
      let firstName := or_str (customer_firstName c) "" in
      let lastName := or_str (customer_lastName c) "" in
      or_str (Some (trim (firstName ++ " " ++ lastName))) "Customer"
  end.

(** [formatPriceLegacy(price)] *)
Definition formatPriceLegacy (price : Price) : string :=
  match price with
  | Unpriced _ => "0.00"
  | Priced x => toFixed2 x
  end.

(** [parts.join('\n')] *)
Definition joinLines (parts : list string) : string :=
  String.concat (String "010" EmptyString) parts.

(** [getFormattedAddress(address)] *)
Definition getFormattedAddress (address : option Address) : string :=
  match address with
  | None => ""
  | Some a =>
      let push (part : option string) (parts : list string) : list string :=
        match when_set part with
        | Some s => (parts ++ [s])%list
        | None => parts
        end in
      let parts := push (address1 a) [] in
      let parts := push (address2 a) parts in
      let cityLine :=
        join (push (zip a) (push (province a) (push (city a) []))) in
      let parts := push (Some cityLine) parts in
      let parts := push (country a) parts in
      joinLines parts
  end.



(* ================================================================== *)
(** * [Number::toString] for every number *)
(* ================================================================== *)

Module NumberString.

Local Open Scope Z_scope.

(** The least exponent of a binary64 significand. *)
Definition emin : Z := 3 - emax - prec.

(** A positive number [m * 2 ^ e] as the fraction of two integers. *)
Definition numerator (m : positive) (e : Z) : Z :=
  if 0 <=? e then Zpos m * 2 ^ e else Zpos m.

Definition denominator (e : Z) : Z :=
  if 0 <=? e then 1 else 2 ^ (- e).

(** The [n] with [10 ^ (n - 1) <= p / q < 10 ^ n] for a fraction below
    one, searched downwards from [1 - j]. *)
Fixpoint small_exponent (fuel : nat) (p q j : Z) : Z :=
  match fuel with
  | O => 1 - j
  | S f => if q <=? p * 10 ^ j then 1 - j else small_exponent f p q (j + 1)
  end.

(** The same [n] for every positive fraction. *)
Definition decimal_exponent (p q : Z) : Z :=
  if q <=? p then Z.of_nat (String.length (Decimal.of_nonneg (p / q)))
  else small_exponent 400 p q 1.

(** Whether the decimal [s * 10 ^ q] is read back as the number
    [m * 2 ^ e]: it lies between the midpoints to the two neighbouring
    numbers, a midpoint counting when the significand is even.  Both
    sides are integers, in units of [2 ^ (e - 2) * 10 ^ q] or less. *)
Definition scaled (e q x : Z) : Z := x * 10 ^ Z.max (- q) 0 * 2 ^ Z.max (e - 2) 0.

Definition candidate (e q s : Z) : Z := s * 10 ^ Z.max q 0 * 2 ^ Z.max (2 - e) 0.

Definition read_as (m : positive) (e s q : Z) : bool :=
  let down := if (Zpos m =? 2 ^ (prec - 1)) && (emin <? e) then 1 else 2 in
  let low := scaled e q (4 * Zpos m - down) in
  let high := scaled e q (4 * Zpos m + 2) in
  let c := candidate e q s in
  if Z.even (Zpos m) then (low <=? c) && (c <=? high) else (low <? c) && (c <? high).

(** The significant digits of [m * 2 ^ e], as an integer of [k] digits
    or more that is read back as the number, for the least [k] there
    is, and the integer nearer to the number when two of them are read
    back; with it the [n] at which the point stands. *)
Fixpoint shortest_digits (fuel : nat) (m : positive) (e n k : Z) : Z * Z :=
  let p := numerator m e in
  let q := denominator e in
  let below := if n <=? k then p * 10 ^ (k - n) / q else p / (q * 10 ^ (n - k)) in
  let above := below + 1 in
  let rounded_up := if above =? 10 ^ k then (10 ^ (k - 1), n + 1) else (above, n) in
  match fuel with
  | O => (below, n)
  | S f =>
      match read_as m e below (n - k), read_as m e above (n - k) with
      | true, true =>
          if 2 * scaled e (n - k) (4 * Zpos m) <=? candidate e (n - k) (2 * below + 1)
          then (below, n) else rounded_up
      | true, false => (below, n)
      | false, true => rounded_up
      | false, false => shortest_digits f m e n (k + 1)
      end
  end.

Fixpoint zeros (k : nat) : string :=
  match k with
  | O => EmptyString
  | S k' => String "0"%char (zeros k')
  end.

(** The exponent part: [e], the sign and the digits of [n - 1]. *)
Definition exponent_text (n : Z) : string :=
  (if n - 1 <? 0 then "e-" else "e+") ++ Decimal.of_nonneg (Z.abs (n - 1)).

(** The digits laid out: as an integer up to 21 digits, with a point
    inside or after [0.] and up to five zeros, in exponent notation
    outside of that. *)
Definition layout (digits : string) (n : Z) : string :=
  let k := Z.of_nat (String.length digits) in
  if (k <=? n) && (n <=? 21) then digits ++ zeros (Z.to_nat (n - k))
  else if (0 <? n) && (n <=? 21)
  then take (Z.to_nat n) digits ++ "." ++ drop (Z.to_nat n) digits
  else if (-6 <? n) && (n <=? 0) then "0." ++ zeros (Z.to_nat (- n)) ++ digits
  else
    match digits with
    | EmptyString => EmptyString
    | String d EmptyString => String d (exponent_text n)
    | String d rest => String d ("." ++ rest ++ exponent_text n)
    end.

(** [Number::toString(x)] of a positive number [m * 2 ^ e]. *)
Definition positive_text (m : positive) (e : Z) : string :=
  let n := decimal_exponent (numerator m e) (denominator e) in
  let '(s, n') := shortest_digits 17 m e n 1 in
  layout (Decimal.of_nonneg s) n'.

(** [Number::toString(x)], [String(x)] and [`${x}`]. *)
Definition toString (x : number) : string :=
  match x with
  | S754_nan => "NaN"
  | S754_zero _ => "0"
  | S754_infinity false => "Infinity"
  | S754_infinity true => "-Infinity"
  | S754_finite false m e => positive_text m e
  | S754_finite true m e => String "-"%char (positive_text m e)
  end.

End NumberString.

(* ================================================================== *)
(** * [PdfService.processDiscountInfo] *)
(* ================================================================== *)

(** [shopMoney { amount currencyCode }] *)
Record ShopMoney := mkShopMoney {
  shop_amount : Amount;
  shop_currencyCode : option string
}.

Record MoneySet := mkMoneySet {
  shopMoney : option ShopMoney
}.

(** [appliedDiscount { amountSet description title value valueType }];
    [value] is a number of the platform. *)
Record AppliedDiscount := mkAppliedDiscount {
  applied_amountSet : option MoneySet;
  applied_description : option string;
  applied_title : option string;
  applied_value : Amount;
  applied_valueType : option string
}.

(** The properties of a draft order that [processDiscountInfo] reads. *)
Record DiscountedOrder := mkDiscountedOrder {
  totalDiscountsSet : option MoneySet;
  appliedDiscount : option AppliedDiscount;
  order_discountCodes : option (list string)
}.

(** The object [processDiscountInfo] returns. *)
Record DiscountInfo := mkDiscountInfo {
  info_amount : number;
  info_amountFormatted : string;
  info_description : string;
  info_codes : list string
}.

(** [!!amount] *)
Definition truthy_amount (amount : Amount) : bool :=
  match amount with
  | Missing _ => false
  | Numeric x => truthy_num x
  | Textual s => truthy s
  end.

(** [String(amount)], as [parseFloat] and a template literal apply it. *)
Definition amount_text (amount : Amount) : string :=
  match amount with
  | Missing undefined => "undefined"
  | Missing null => "null"
  | Numeric x => NumberString.toString x
  | Textual s => s
  end.

(** [draftOrder?.totalDiscountsSet?.shopMoney?.amount] *)
Definition totalDiscount (draftOrder : option DiscountedOrder) : Amount :=
  match draftOrder with
  | Some order =>
      match totalDiscountsSet order with
      | Some set =>
          match shopMoney set with
          | Some money => shop_amount money
          | None => Missing undefined
          end
      | None => Missing undefined
      end
  | None => Missing undefined
  end.

(** [processDiscountInfo(draftOrder, currencySymbol)] *)
Definition processDiscountInfo (draftOrder : option DiscountedOrder)
    (currencySymbol : option string) : option DiscountInfo :=
  let hasDiscount :=
    truthy_amount (totalDiscount draftOrder)
    && gt (parseFloat (amount_text (totalDiscount draftOrder))) zero in
  if negb hasDiscount then None
  else
    match draftOrder with
    | None => None
    | Some order =>
        let discountAmount := parseAmount (totalDiscount draftOrder) in
        let description := "Discount" in
        let description :=
          match appliedDiscount order with
          | Some applied =>
              let description :=
                match when_set (applied_title applied) with
                | Some title => title
                | None =>
                    match when_set (applied_description applied) with
                    | Some text => text
                    | None => description
                    end
                end in
              if match applied_valueType applied with
                 | Some valueType => String.eqb valueType "PERCENTAGE"
                 | None => false
                 end
              then description ++ " (" ++ amount_text (applied_value applied) ++ "%)"
              else description
          | None => description
          end in
        let description :=
          match appliedDiscount order, order_discountCodes order with
          | None, Some (code :: codes) => "Discount Code: " ++ join (code :: codes)
          | _, _ => description
          end in
        Some {| info_amount := discountAmount;
                info_amountFormatted := formatPrice (Priced discountAmount) currencySymbol;
                info_description := description;
                info_codes :=
                  match order_discountCodes order with
                  | Some codes => codes
                  | None => []
                  end |}
    end.

(* ================================================================== *)
(** * The vocabulary of the specification *)
(* ================================================================== *)

(** ** Address merge *)

(** The merged property [r] is the primary's [p] when that is
    non-empty, else the fallback's [f] when that is non-empty, else the
    empty string. *)
Definition mergedFrom (p f r : option string) : Prop :=
  (nonEmpty p -> r = p)
  /\ (isEmpty p -> nonEmpty f -> r = f)
  /\ (isEmpty p -> isEmpty f -> r = Some "").

(** ** Display names *)

(** Both names are present and non-empty, and [n] is the two joined by
    a space, with surrounding white space removed. *)
Definition namedBy (first last : option string) (n : string) : Prop :=
  exists a b, first = Some a /\ last = Some b /\ a <> "" /\ b <> ""
              /\ n = trim (a ++ " " ++ b).

(** One of the two names is missing. *)
Definition nameless (first last : option string) : Prop :=
  isEmpty first \/ isEmpty last.

(** ** Outcomes of the invoice workflow *)

Definition completed (url : option string) : PdfResult :=
  {| result_status := "completed"; result_url := url |}.

Definition pdf_failed : PdfResult :=
  {| result_status := "pdf_failed"; result_url := None |}.

(** The file name the coordinator builds when the clock reads [now]. *)
Definition uploadName (now : Z) (draftOrder : DraftOrder) : string :=
  invoiceFilename (filenameInvoiceNumber now (name draftOrder)).

(** The [alt] text it passes along. *)
Definition uploadAlt (now : Z) (draftOrder : DraftOrder) : string :=
  "VAT Invoice " ++ filenameInvoiceNumber now (name draftOrder).

(** ** What a poll of the file status observes *)

(** The reply to the [k]-th poll, counting from 0, of a wait that
    starts in the world [w]. *)
Definition pollReply (platform : Platform) (w : World) (fileId : string)
    (k : nat) : Outcome Response :=
  platform (List.length (requests w) + k) (NodeQuery fileId).

(** The reply carries a file in the status [st]. *)
Definition reports (st : string) (reply : Outcome Response) : Prop :=
  exists r node,
    reply = Returned r /\ data_node r = Some node /\ fileStatus node = Some st.

(** The reply carries a file that is [READY] and has the URL [u]. *)
Definition readyAt (reply : Outcome Response) (u : string) : Prop :=
  exists r node,
    reply = Returned r /\ data_node r = Some node
    /\ fileStatus node = Some "READY" /\ file_url node = Some u /\ u <> "".

(** The reply carries a file that is [READY] and has no URL. *)
Definition readyWithoutUrl (reply : Outcome Response) : Prop :=
  exists r node,
    reply = Returned r /\ data_node r = Some node
    /\ fileStatus node = Some "READY" /\ isEmpty (file_url node).

(** The reply carries a file that [FAILED], and [errors] are its file
    errors as the message cites them. *)
Definition failedWith (reply : Outcome Response) (errors : string) : Prop :=
  exists r node,
    reply = Returned r /\ data_node r = Some node
    /\ fileStatus node = Some "FAILED"
    /\ errors = or_str (fileErrorsText (Some node)) "Unknown error".

(** The platform answered, and the answer ends nothing: it is neither a
    ready file with a URL nor a failed file. *)
Definition pending (reply : Outcome Response) : Prop :=
  exists r,
    reply = Returned r
    /\ (forall u, ~ readyAt reply u)
    /\ ~ reports "FAILED" reply.


(** The timers a run from [w] to [w'] has awaited. *)
Definition naps (w w' : World) : list Event :=
  skipn (List.length (sleeps w)) (sleeps w').

(** The world after a turn of the loop that ends nothing, entered with
    the counter [a]: the request, and the timer unless the attempts are
    used up. *)
Definition afterTurn (fileId : string) (maxRetries delayMs a : Z) (w : World) : World :=
  if (a + 1 <? maxRetries)%Z
  then snd (sleep delayMs
              (record (Logged info "File not ready yet, waiting...")
                 (record (Requested (NodeQuery fileId)) w)))
  else record (Requested (NodeQuery fileId)) w.

(** ** Numbers on the invoice *)



(** Finite and, in magnitude, below 10^21: the numbers [toFixed] writes
    in fixed notation. *)
Definition fixedRange (x : number) : bool :=
  match x with
  | S754_zero _ => true
  | S754_finite _ m e => negb (at_least_1e21 m e)
  | S754_infinity _ | S754_nan => false
  end.

(** The sign [toFixed] writes. *)
Definition signOf (x : number) : string :=
  match x with
  | S754_finite true _ _ => "-"
  | _ => ""
  end.

(** The magnitude of a finite number in hundredths, rounded to the
    nearest integer, upwards from the middle. *)
Definition roundedHundredths (x : number) : Z :=
  match x with
  | S754_finite _ m e => hundredths m e
  | _ => 0%Z
  end.

(** [body] without the minus sign it may start with. *)
Definition unsignedPart (body : string) : string :=
  match body with
  | String c r => if Ascii.eqb c "-" then r else body
  | EmptyString => body
  end.

(** An optional minus sign, at least one digit, a point, two digits. *)
Definition two_decimals (body : string) : bool :=
  match drop_digits (unsignedPart body) with
  | String p (String a (String b EmptyString)) =>
      JsString.truthy (take_digits (unsignedPart body))
      && Ascii.eqb p "." && is_digit a && is_digit b
  | _ => false
  end.





(* ================================================================== *)
(** * More vocabulary: the service layer beyond the specification *)
(* ================================================================== *)

(** [x] is the first entry of [l] that passes [test]. *)
Definition firstOf {A : Type} (test : A -> bool) (l : list A) (x : A) : Prop :=
  exists before after,
    l = (before ++ x :: after)%list
    /\ Forall (fun y => test y = false) before
    /\ test x = true.

(** No entry of [l] passes [test]. *)
Definition noneOf {A : Type} (test : A -> bool) (l : list A) : Prop :=
  Forall (fun y => test y = false) l.

(** The contact profiles a reply to the contact lookup carries. *)
Definition profilesOf (r : Response) : list ContactProfile :=
  match data_customerNode r with
  | Some c =>
      match companyContactProfiles c with
      | Some l => l
      | None => []
      end
  | None => []
  end.

(** The requests a run from [w] to [w'] has issued, oldest first. *)
Definition issued (w w' : World) : list Event :=
  skipn (List.length (requests w)) (requests w').

(** ** Creating a draft order *)

(** The user errors a reply to [draftOrderCreate] carries. *)
Definition userErrorsOf (r : Response) : list UserError :=
  match data_draftOrderCreate r with
  | Some p =>
      match userErrors p with
      | Some l => l
      | None => []
      end
  | None => []
  end.

(** The draft order it carries. *)
Definition draftOrderOf (r : Response) : option DraftOrder :=
  match data_draftOrderCreate r with
  | Some p => payload_draftOrder p
  | None => None
  end.

(** The input of the mutation for the payload [data], once the
    purchasing company is known to be [entity]. *)
Definition draftOrderInput (data : CheckoutData) (entity : option PurchasingCompany)
    : DraftOrderInput :=
  {| input_lineItems :=
       map buildLineItem (match cartLines data with Some l => l | None => [] end);
     input_email := when_set (chain (data_customer data) customer_email);
     input_purchasingEntity := entity;
     input_shippingAddress := addressInput (data_shippingAddress data);
     input_billingAddress := addressInput (data_billingAddress data);
     input_note := when_set (note data);
     input_tags :=
       if truthy_opt (cartToken data)
       then ["quote-request"; "cart-api"]
       else ["quote-request"] |}.

(** The contact the platform names, as the [k]-th request, for the
    customer within the company; nothing when the request fails. *)
Definition lookedUp (platform : Platform) (k : nat) (customerId companyId : string)
    : option string :=
  match platform k (CustomerCompanyContacts customerId) with
  | Returned r =>
      match find (profileOf companyId) (profilesOf r) with
      | Some found => profile_id found
      | None => None
      end
  | Thrown _ => None
  end.

(** The message of every failure past the validation. *)
Definition createFailure (reason : string) : exn :=
  Error ("Failed to create draft order: " ++ reason).

(** ** Addresses as they are sent *)

(** The property [r] that is sent for the property [v] of the payload:
    [v] itself when it is non-empty, nothing otherwise. *)
Definition sentAs (v r : option string) : Prop :=
  (nonEmpty v -> r = v) /\ (isEmpty v -> r = None).

(** The property [r] that is sent for the properties [p] of the live
    cart and [f] of the payload. *)
Definition sentFrom (p f r : option string) : Prop :=
  (nonEmpty p -> r = p)
  /\ (isEmpty p -> nonEmpty f -> r = f)
  /\ (isEmpty p -> isEmpty f -> r = None).

(** ** Uploading a file *)

(** A run from [w] to [w'] that has only written log lines: no request
    to the platform's three polled operations, no wait, the same
    client. *)
Definition quiet (w w' : World) : Prop :=
  adminClient w' = adminClient w
  /\ clock w' = clock w
  /\ requests w' = requests w
  /\ sleeps w' = sleeps w.

(** The staged upload that is asked for a file name. *)
Definition stagedInput (filename : string) : Operation :=
  StagedUploadsCreate
    [{| staged_filename := filename;
        staged_mimeType := "FILE";
        staged_resource := "FILE";
        staged_httpMethod := "POST" |}].

(** The file record that is asked for a file name and an alternative
    text, at the resource URL of the staged target. *)
Definition fileInput (alt : string) (resourceUrl : option string) : Operation :=
  FileCreate
    [{| create_alt := alt;
        create_contentType := "FILE";
        create_originalSource := resourceUrl |}].

(** The alternative text [createFileRecord] falls back to. *)
Definition defaultAlt (filename : string) : string := "Quote PDF - " ++ filename.

(** The form that is posted to a staged target: its parameters in
    their order, the file last. *)
Definition uploadForm (target : StagedTarget) (pdf : list Byte.byte) : Form :=
  (map (fun param => (parameter_name param, Text (parameter_value param)))
     (target_parameters target)
   ++ [("file", Binary pdf)])%list.

Definition listOf {A : Type} (l : option (list A)) : list A :=
  match l with
  | Some xs => xs
  | None => []
  end.

(** The user errors and the first staged target of an answer. *)
Definition stagedErrors (r : Reply) : list UserError :=
  match data_stagedUploadsCreate r with
  | Some p => listOf (staged_userErrors p)
  | None => []
  end.

Definition stagedTargetOf (r : Reply) : option StagedTarget :=
  match data_stagedUploadsCreate r with
  | Some p => hd_error (listOf (stagedTargets p))
  | None => None
  end.

(** The user errors and the first file of an answer. *)
Definition createdErrors (r : Reply) : list UserError :=
  match data_fileCreate r with
  | Some p => listOf (created_userErrors p)
  | None => []
  end.

Definition createdFileOf (r : Reply) : option GenericFile :=
  match data_fileCreate r with
  | Some p => hd_error (listOf (created_files p))
  | None => None
  end.

(** How the staging of [filename] ends. *)
Definition staging (answers : Backend) (filename : string) : Outcome StagedTarget :=
  match answers (stagedInput filename) with
  | Thrown e => Thrown e
  | Returned r =>
      match stagedErrors r with
      | e :: es =>
          Thrown (Error ("Staged upload creation failed: " ++ errorMessages (e :: es)))
      | [] =>
          match stagedTargetOf r with
          | Some target => Returned target
          | None => Thrown (Error "No staged target returned")
          end
      end
  end.

(** How the creation of the file record ends. *)
Definition creating (answers : Backend) (alt : string) (resourceUrl : option string)
    : Outcome GenericFile :=
  match answers (fileInput alt resourceUrl) with
  | Thrown e => Thrown e
  | Returned r =>
      match createdErrors r with
      | e :: es => Thrown (Error ("File creation failed: " ++ errorMessages (e :: es)))
      | [] =>
          match createdFileOf r with
          | Some file => Returned file
          | None => Thrown (Error "No file returned from fileCreate")
          end
      end
  end.

(** The platform stages the upload of [filename] at [target]. *)
Definition stagedAt (answers : Backend) (filename : string) (target : StagedTarget) : Prop :=
  exists r,
    answers (stagedInput filename) = Returned r
    /\ stagedErrors r = []
    /\ stagedTargetOf r = Some target.

(** The platform records the file staged at [target], under the
    alternative text [alt], as [file]. *)
Definition createdAs (answers : Backend) (alt : string) (target : StagedTarget)
    (file : GenericFile) : Prop :=
  exists r,
    answers (fileInput alt (target_resourceUrl target)) = Returned r
    /\ createdErrors r = []
    /\ createdFileOf r = Some file.

(** The error every failure of an upload is wrapped in. *)
Definition uploadFailure (reason : string) : exn :=
  Error ("Shopify file upload failed: " ++ reason).

(** A file record with the URL the wait has produced. *)
Definition withUrl (file : GenericFile) (url : string) : GenericFile :=
  {| file_id := file_id file;
     generic_url := Some url;
     file_alt := file_alt file;
     file_createdAt := file_createdAt file |}.

(** ** Updating a draft order *)

Definition updateErrors (r : Reply) : list UserError :=
  match data_draftOrderUpdate r with
  | Some p => listOf (updated_userErrors p)
  | None => []
  end.

Definition updatedOrderOf (r : Reply) : option UpdatedDraftOrder :=
  match data_draftOrderUpdate r with
  | Some p => updated_draftOrder p
  | None => None
  end.

(** The update that attaches the URL of a PDF, generated at the time
    [now], to a draft order. *)
Definition attachInput (draftOrderId pdfUrl : option string) (now : Z) : Operation :=
  DraftOrderUpdate draftOrderId
    {| update_metafields :=
         Some [mkMetafieldInput "custom" "quote_pdf" "url" pdfUrl;
               mkMetafieldInput "custom" "quote_pdf_generated_at" "date_time"
                 (Some (JsDate.toISOString now))];
       update_note := None |}.

(** The update that sets the note of a draft order. *)
Definition noteInput (draftOrderId : option string) (newNote : string) : Operation :=
  DraftOrderUpdate draftOrderId
    {| update_metafields := None; update_note := Some newNote |}.

(** The text [addPdfToNote] appends to a note: two line feeds, the
    label and the URL. *)
Definition pdfNote (pdfUrl : string) : string :=
  String "010" (String "010" "Quote PDF: ") ++ pdfUrl.

(** ** Fetching an order and sending its invoice *)

Definition sendErrors (r : Reply) : list UserError :=
  match data_draftOrderInvoiceSend r with
  | Some p => listOf (sent_userErrors p)
  | None => []
  end.

Definition sentOrderOf (r : Reply) : option SentInvoice :=
  match data_draftOrderInvoiceSend r with
  | Some p => sent_draftOrder p
  | None => None
  end.

(** The error every failure of [sendInvoice] past the guard is wrapped
    in, and the same for [fetchDraftOrderById]. *)
Definition sendFailure (reason : string) : exn :=
  Error ("Failed to send invoice: " ++ reason).

Definition fetchFailure (reason : string) : exn :=
  Error ("Failed to fetch draft order: " ++ reason).

(** An option of the e-mail is forwarded as [r]. *)
Definition forwardedAs (v r : option string) : Prop :=
  (nonEmpty v -> r = v) /\ (isEmpty v -> r = None).

(** The [email] variable of the mutation for the options of a call:
    absent when there are no options or none of them is set. *)
Definition emailSent (emailOptions : option EmailInput) : option EmailInput :=
  match emailOptions with
  | Some options => if hasKeys (emailOf options) then Some (emailOf options) else None
  | None => None
  end.

(** The hidden recipients that are set: a list that is not empty. *)
Definition recipients (bcc : option (list string)) : option (list string) :=
  match bcc with
  | Some (b :: bs) => Some (b :: bs)
  | Some [] | None => None
  end.

(** ** The live cart *)

(** The identifier a cart token stands for: the token itself when it
    is one already, the token under the cart prefix otherwise. *)
Definition cartIdOf (cartToken : string) : string :=
  if starts_with "gid://" cartToken then cartToken else "gid://shopify/Cart/" ++ cartToken.

(** A property of the address the storefront delivers to, as the
    transformed cart has it: the same when non-empty, the empty string
    otherwise. *)
Definition filledFrom (v r : option string) : Prop :=
  (nonEmpty v -> r = v) /\ (isEmpty v -> r = Some "").

(** What the storefront answers about the cart of a payload; nothing
    when the payload has no token or there is no storefront client. *)
Definition liveCart (storefrontClient : option Storefront) (payload : CheckoutData)
    : option (Outcome (option Cart)) :=
  match storefrontClient, when_set (cartToken payload) with
  | Some client, Some token => Some (client (cartIdOf token))
  | _, _ => None
  end.

(** The data [processCheckoutData] creates the draft order from: the
    payload merged with the live cart when the storefront returns one,
    the payload itself in every other case. *)
Definition settledData (storefrontClient : option Storefront) (payload : CheckoutData)
    : CheckoutData :=
  match liveCart storefrontClient payload with
  | Some (Returned (Some cart)) => mergeCart payload (transformCartToPayload cart)
  | _ => payload
  end.

(** ** The routes *)

(** The status the routes that create a draft order answer an error
    with, by its message. *)
Definition createStatus (m : string) : Z :=
  if includes "No line items" m || includes "Draft order creation failed" m
  then 400 else 500.

(** The same for the route that works on an existing draft order. *)
Definition fetchStatus (m : string) : Z :=
  if includes "not found" m || includes "Draft order" m then 400 else 500.

(** The same for the route that sends the invoice. *)
Definition sendStatus (m : string) : Z :=
  if includes "not found" m || includes "not configured" m || includes "user errors" m
  then 400 else 500.

Definition replied (code : Z) (body : Body) : HttpReply :=
  {| reply_code := code; reply_body := body |}.

(** The answer of every route that finds no draft order service. *)
Definition unconfigured : string := "Shopify services not configured".

(** ** The legacy quote *)

(** The line feed that separates the lines of a formatted address. *)
Definition lineFeed : string := String "010" EmptyString.

(** The non-empty ones of a list of properties, in their order. *)
Definition present (parts : list (option string)) : list string :=
  flat_map (fun part => match when_set part with
                        | Some s => [s]
                        | None => []
                        end) parts.

(* ================================================================== *)
(** * Sample data *)
(* ================================================================== *)

(** The shipping address of a live cart: a street, an empty city. *)
Definition liveAddress : Address :=
  mkAddress None None (Some "Pikk 1") None (Some "") None None None None None None None.

(** The shipping address the storefront sent with the payload. *)
Definition sentAddress : Address :=
  mkAddress None None (Some "Lai 2") None (Some "Tartu") None None None None None None None.

(** A draft order of which only the identifier and the name are set. *)
Definition draftNamed (n : option string) : DraftOrder :=
  {| id := Some "gid://shopify/DraftOrder/1";
     name := n;
     status := None; invoiceUrl := None; createdAt := None; updatedAt := None;
     totalPrice := Missing undefined;
     subtotalPrice := Missing undefined;
     totalTax := Missing undefined;
     currencyCode := None; taxLines := None; shippingLine := None;
     customer := None; shippingAddress := None; billingAddress := None;
     lineItems := None; purchasingEntity := None; draftOrder_company := None |}.

(** A world without a platform whose clock reads 1762076400123 ms. *)
Definition quietWorld : World :=
  {| adminClient := None; clock := 1762076400123; trace := [] |}.

(** Services that succeed: an empty PDF, a file whose URL ends in the
    file name it was uploaded under, an attachment that goes through. *)
Definition echoServices : Services :=
  {| generateInvoicePdf := fun _ => ret [];
     uploadPdf := fun _ filename _ =>
       ret {| record_id := Some "gid://shopify/GenericFile/1";
              record_url := Some ("https://cdn.example/" ++ filename) |};
     attachFileToDraftOrder := fun _ _ => ret tt |}.

(** The same services with a renderer that throws. *)
Definition brokenRenderer : Services :=
  {| generateInvoicePdf := fun _ => throw (Error "Invoice PDF generation failed: timeout");
     uploadPdf := uploadPdf echoServices;
     attachFileToDraftOrder := attachFileToDraftOrder echoServices |}.

(** A platform that accepts every draft order as [#D7]. *)
Definition acceptingPlatform : Platform :=
  fun _ r =>
    match r with
    | DraftOrderCreate _ =>
        Returned (mkResponse None None
                    (Some (mkDraftOrderCreatePayload (Some (draftNamed (Some "#D7"))) None)))
    | _ => Returned emptyResponse
    end.

Definition shopWorld : World :=
  {| adminClient := Some acceptingPlatform; clock := 1762076400123; trace := [] |}.

(** A payload with one cart line, and the same payload with none. *)
Definition oneLine : CheckoutData :=
  {| cartLines := Some [mkCartLine (Some "gid://shopify/ProductVariant/42") (Some 1%Z) None];
     data_customer := None; data_purchasingEntity := None;
     data_shippingAddress := None; data_billingAddress := None;
     note := None; cartToken := None |}.

Definition noLines : CheckoutData :=
  {| cartLines := Some [];
     data_customer := None; data_purchasingEntity := None;
     data_shippingAddress := None; data_billingAddress := None;
     note := None; cartToken := None |}.

Definition fileNode (st : string) (url : option string) : FileNode :=
  {| fileStatus := Some st; file_url := url; fileErrors := None |}.

Definition fileReply (node : FileNode) : Outcome Response :=
  Returned (mkResponse (Some node) None None).

(** A platform on which the file is [PROCESSING] for nine polls and
    [READY] from the tenth on. *)
Definition slowPlatform : Platform :=
  fun k _ =>
    if (k <? 9)%nat then fileReply (fileNode "PROCESSING" None)
    else fileReply (fileNode "READY" (Some "https://cdn.example/invoice.pdf")).

(** A platform on which the file never leaves [PROCESSING]. *)
Definition stuckPlatform : Platform :=
  fun _ _ => fileReply (fileNode "PROCESSING" None).


Definition worldOf (platform : Platform) : World :=
  {| adminClient := Some platform; clock := 1762076400123; trace := [] |}.

Definition sampleFile : string := "gid://shopify/GenericFile/1".

(** A line item node as the platform sends it: two locks at 10.50 with
    24% VAT. *)
Definition lockNode : LineItemNode :=
  {| node_id := Some "gid://shopify/DraftOrderLineItem/1";
     node_title := Some "Lock";
     node_quantity := Some (of_Z 2);
     node_originalUnitPrice := Textual "10.50";
     node_taxLines := Some [mkTaxLine (Some "VAT") (Some defaultVatRate) (Textual "5.04")];
     node_variant := Some (mkVariant None (Some "Steel") (Some "LK-1")) |}.

(** A node without quantity, price or tax. *)
Definition bareNode : LineItemNode :=
  {| node_id := None; node_title := None; node_quantity := None;
     node_originalUnitPrice := Missing null;
     node_taxLines := None; node_variant := None |}.



(** A billing address without names, the customer of the order and the
    purchasing company. *)
Definition namelessAddress : Address :=
  mkAddress None (Some "Tamm") (Some "Pikk 1") None (Some "Tallinn") None None
    (Some "Estonia") None (Some "10123") None (Some "Tamm OÜ").

Definition sampleCustomer : Customer :=
  mkCustomer (Some "gid://shopify/Customer/9") (Some "mari@example.com")
    (Some " Mari") (Some "Tamm ").

Definition sampleCompany : Company := mkCompany (Some "Eurosec AS").

(* ================================================================== *)
(** * More sample data *)
(* ================================================================== *)

(** A platform that turns every draft order down with two user errors. *)
Definition refusingPlatform : Platform :=
  fun _ r =>
    match r with
    | DraftOrderCreate _ =>
        Returned (mkResponse None None
                    (Some (mkDraftOrderCreatePayload None
                             (Some [mkUserError "Email is invalid";
                                    mkUserError "Variant is gone"]))))
    | _ => Returned emptyResponse
    end.

(** A platform that knows the customer as contact 5 of company 3 and
    accepts every draft order as [#D8]. *)
Definition companyPlatform : Platform :=
  fun _ r =>
    match r with
    | CustomerCompanyContacts _ =>
        Returned (mkResponse None
                    (Some (mkCustomerNode
                             (Some [mkContactProfile (Some "gid://shopify/CompanyContact/4")
                                      (Some "gid://shopify/Company/2");
                                    mkContactProfile (Some "gid://shopify/CompanyContact/5")
                                      (Some "gid://shopify/Company/3")])))
                    None)
    | DraftOrderCreate _ =>
        Returned (mkResponse None None
                    (Some (mkDraftOrderCreatePayload (Some (draftNamed (Some "#D8"))) None)))
    | NodeQuery _ => Returned emptyResponse
    end.

(** A payload on behalf of company 3 at location 1. *)
Definition companyOrder : CheckoutData :=
  {| cartLines := Some [mkCartLine (Some "gid://shopify/ProductVariant/42") (Some 2%Z) None];
     data_customer := Some sampleCustomer;
     data_purchasingEntity :=
       Some (mkPurchasingEntity (Some "gid://shopify/Company/3")
               (Some "gid://shopify/CompanyLocation/1"));
     data_shippingAddress := None; data_billingAddress := None;
     note := None; cartToken := None |}.

(** A platform on which the first poll sees [PROCESSING] and the second
    request fails. *)
Definition flakyPlatform : Platform :=
  fun k _ =>
    if (k <? 1)%nat then fileReply (fileNode "PROCESSING" None)
    else Thrown (Error "socket hang up").

(** A backend on which everything goes through: uploads are staged at
    one target, files are recorded as [sampleFile], draft orders are
    found, updated and sent as [#D7]. *)
Definition sampleTarget : StagedTarget :=
  {| target_url := Some "https://upload.example/";
     target_resourceUrl := Some "https://upload.example/tmp/1";
     target_parameters := [mkStagedParameter "key" "tmp/1";
                           mkStagedParameter "policy" "p"] |}.

Definition sampleRecord : GenericFile :=
  {| file_id := sampleFile;
     generic_url := None;
     file_alt := Some "as recorded";
     file_createdAt := Some "2025-11-02T09:40:00Z" |}.

Definition sampleSent : SentInvoice :=
  {| sent_id := Some "gid://shopify/DraftOrder/1";
     sent_name := Some "#D7";
     invoiceSentAt := Some "2025-11-02T09:41:00Z";
     sent_invoiceUrl := None |}.

Definition sampleBackend : Backend :=
  fun op =>
    match op with
    | StagedUploadsCreate _ =>
        Returned (mkReply (Some (mkStagedUploadsCreatePayload (Some [sampleTarget]) (Some [])))
                    None None None None)
    | FileCreate _ =>
        Returned (mkReply None (Some (mkFileCreatePayload (Some [sampleRecord]) None))
                    None None None)
    | DraftOrderUpdate i _ =>
        Returned (mkReply None None
                    (Some (mkDraftOrderUpdatePayload (Some (mkUpdatedDraftOrder i None)) None))
                    None None)
    | DraftOrderById _ =>
        Returned (mkReply None None None (Some (draftNamed (Some "#D7"))) None)
    | DraftOrderInvoiceSend _ _ =>
        Returned (mkReply None None None None
                    (Some (mkInvoiceSendPayload (Some sampleSent) None)))
    end.

(** A backend that answers nothing to everything, one whose requests
    fail, and one that answers every mutation with a user error. *)
Definition silentBackend : Backend := fun _ => Returned emptyReply.

Definition downBackend : Backend := fun _ => Thrown (Error "fetch failed").

Definition strictBackend : Backend :=
  fun op =>
    let errors := Some [mkUserError "Draft order is locked"] in
    match op with
    | StagedUploadsCreate _ =>
        Returned (mkReply (Some (mkStagedUploadsCreatePayload None errors)) None None None None)
    | FileCreate _ =>
        Returned (mkReply None (Some (mkFileCreatePayload None errors)) None None None)
    | DraftOrderUpdate i _ =>
        Returned (mkReply None None
                    (Some (mkDraftOrderUpdatePayload (Some (mkUpdatedDraftOrder i None)) errors))
                    None None)
    | DraftOrderById _ => Returned emptyReply
    | DraftOrderInvoiceSend _ _ =>
        Returned (mkReply None None None None (Some (mkInvoiceSendPayload None errors)))
    end.

(** Staged uploads that go through, and a PDF of four bytes. *)
Definition openUploader : Uploader := fun _ _ => Returned tt.

Definition samplePdf : list Byte.byte := [Byte.x25; Byte.x50; Byte.x44; Byte.x46].

(** A renderer that returns the sample PDF. *)
Definition sampleRenderer : InvoiceData -> M Pdf := fun _ => ret samplePdf.

(** The e-mail options of a call that sets a subject and nothing else,
    with an empty string for the recipient and an empty list of hidden
    recipients. *)
Definition subjectOnly : EmailInput :=
  {| email_to := Some "";
     email_from := None;
     email_bcc := Some [];
     email_subject := Some "Your quote";
     email_customMessage := None |}.

(** A live cart with one line of three bolts, a buyer known by e-mail
    only, a delivery address with a street, and two discount codes of
    which one applies. *)
Definition sampleCart : Cart :=
  {| cart_id := Some "gid://shopify/Cart/c1-abc";
     cart_note := Some "";
     buyerIdentity := Some (mkBuyerIdentity (Some "mari@example.com") None None);
     cart_lines :=
       [{| cartLine_id := Some "gid://shopify/CartLine/1";
           cartLine_quantity := 3;
           cartLine_merchandise :=
             {| merchandise_id := Some "gid://shopify/ProductVariant/77";
                merchandise_title := Some "M8";
                merchandise_sku := None;
                merchandise_price := mkMoney "1.20" (Some "EUR");
                merchandise_product := mkProduct (Some "gid://shopify/Product/7") (Some "Bolt");
                merchandise_image := None |};
           cartLine_attributes := [mkProperty (Some "engraving") (Some "ES")] |}];
     cost := mkCartCost (mkMoney "3.60" (Some "EUR")) (mkMoney "3.60" (Some "EUR"));
     discountCodes := [mkCartDiscountCode "SPRING" false; mkCartDiscountCode "B2B10" true];
     deliveryAddress := Some liveAddress |}.

(** The same cart after its only line was removed. *)
Definition emptiedCart : Cart :=
  {| cart_id := cart_id sampleCart;
     cart_note := cart_note sampleCart;
     buyerIdentity := buyerIdentity sampleCart;
     cart_lines := [];
     cost := cost sampleCart;
     discountCodes := discountCodes sampleCart;
     deliveryAddress := deliveryAddress sampleCart |}.


Definition emptiedStorefront : Storefront := fun _ => Returned (Some emptiedCart).

Definition downStorefront : Storefront := fun _ => Thrown (Error "fetch failed").

(** A payload with one line, a note, a shipping address and the token
    of the cart. *)
Definition tokenOrder : CheckoutData :=
  {| cartLines := Some [mkCartLine (Some "gid://shopify/ProductVariant/42") (Some 1%Z) None];
     data_customer := Some sampleCustomer;
     data_purchasingEntity := None;
     data_shippingAddress := Some sentAddress;
     data_billingAddress := None;
     note := Some "Call before delivery";
     cartToken := Some "c1-abc" |}.

(** A renderer that throws. *)
Definition brokenRendererOf : InvoiceData -> M Pdf :=
  fun _ => throw (Error "Invoice PDF generation failed: timeout").

(** The literal [10]. *)
Definition ten : number := Eval vm_compute in of_Z 10.

(** A draft order with a discount of 12.50 that the merchant has
    applied as 10%, described but not titled, and one that owes its
    discount to two codes. *)
Definition springSale : DiscountedOrder :=
  {| totalDiscountsSet :=
       Some {| shopMoney := Some {| shop_amount := Textual "12.50";
                                    shop_currencyCode := Some "EUR" |} |};
     appliedDiscount :=
       Some {| applied_amountSet := None;
               applied_description := Some "Spring sale";
               applied_title := Some "";
               applied_value := Numeric ten;
               applied_valueType := Some "PERCENTAGE" |};
     order_discountCodes := Some ["SPRING"] |}.

Definition codedDiscount : DiscountedOrder :=
  {| totalDiscountsSet :=
       Some {| shopMoney := Some {| shop_amount := Textual "3.00";
                                    shop_currencyCode := Some "EUR" |} |};
     appliedDiscount := None;
     order_discountCodes := Some ["WELCOME"; "B2B"] |}.

(* ================================================================== *)
(** * Properties of strings that may be absent *)
(* ================================================================== *)

(** Splits a conjunction into its conjuncts and nothing further: an
    equation is left to be proved, not computed away. *)
Ltac split_all := repeat match goal with |- _ /\ _ => split end.

Lemma truthy_true_iff (s : string) : truthy s = true <-> s <> "".
Proof.
  destruct s; simpl; split; intro H; congruence.
Qed.

Lemma nonEmpty_truthy (v : option string) :
  nonEmpty v <-> truthy_opt v = true.
Proof.
  split.
  - intros (s & -> & Hs). simpl. now apply truthy_true_iff.
  - destruct v as [s|]; simpl; intro H; [|discriminate].
    exists s. split; [reflexivity|]. now apply truthy_true_iff.
Qed.

Lemma isEmpty_truthy (v : option string) :
  isEmpty v <-> truthy_opt v = false.
Proof.
  split.
  - intros [-> | ->]; reflexivity.
  - destruct v as [[|c s]|]; simpl; intro H; try discriminate.
    + now right.
    + now left.
Qed.

Lemma empty_not_nonEmpty (v : option string) : isEmpty v -> ~ nonEmpty v.
Proof.
  intros He Hn. apply isEmpty_truthy in He. apply nonEmpty_truthy in Hn. congruence.
Qed.

Lemma or_str_nonEmpty (v : option string) (d s : string) :
  v = Some s -> s <> "" -> or_str v d = s.
Proof.
  intros -> Hs. unfold or_str. apply truthy_true_iff in Hs. now rewrite Hs.
Qed.

Lemma or_str_isEmpty (v : option string) (d : string) :
  isEmpty v -> or_str v d = d.
Proof. now intros [-> | ->]. Qed.

Lemma both_true (a b : option string) :
  both a b = true <-> nonEmpty a /\ nonEmpty b.
Proof.
  unfold both. rewrite andb_true_iff, !nonEmpty_truthy. tauto.
Qed.

Lemma both_false (a b : option string) :
  both a b = false <-> nameless a b.
Proof.
  unfold both, nameless. rewrite andb_false_iff, !isEmpty_truthy. tauto.
Qed.

(* ================================================================== *)
(** * Address merge *)
(* ================================================================== *)

Lemma mergeField_mergedFrom (p f : option string) :
  mergedFrom p f (mergeField p f).
Proof.
  unfold mergedFrom, mergeField, or_opt. repeat split.
  - intros Hp. pose proof Hp as (s & -> & Hs).
    apply nonEmpty_truthy in Hp. rewrite Hp.
    f_equal. now apply or_str_nonEmpty.
  - intros Hp Hf. apply isEmpty_truthy in Hp. rewrite Hp.
    destruct Hf as (s & -> & Hs). f_equal. now apply or_str_nonEmpty.
  - intros Hp Hf. apply isEmpty_truthy in Hp. rewrite Hp.
    f_equal. now apply or_str_isEmpty.
Qed.

(** C7.  For every primary and fallback address, every one of the
    twelve properties of [mergeAddress primary fallback] is the
    primary's when that is non-empty, otherwise the fallback's when
    that is non-empty, otherwise the empty string; an omitted fallback
    counts as the empty object; and merging [{address1: "A"}] with
    [{address1: "B", city: "C"}] gives [address1] "A", [city] "C" and
    the empty string everywhere else. *)
Theorem mergeAddress_field_by_field :
  (forall primary fallback : Address,
      Forall (fun field =>
                mergedFrom (snd field primary) (snd field fallback)
                           (snd field (mergeAddress primary (Some fallback))))
             address_fields)
  /\ (forall primary : Address,
         mergeAddress primary None = mergeAddress primary (Some emptyAddress))
  /\ mergeAddress
       (mkAddress None None (Some "A") None None None None None None None None None)
       (Some (mkAddress None None (Some "B") None (Some "C") None None None None None None None))
     = mkAddress (Some "") (Some "") (Some "A") (Some "") (Some "C") (Some "")
                 (Some "") (Some "") (Some "") (Some "") (Some "") (Some "").
Proof.
  split; [|split; [reflexivity|reflexivity]].
  intros primary fallback. unfold address_fields.
  repeat (apply Forall_cons; [simpl; apply mergeField_mergedFrom|]).
  apply Forall_nil.
Qed.

(** The rule of C7 at the address of a live cart that has a street but
    no city, merged with a payload address that has both. *)
Lemma mergeAddress_field_by_field_witness :
  address1 (mergeAddress liveAddress (Some sentAddress)) = Some "Pikk 1"
  /\ city (mergeAddress liveAddress (Some sentAddress)) = Some "Tartu"
  /\ zip (mergeAddress liveAddress (Some sentAddress)) = Some "".
Proof.
  destruct mergeAddress_field_by_field as (Hall & _ & _).
  specialize (Hall liveAddress sentAddress).
  rewrite Forall_forall in Hall.
  split; [|split].
  - destruct (Hall ("address1", address1)) as (H & _ & _).
    + simpl; tauto.
    + apply H. exists "Pikk 1". split; [reflexivity|discriminate].
  - destruct (Hall ("city", city)) as (_ & H & _).
    + simpl; tauto.
    + apply H.
      * right; reflexivity.
      * exists "Tartu". split; [reflexivity|discriminate].
  - destruct (Hall ("zip", zip)) as (_ & _ & H).
    + simpl; tauto.
    + apply H; left; reflexivity.
Defined.

(* ================================================================== *)
(** * Display names on the invoice *)
(* ================================================================== *)

Lemma fullName_namedBy (first last : option string) :
  both first last = true -> namedBy first last (fullName first last).
Proof.
  intros H. apply both_true in H. destruct H as ((a & -> & Ha) & (b & -> & Hb)).
  exists a, b. repeat split; assumption.
Qed.

Lemma customerName_named (customer : option Customer) :
  both (chain customer customer_firstName) (chain customer customer_lastName) = true ->
  namedBy (chain customer customer_firstName) (chain customer customer_lastName)
          (customerName customer).
Proof.
  intros H. unfold customerName. rewrite H. now apply fullName_namedBy.
Qed.

Lemma customerName_nameless (customer : option Customer) :
  nameless (chain customer customer_firstName) (chain customer customer_lastName) ->
  customerName customer = "Customer".
Proof.
  intros H. apply both_false in H. unfold customerName. now rewrite H.
Qed.

Lemma namedBy_unique (first last : option string) (n m : string) :
  namedBy first last n -> namedBy first last m -> n = m.
Proof.
  intros (a & b & Ha & Hb & _ & _ & ->) (a' & b' & Ha' & Hb' & _ & _ & ->).
  congruence.
Qed.

(** C9.  For every address, optional customer and optional company:
    the display name is the address's first and last name when the
    address has both, otherwise the customer's first and last name when
    the customer has both, otherwise the literal "Customer"; the company
    name is the company's [name] when that is non-empty, otherwise the
    address's [company] when that is non-empty, otherwise empty.  The
    same order holds when there is no address at all, the steps that
    need one being skipped. *)
Theorem formatInvoiceAddress_display_name
    (address : Address) (customer : option Customer) (purchaser : option Company) :
  let shown := formatInvoiceAddress (Some address) customer purchaser in
  let bare := formatInvoiceAddress None customer purchaser in
  let customerFirst := chain customer customer_firstName in
  let customerLast := chain customer customer_lastName in
  (* the name *)
  (forall n, namedBy (firstName address) (lastName address) n -> ia_name shown = n)
  /\ (nameless (firstName address) (lastName address) ->
      forall n, namedBy customerFirst customerLast n -> ia_name shown = n)
  /\ (nameless (firstName address) (lastName address) ->
      nameless customerFirst customerLast -> ia_name shown = "Customer")
  (* the company *)
  /\ (forall c, companyName purchaser = Some c -> c <> "" -> ia_companyName shown = c)
  /\ (isEmpty (companyName purchaser) ->
      forall c, company address = Some c -> c <> "" -> ia_companyName shown = c)
  /\ (isEmpty (companyName purchaser) -> isEmpty (company address) ->
      ia_companyName shown = "")
  (* without an address *)
  /\ (forall n, namedBy customerFirst customerLast n -> ia_name bare = n)
  /\ (nameless customerFirst customerLast -> ia_name bare = "Customer")
  /\ (forall c, companyName purchaser = Some c -> c <> "" -> ia_companyName bare = c)
  /\ (isEmpty (companyName purchaser) -> ia_companyName bare = "").
Proof.
  cbv zeta. simpl.
  assert (Hcust : forall n,
             namedBy (chain customer customer_firstName) (chain customer customer_lastName) n ->
             customerName customer = n).
  { intros n Hn. apply namedBy_unique with (2 := Hn).
    apply customerName_named. apply both_true.
    destruct Hn as (a & b & Ha & Hb & Na & Nb & _).
    split; [exists a | exists b]; tauto. }
  split_all.
  - intros n Hn.
    assert (Hb : both (firstName address) (lastName address) = true).
    { destruct Hn as (a & b & Ha & Hb & Na & Nb & _). apply both_true.
      split; [exists a | exists b]; tauto. }
    rewrite Hb. apply namedBy_unique with (2 := Hn). now apply fullName_namedBy.
  - intros Hless n Hn. apply both_false in Hless. rewrite Hless. now apply Hcust.
  - intros Hless Hc. apply both_false in Hless. rewrite Hless.
    now apply customerName_nameless.
  - intros c Hc Hne. unfold or_opt.
    assert (Ht : truthy_opt (companyName purchaser) = true).
    { apply nonEmpty_truthy. exists c. tauto. }
    rewrite Ht. now apply or_str_nonEmpty.
  - intros He c Hc Hne. unfold or_opt. apply isEmpty_truthy in He. rewrite He.
    now apply or_str_nonEmpty.
  - intros He Ha. unfold or_opt. apply isEmpty_truthy in He. rewrite He.
    now apply or_str_isEmpty.
  - exact Hcust.
  - apply customerName_nameless.
  - intros c Hc Hne. now apply or_str_nonEmpty.
  - apply or_str_isEmpty.
Qed.

(** C9 on an address that has a last name only: the name is the
    customer's, trimmed, and the company is the purchasing company's
    rather than the one written in the address. *)
Lemma formatInvoiceAddress_display_name_witness :
  ia_name (formatInvoiceAddress (Some namelessAddress) (Some sampleCustomer)
             (Some sampleCompany))
  = trim " Mari Tamm "
  /\ ia_companyName (formatInvoiceAddress (Some namelessAddress) (Some sampleCustomer)
                       (Some sampleCompany))
     = "Eurosec AS".
Proof.
  destruct (formatInvoiceAddress_display_name namelessAddress (Some sampleCustomer)
              (Some sampleCompany)) as (_ & Hname & _ & Hcompany & _).
  split.
  - apply Hname.
    + left. left. reflexivity.
    + exists " Mari", "Tamm ". repeat split; discriminate.
  - apply Hcompany; [reflexivity | discriminate].
Defined.

(** What [trim] removes: white space at both ends, also the no-break
    space U+00A0, and nothing inside. *)
Example trim_samples :
  trim " Mari Tamm " = "Mari Tamm"
  /\ trim "x ab" = "x ab"
  /\ trim (String "194" (String "160" "Mari  Tamm")) = "Mari  Tamm"
  /\ trim "   " = "".
Proof. repeat split. Qed.

(** The bill-to block of the sample order. *)
Example formatInvoiceAddress_sample :
  formatInvoiceAddress (Some namelessAddress) (Some sampleCustomer) None
  = {| ia_companyName := "Tamm OÜ";
       ia_name := "Mari Tamm";
       ia_line1 := "Pikk 1"; ia_line2 := "";
       ia_city := "Tallinn"; ia_zip := "10123";
       ia_province := Some "";
       ia_country := "Estonia" |}.
Proof. reflexivity. Qed.

(* ================================================================== *)
(** * Runs of digits *)
(* ================================================================== *)

Lemma append_nonempty_r (a b : string) : b <> "" -> a ++ b <> "".
Proof.
  intros Hb H. destruct a; simpl in H; [contradiction | discriminate].
Qed.

Lemma take_drop_digits (s : string) : s = take_digits s ++ drop_digits s.
Proof.
  induction s as [|c s IH]; simpl; [reflexivity|].
  destruct (is_digit c); simpl; [now rewrite <- IH | reflexivity].
Qed.

Lemma take_digits_all (s : string) : all_digits (take_digits s) = true.
Proof.
  induction s as [|c s IH]; simpl; [reflexivity|].
  destruct (is_digit c) eqn:E; simpl; [now rewrite E | reflexivity].
Qed.

Lemma drop_digits_leading (s : string) : leading_digit (drop_digits s) = false.
Proof.
  induction s as [|c s IH]; simpl; [reflexivity|].
  destruct (is_digit c) eqn:E; simpl; [exact IH | exact E].
Qed.

Lemma match_digits_none (s : string) :
  has_digit s = false -> match_digits s = None.
Proof.
  induction s as [|c s IH]; simpl; [reflexivity|].
  destruct (is_digit c); simpl; [discriminate | exact IH].
Qed.

(** [match(/\d+/)] finds the leftmost run and takes all of it. *)
Lemma match_digits_first_run (s : string) :
  has_digit s = true ->
  exists before digits after,
    s = before ++ digits ++ after
    /\ has_digit before = false
    /\ digits <> ""
    /\ all_digits digits = true
    /\ leading_digit after = false
    /\ match_digits s = Some digits.
Proof.
  induction s as [|c s IH]; simpl; [discriminate|].
  destruct (is_digit c) eqn:E; simpl.
  - intros _. exists "", (String c (take_digits s)), (drop_digits s).
    split_all.
    + simpl. now rewrite <- take_drop_digits.
    + reflexivity.
    + discriminate.
    + simpl. rewrite E. apply take_digits_all.
    + apply drop_digits_leading.
    + reflexivity.
  - intros H. destruct (IH H) as (b & d & a & Hs & Hb & Hd & Ha & Hl & Hm).
    exists (String c b), d, a.
    split_all; try assumption.
    + simpl. now rewrite <- Hs.
    + simpl. now rewrite E.
Qed.

Lemma keep_digits_app (a b : string) :
  keep_digits (a ++ b) = keep_digits a ++ keep_digits b.
Proof.
  induction a as [|c a IH]; simpl; [reflexivity|].
  destruct (is_digit c); simpl; now rewrite IH.
Qed.

Lemma keep_digits_none (s : string) : has_digit s = false -> keep_digits s = "".
Proof.
  induction s as [|c s IH]; simpl; [reflexivity|].
  destruct (is_digit c); simpl; [discriminate | exact IH].
Qed.

Lemma keep_digits_all (s : string) : all_digits s = true -> keep_digits s = s.
Proof.
  induction s as [|c s IH]; simpl; [reflexivity|].
  destruct (is_digit c); simpl; [|discriminate].
  intros H. now rewrite IH.
Qed.

Lemma append_empty_r (s : string) : s ++ "" = s.
Proof. induction s; simpl; congruence. Qed.

(* ================================================================== *)
(** * Decimal digits of the clock *)
(* ================================================================== *)

Lemma is_digit_digit_char (d : Z) :
  (0 <= d < 10)%Z -> is_digit (Decimal.digit_char d) = true.
Proof.
  intros H. unfold is_digit, Decimal.digit_char.
  rewrite nat_ascii_embedding by lia.
  apply andb_true_iff. split; apply Nat.leb_le; lia.
Qed.

Lemma digits_onto_all (fuel : nat) :
  forall n acc, (0 <= n)%Z -> all_digits acc = true ->
                all_digits (Decimal.digits_onto fuel n acc) = true.
Proof.
  induction fuel as [|f IH]; intros n acc Hn Hacc; simpl; [assumption|].
  assert (Hd : all_digits (String (Decimal.digit_char (n mod 10)) acc) = true).
  { cbn [all_digits]. rewrite is_digit_digit_char by (apply Z.mod_pos_bound; lia). exact Hacc. }
  destruct (n <? 10)%Z; [exact Hd|].
  apply IH; [apply Z.div_pos; lia | exact Hd].
Qed.

Lemma digits_onto_length_ge (fuel : nat) :
  forall n acc, String.length acc <= String.length (Decimal.digits_onto fuel n acc).
Proof.
  induction fuel as [|f IH]; intros n acc; simpl; [lia|].
  destruct (n <? 10)%Z; simpl; [lia|].
  etransitivity; [|apply IH]. simpl. lia.
Qed.

Lemma digits_onto_length (k : nat) :
  forall fuel n acc,
    (10 ^ Z.of_nat k <= n)%Z -> (n < 2 ^ Z.of_nat fuel)%Z ->
    k + 1 + String.length acc <= String.length (Decimal.digits_onto fuel n acc).
Proof.
  induction k as [|k IH]; intros fuel n acc Hlow Hhigh.
  - destruct fuel as [|f].
    + simpl in Hlow, Hhigh. lia.
    + simpl Decimal.digits_onto.
      destruct (n <? 10)%Z; simpl; [lia|].
      etransitivity; [|apply digits_onto_length_ge]. simpl. lia.
  - assert (H10 : (10 <= n)%Z).
    { rewrite Nat2Z.inj_succ, Z.pow_succ_r in Hlow by lia.
      assert (0 < 10 ^ Z.of_nat k)%Z by (apply Z.pow_pos_nonneg; lia). lia. }
    destruct fuel as [|f].
    + simpl in Hhigh. lia.
    + simpl Decimal.digits_onto.
      destruct (n <? 10)%Z eqn:E; [apply Z.ltb_lt in E; lia|].
      etransitivity; [|apply IH].
      * simpl. lia.
      * rewrite Nat2Z.inj_succ, Z.pow_succ_r in Hlow by lia.
        apply Z.div_le_lower_bound; lia.
      * rewrite Nat2Z.inj_succ, Z.pow_succ_r in Hhigh by lia.
        apply Z.div_lt_upper_bound; lia.
Qed.

Lemma digit_fuel_enough (n : Z) :
  (0 < n)%Z -> (n < 2 ^ Z.of_nat (Decimal.digit_fuel n))%Z.
Proof.
  intros Hn. unfold Decimal.digit_fuel.
  rewrite Nat2Z.inj_succ, Z2Nat.id by apply Z.log2_nonneg.
  apply Z.log2_spec. exact Hn.
Qed.

Lemma of_nonneg_all_digits (n : Z) :
  (0 <= n)%Z -> all_digits (Decimal.of_nonneg n) = true.
Proof.
  intros Hn. unfold Decimal.of_nonneg. now apply digits_onto_all.
Qed.

Lemma of_nonneg_nonempty (n : Z) : Decimal.of_nonneg n <> "".
Proof.
  unfold Decimal.of_nonneg, Decimal.digit_fuel. simpl.
  destruct (n <? 10)%Z; [discriminate|].
  intros H.
  pose proof (digits_onto_length_ge (Z.to_nat (Z.log2 n)) (n / 10)
                (String (Decimal.digit_char (n mod 10)) "")) as L.
  rewrite H in L. simpl in L. lia.
Qed.

Lemma toString_nonempty (n : Z) : Decimal.toString n <> "".
Proof.
  unfold Decimal.toString. destruct (n <? 0)%Z; [discriminate|].
  apply of_nonneg_nonempty.
Qed.

Lemma toString_six_digits (n : Z) :
  (100000 <= n)%Z ->
  all_digits (Decimal.toString n) = true /\ 6 <= String.length (Decimal.toString n).
Proof.
  intros Hn. unfold Decimal.toString.
  destruct (n <? 0)%Z eqn:E; [apply Z.ltb_lt in E; lia|].
  split; [apply of_nonneg_all_digits; lia|].
  unfold Decimal.of_nonneg.
  pose proof (digits_onto_length 5 (Decimal.digit_fuel n) n "") as L.
  simpl String.length in L. simpl Nat.add in L.
  apply L; [exact Hn | apply digit_fuel_enough; lia].
Qed.

Lemma drop_length (k : nat) :
  forall s, String.length (drop k s) = String.length s - k.
Proof.
  induction k as [|k IH]; intros [|c s]; simpl; try reflexivity; try lia.
  apply IH.
Qed.

Lemma drop_all_digits (k : nat) :
  forall s, all_digits s = true -> all_digits (drop k s) = true.
Proof.
  induction k as [|k IH]; intros [|c s]; simpl; auto.
  intros H. apply andb_true_iff in H. now apply IH.
Qed.

Lemma slice_last_length (k : nat) (s : string) :
  k <= String.length s -> String.length (slice_last k s) = k.
Proof.
  intros H. unfold slice_last. rewrite drop_length. lia.
Qed.

Lemma slice_last_nonempty (k : nat) (s : string) :
  0 < k -> s <> "" -> slice_last k s <> "".
Proof.
  intros Hk Hs H.
  assert (L : String.length (slice_last k s) = 0) by now rewrite H.
  unfold slice_last in L. rewrite drop_length in L.
  destruct s as [|c s]; [contradiction|]. cbn [String.length] in L. lia.
Qed.


(* ================================================================== *)
(** * Digits and their value *)
(* ================================================================== *)



Lemma take_drop (k : nat) : forall s, JsNumber.take k s ++ drop k s = s.
Proof.
  induction k as [|k IH]; intros [|c s]; simpl; try reflexivity.
  now rewrite IH.
Qed.

Lemma take_all_digits (k : nat) :
  forall s, all_digits s = true -> all_digits (JsNumber.take k s) = true.
Proof.
  induction k as [|k IH]; intros [|c s]; simpl; try reflexivity.
  intros H. apply andb_true_iff in H. destruct H as (Hc & Hs).
  now rewrite Hc, IH.
Qed.

Lemma take_length (k : nat) :
  forall s, k <= String.length s -> String.length (JsNumber.take k s) = k.
Proof.
  induction k as [|k IH]; intros [|c s]; simpl; intros H; try reflexivity; try lia.
  rewrite IH; lia.
Qed.

Lemma value_from_shift (s : string) :
  forall a, Decimal.value_from a s
            = (a * 10 ^ Z.of_nat (String.length s) + Decimal.value_from 0 s)%Z.
Proof.
  induction s as [|c s IH]; intros a.
  - simpl. lia.
  - cbn [Decimal.value_from String.length].
    rewrite IH, (IH (10 * 0 + _)%Z), Nat2Z.inj_succ, Z.pow_succ_r by lia. lia.
Qed.

Lemma value_from_app (a b : string) :
  forall z, Decimal.value_from z (a ++ b) = Decimal.value_from (Decimal.value_from z a) b.
Proof.
  induction a as [|c a IH]; intros z; cbn [append Decimal.value_from]; [reflexivity|].
  apply IH.
Qed.

Lemma value_app (a b : string) :
  Decimal.value (a ++ b)
  = (Decimal.value a * 10 ^ Z.of_nat (String.length b) + Decimal.value b)%Z.
Proof.
  unfold Decimal.value. rewrite value_from_app. apply value_from_shift.
Qed.

Lemma is_digit_value (c : ascii) :
  is_digit c = true -> (0 <= Z.of_nat (nat_of_ascii c) - 48 <= 9)%Z.
Proof.
  unfold is_digit. intros H. apply andb_true_iff in H. destruct H as (Hl & Hu).
  apply Nat.leb_le in Hl, Hu. lia.
Qed.

(** A string of [k] digits has a value below [10^k]. *)
Lemma value_bound (s : string) :
  all_digits s = true ->
  (0 <= Decimal.value s < 10 ^ Z.of_nat (String.length s))%Z.
Proof.
  unfold Decimal.value. induction s as [|c s IH]; intros H.
  - simpl. lia.
  - cbn [all_digits] in H. apply andb_true_iff in H. destruct H as (Hc & Hs).
    cbn [Decimal.value_from String.length].
    rewrite value_from_shift, Nat2Z.inj_succ, Z.pow_succ_r by lia.
    pose proof (is_digit_value c Hc). specialize (IH Hs).
    assert (0 < 10 ^ Z.of_nat (String.length s))%Z by (apply Z.pow_pos_nonneg; lia).
    nia.
Qed.

Lemma digit_char_value (d : Z) :
  (0 <= d < 10)%Z -> (Z.of_nat (nat_of_ascii (Decimal.digit_char d)) - 48 = d)%Z.
Proof.
  intros H. unfold Decimal.digit_char. rewrite nat_ascii_embedding by lia. lia.
Qed.

Lemma digits_onto_value (fuel : nat) :
  forall n acc,
    (0 <= n < 2 ^ Z.of_nat fuel)%Z ->
    Decimal.value (Decimal.digits_onto fuel n acc)
    = (n * 10 ^ Z.of_nat (String.length acc) + Decimal.value acc)%Z.
Proof.
  induction fuel as [|f IH]; intros n acc Hn.
  - simpl in *. assert (n = 0)%Z by lia. subst. lia.
  - cbn [Decimal.digits_onto].
    assert (Hd : (0 <= n mod 10 < 10)%Z) by (apply Z.mod_pos_bound; lia).
    assert (Hv : Decimal.value (String (Decimal.digit_char (n mod 10)) acc)
                 = (n mod 10 * 10 ^ Z.of_nat (String.length acc) + Decimal.value acc)%Z).
    { unfold Decimal.value. cbn [Decimal.value_from].
      rewrite value_from_shift, digit_char_value by exact Hd. lia. }
    destruct (n <? 10)%Z eqn:E.
    + apply Z.ltb_lt in E. rewrite Hv, Z.mod_small by lia. reflexivity.
    + apply Z.ltb_ge in E. rewrite IH.
      * rewrite Hv. cbn [String.length]. rewrite Nat2Z.inj_succ, Z.pow_succ_r by lia.
        rewrite (Z.div_mod n 10) at 3 by lia. lia.
      * rewrite Nat2Z.inj_succ, Z.pow_succ_r in Hn by lia.
        split; [apply Z.div_pos; lia | apply Z.div_lt_upper_bound; lia].
Qed.

Lemma of_nonneg_value (n : Z) : (0 <= n)%Z -> Decimal.value (Decimal.of_nonneg n) = n.
Proof.
  intros Hn. unfold Decimal.of_nonneg.
  destruct (Z.eq_dec n 0) as [-> | Hne]; [reflexivity|].
  rewrite digits_onto_value.
  - simpl. unfold Decimal.value. simpl. lia.
  - split; [exact Hn | apply digit_fuel_enough; lia].
Qed.

Lemma pad_zeros_spec (k : nat) :
  forall s,
    all_digits s = true ->
    all_digits (Decimal.pad_zeros k s) = true
    /\ Decimal.value (Decimal.pad_zeros k s) = Decimal.value s
    /\ k <= String.length (Decimal.pad_zeros k s)
    /\ String.length s <= String.length (Decimal.pad_zeros k s).
Proof.
  induction k as [|k IH]; intros s Hs.
  - simpl. repeat split; auto; lia.
  - cbn [Decimal.pad_zeros].
    destruct (S k - String.length s) eqn:E.
    + repeat split; auto; lia.
    + destruct (IH s Hs) as (Ha & Hv & Hk & Hl).
      repeat split.
      * cbn [all_digits]. now rewrite Ha.
      * unfold Decimal.value in *. cbn [Decimal.value_from]. exact Hv.
      * cbn [String.length]. lia.
      * cbn [String.length]. lia.
Qed.


(** The last [k] digits of a number are its remainder modulo [10^k]. *)
Lemma slice_last_value (k : nat) (n : Z) :
  (0 <= n)%Z -> k <= String.length (Decimal.of_nonneg n) ->
  Decimal.value (slice_last k (Decimal.of_nonneg n)) = (n mod 10 ^ Z.of_nat k)%Z.
Proof.
  intros Hn Hk.
  set (d := Decimal.of_nonneg n) in *.
  assert (Hall : all_digits d = true) by now apply of_nonneg_all_digits.
  assert (Hlen : String.length (slice_last k d) = k) by now apply slice_last_length.
  pose proof (value_bound (slice_last k d) (drop_all_digits _ d Hall)) as Hb.
  rewrite Hlen in Hb.
  assert (Hsplit : n = (Decimal.value (JsNumber.take (String.length d - k) d)
                        * 10 ^ Z.of_nat k + Decimal.value (slice_last k d))%Z).
  { rewrite <- (of_nonneg_value n Hn) at 1. fold d.
    rewrite <- (take_drop (String.length d - k) d) at 1.
    rewrite value_app. fold (slice_last k d). now rewrite Hlen. }
  apply Z.mod_unique with (q := Decimal.value (JsNumber.take (String.length d - k) d)).
  - left. exact Hb.
  - lia.
Qed.

(* ================================================================== *)
(** * Invoice numbers *)
(* ================================================================== *)

Lemma generateInvoiceNumber_fallback (now : Z) (name : option string) (prefix : string) :
  (name = None \/ exists n, name = Some n /\ has_digit n = false) ->
  generateInvoiceNumber now name (Some prefix)
  = prefix ++ slice_last 6 (Decimal.toString now).
Proof.
  unfold generateInvoiceNumber.
  intros [-> | (n & -> & Hn)]; [reflexivity|].
  destruct (truthy n); [|reflexivity].
  now rewrite match_digits_none.
Qed.

(** C5.  For every draft order name and prefix: when the name holds a
    digit, the invoice number is the prefix followed by the first run
    of digits of the name, the whole run and nothing more; when the
    name is absent or holds no digit, it is the prefix followed by the
    last six characters of the clock reading in decimal, which are six
    digits, those of the reading modulo 10^6, for every reading from
    100000 ms on; it is never empty; an
    omitted prefix is [INV-EE-], so that the name [#D123] gives
    [INV-EE-123]. *)
Theorem generateInvoiceNumber_first_run_or_clock
    (now : Z) (name : option string) (prefix : string) :
  (forall n, name = Some n -> has_digit n = true ->
     exists before digits after,
       n = before ++ digits ++ after
       /\ has_digit before = false
       /\ digits <> ""
       /\ all_digits digits = true
       /\ leading_digit after = false
       /\ generateInvoiceNumber now name (Some prefix) = prefix ++ digits)
  /\ ((name = None \/ exists n, name = Some n /\ has_digit n = false) ->
      exists stamp,
        generateInvoiceNumber now name (Some prefix) = prefix ++ stamp
        /\ stamp = slice_last 6 (Decimal.toString now)
        /\ ((100000 <= now)%Z ->
            String.length stamp = 6 /\ all_digits stamp = true
            /\ Decimal.value stamp = (now mod 1000000)%Z))
  /\ generateInvoiceNumber now name (Some prefix) <> ""
  /\ generateInvoiceNumber now name None
     = generateInvoiceNumber now name (Some "INV-EE-")
  /\ generateInvoiceNumber now (Some "#D123") None = "INV-EE-123".
Proof.
  assert (Hfall : (name = None \/ exists n, name = Some n /\ has_digit n = false) ->
                  generateInvoiceNumber now name (Some prefix) <> "").
  { intros H. rewrite generateInvoiceNumber_fallback by exact H.
    apply append_nonempty_r, slice_last_nonempty; [lia | apply toString_nonempty]. }
  assert (Hrun : forall n, name = Some n -> has_digit n = true ->
     exists before digits after,
       n = before ++ digits ++ after
       /\ has_digit before = false
       /\ digits <> ""
       /\ all_digits digits = true
       /\ leading_digit after = false
       /\ generateInvoiceNumber now name (Some prefix) = prefix ++ digits).
  { intros n -> Hn.
    destruct (match_digits_first_run n Hn) as (b & d & a & Hs & Hb & Hd & Ha & Hl & Hm).
    exists b, d, a. split_all; try assumption.
    unfold generateInvoiceNumber.
    assert (Ht : truthy n = true) by (destruct n; [discriminate | reflexivity]).
    now rewrite Ht, Hm. }
  split_all.
  - exact Hrun.
  - intros H. exists (slice_last 6 (Decimal.toString now)).
    split; [now apply generateInvoiceNumber_fallback|].
    split; [reflexivity|].
    intros Hnow. destruct (toString_six_digits now Hnow) as (Hall & Hlen).
    split; [now apply slice_last_length|]. split; [now apply drop_all_digits|].
    unfold Decimal.toString in *.
    assert (E : (now <? 0)%Z = false) by (apply Z.ltb_ge; lia).
    rewrite E in *. apply (slice_last_value 6 now); [lia | exact Hlen].
  - destruct name as [n|]; [|apply Hfall; now left].
    destruct (has_digit n) eqn:E.
    + destruct (Hrun n eq_refl E) as (b & d & a & _ & _ & Hd & _ & _ & ->).
      now apply append_nonempty_r.
    + apply Hfall. right. now exists n.
  - reflexivity.
  - reflexivity.
Qed.

(** C5 at the clock reading 1762076400123 ms: a name without digits
    gets the six digits [400123], a name with digits its first run. *)
Lemma generateInvoiceNumber_first_run_or_clock_witness :
  generateInvoiceNumber 1762076400123 (Some "Draft") (Some "INV-EE-") = "INV-EE-400123"
  /\ generateInvoiceNumber 1762076400123 (Some "#D123") (Some "INV-EE-") <> "".
Proof.
  destruct (generateInvoiceNumber_first_run_or_clock
              1762076400123 (Some "Draft") "INV-EE-") as (_ & Hclock & _).
  destruct Hclock as (stamp & Hnum & Hstamp & _).
  { right. exists "Draft". split; reflexivity. }
  split.
  - rewrite Hnum, Hstamp. reflexivity.
  - apply (generateInvoiceNumber_first_run_or_clock 1762076400123 (Some "#D123") "INV-EE-").
Defined.

(** Where the two derivations of an invoice number meet: under the
    default prefix, for a name with exactly one run of digits. *)
Lemma filenameInvoiceNumber_single_run (now : Z) (before digits after : string) :
  has_digit before = false -> digits <> "" -> all_digits digits = true ->
  has_digit after = false ->
  filenameInvoiceNumber now (Some (before ++ digits ++ after))
  = generateInvoiceNumber now (Some (before ++ digits ++ after)) None.
Proof.
  intros Hb Hd Ha Hafter.
  unfold filenameInvoiceNumber, generateInvoiceNumber, defaultPrefix.
  assert (Ht : truthy (before ++ digits ++ after) = true).
  { apply truthy_true_iff, append_nonempty_r, not_eq_sym.
    intros H. symmetry in H. revert H. destruct digits; [contradiction | discriminate]. }
  rewrite Ht.
  rewrite !keep_digits_app, (keep_digits_none _ Hb), (keep_digits_none _ Hafter),
    (keep_digits_all _ Ha), append_empty_r. simpl.
  assert (Hm : match_digits (before ++ digits ++ after) = Some digits).
  { clear Ht. induction before as [|c b IH]; simpl in *.
    - destruct digits as [|d ds]; [contradiction|]. simpl in *.
      apply andb_true_iff in Ha. destruct Ha as (Hc & Hds). rewrite Hc.
      f_equal. f_equal. clear Hd Hc d.
      induction ds as [|d ds IHd]; simpl in *.
      + destruct after as [|a r]; simpl in *; [reflexivity|].
        destruct (is_digit a); [discriminate | reflexivity].
      + apply andb_true_iff in Hds. destruct Hds as (Hc & Hds). rewrite Hc.
        f_equal. now apply IHd.
    - destruct (is_digit c); [discriminate|]. now apply IH. }
  now rewrite Hm.
Qed.

(* ================================================================== *)
(** * The invoice number in the file name *)
(* ================================================================== *)

(** C6.  The file name handed to the uploader is not built from the
    invoice number of the document.  With the invoice prefix configured
    as [INV-FI-], the draft order [#D123] is printed with the number
    [INV-FI-123] and uploaded as [vat_invoice_INV-EE-123.pdf]; under
    the default prefix, the name [#D12-3] is printed as [INV-EE-12] and
    uploaded as [vat_invoice_INV-EE-123.pdf], and the name [Draft] is
    printed with six digits of the clock and uploaded as
    [vat_invoice_INV-EE-.pdf]. *)
Theorem generateAndAttachPdf_filename_number :
  let printed prefix n :=
    invoiceNumber (prepareInvoiceTemplateData (mkInvoiceConfig prefix)
                     (clock quietWorld) euro (draftNamed (Some n))) in
  let uploaded n :=
    fst (generateAndAttachPdf echoServices (draftNamed (Some n)) None quietWorld) in
  printed (Some "INV-FI-") "#D123" = "INV-FI-123"
  /\ uploaded "#D123"
     = Returned (mkPdfResult "completed"
                   (Some "https://cdn.example/vat_invoice_INV-EE-123.pdf"))
  /\ printed (Some "INV-EE-") "#D12-3" = "INV-EE-12"
  /\ uploaded "#D12-3"
     = Returned (mkPdfResult "completed"
                   (Some "https://cdn.example/vat_invoice_INV-EE-123.pdf"))
  /\ printed (Some "INV-EE-") "Draft" = "INV-EE-400123"
  /\ uploaded "Draft"
     = Returned (mkPdfResult "completed"
                   (Some "https://cdn.example/vat_invoice_INV-EE-.pdf")).
Proof.
  cbv zeta. split_all; vm_compute; reflexivity.
Qed.


(* ================================================================== *)
(** * The coordinator never throws *)
(* ================================================================== *)

(** The run of the coordinator, step by step. *)
Lemma generateAndAttachPdf_steps
    (services : Services) (draftOrder : DraftOrder)
    (payload : option CheckoutData) (w : World) :
  generateAndAttachPdf services draftOrder payload w
  = let failed w' :=
      (Returned pdf_failed, record (Logged error "PDF generation/upload failed") w') in
    match generateInvoicePdf services (mkInvoiceData draftOrder payload) w with
    | (Thrown _, w1) => failed w1
    | (Returned pdf, w1) =>
        match uploadPdf services pdf (uploadName (clock w1) draftOrder)
                (uploadAlt (clock w1) draftOrder) w1 with
        | (Thrown _, w2) => failed w2
        | (Returned file, w2) =>
            match attachFileToDraftOrder services (id draftOrder) (record_url file) w2 with
            | (Thrown _, w3) => failed w3
            | (Returned _, w3) =>
                (Returned (completed (record_url file)),
                 record (Logged info "VAT Invoice PDF created and attached successfully") w3)
            end
        end
    end.
Proof.
  unfold generateAndAttachPdf, try_catch, bind, dateNow, uploadName, uploadAlt.
  destruct (generateInvoicePdf services (mkInvoiceData draftOrder payload) w)
    as [[pdf|e] w1]; [|reflexivity].
  destruct (uploadPdf services pdf _ _ w1) as [[file|e] w2]; [|reflexivity].
  destruct (attachFileToDraftOrder services (id draftOrder) (record_url file) w2)
    as [[u|e] w3]; reflexivity.
Qed.

(** C1.  For every draft order, every payload and whatever the
    renderer, the uploader and the attachment do: the call returns,
    and what it returns is either [{status: "completed", url}] or
    [{status: "pdf_failed", url: null}]; it is the former, with the URL
    of the uploaded file, when the three service calls return, and the
    latter as soon as one of them throws. *)
Theorem generateAndAttachPdf_never_throws
    (services : Services) (draftOrder : DraftOrder)
    (payload : option CheckoutData) (w : World) :
  let run := generateAndAttachPdf services draftOrder payload w in
  let render := generateInvoicePdf services (mkInvoiceData draftOrder payload) w in
  let upload pdf w1 :=
    uploadPdf services pdf (uploadName (clock w1) draftOrder)
      (uploadAlt (clock w1) draftOrder) w1 in
  let attach file w2 :=
    attachFileToDraftOrder services (id draftOrder) (record_url file) w2 in
  (exists result, fst run = Returned result
                  /\ (result = pdf_failed \/ exists url, result = completed url))
  /\ (forall pdf w1 file w2 done w3,
         render = (Returned pdf, w1) ->
         upload pdf w1 = (Returned file, w2) ->
         attach file w2 = (Returned done, w3) ->
         fst run = Returned (completed (record_url file)))
  /\ (forall e w1, render = (Thrown e, w1) -> fst run = Returned pdf_failed)
  /\ (forall pdf w1 e w2,
         render = (Returned pdf, w1) ->
         upload pdf w1 = (Thrown e, w2) ->
         fst run = Returned pdf_failed)
  /\ (forall pdf w1 file w2 e w3,
         render = (Returned pdf, w1) ->
         upload pdf w1 = (Returned file, w2) ->
         attach file w2 = (Thrown e, w3) ->
         fst run = Returned pdf_failed).
Proof.
  cbv zeta. rewrite generateAndAttachPdf_steps. cbv zeta.
  split_all.
  - destruct (generateInvoicePdf services (mkInvoiceData draftOrder payload) w)
      as [[pdf|e] w1]; [|exists pdf_failed; split; [reflexivity | now left]].
    destruct (uploadPdf services pdf _ _ w1)
      as [[file|e] w2]; [|exists pdf_failed; split; [reflexivity | now left]].
    destruct (attachFileToDraftOrder services (id draftOrder) (record_url file) w2)
      as [[u|e] w3]; [|exists pdf_failed; split; [reflexivity | now left]].
    exists (completed (record_url file)). split; [reflexivity|]. right. now eexists.
  - intros pdf w1 file w2 u w3 H1 H2 H3. now rewrite H1, H2, H3.
  - intros e w1 H1. now rewrite H1.
  - intros pdf w1 e w2 H1 H2. now rewrite H1, H2.
  - intros pdf w1 file w2 e w3 H1 H2 H3. now rewrite H1, H2, H3.
Qed.

(** C1 with a renderer that throws: the caller gets the failed status
    and no exception. *)
Lemma generateAndAttachPdf_never_throws_witness :
  fst (generateAndAttachPdf brokenRenderer (draftNamed (Some "#D123")) None quietWorld)
  = Returned pdf_failed.
Proof.
  destruct (generateAndAttachPdf_never_throws brokenRenderer
              (draftNamed (Some "#D123")) None quietWorld) as (_ & _ & Hrender & _).
  apply (Hrender (Error "Invoice PDF generation failed: timeout") quietWorld).
  reflexivity.
Defined.

(* ================================================================== *)
(** * Draft orders need line items *)
(* ================================================================== *)

(** C3.  With the admin client configured, for every input whose
    [cartLines] is absent or empty, [createDraftOrder] throws the error
    "No line items provided" and leaves the world as it found it: no
    request has been issued, the [draftOrderCreate] mutation least of
    all. *)
Theorem createDraftOrder_requires_line_items (data : CheckoutData) (w : World) :
  adminClient w <> None ->
  cartLines data = None \/ cartLines data = Some [] ->
  createDraftOrder data w = (Thrown (Error "No line items provided"), w)
  /\ requests (snd (createDraftOrder data w)) = requests w.
Proof.
  intros Hadmin Hlines.
  assert (H : createDraftOrder data w = (Thrown (Error "No line items provided"), w)).
  { unfold createDraftOrder.
    destruct (adminClient w); [|contradiction].
    destruct Hlines as [-> | ->]; reflexivity. }
  split; [exact H | now rewrite H].
Qed.

(** C3 at a payload with an empty list of cart lines. *)
Lemma createDraftOrder_requires_line_items_witness :
  createDraftOrder noLines shopWorld = (Thrown (Error "No line items provided"), shopWorld)
  /\ requests (snd (createDraftOrder noLines shopWorld)) = requests shopWorld.
Proof.
  apply (createDraftOrder_requires_line_items noLines shopWorld).
  - discriminate.
  - right. reflexivity.
Defined.

(** With one cart line the same call does reach the platform: the
    mutation is the one request of the run. *)
Example createDraftOrder_one_line :
  fst (createDraftOrder oneLine shopWorld)
  = Returned (formatDraftOrderResponse (draftNamed (Some "#D7")))
  /\ requests (snd (createDraftOrder oneLine shopWorld))
     = [Requested
          (DraftOrderCreate
             {| input_lineItems :=
                  [mkLineItemInput (Some "gid://shopify/ProductVariant/42") (Some 1%Z) None];
                input_email := None;
                input_purchasingEntity := None;
                input_shippingAddress := None;
                input_billingAddress := None;
                input_note := None;
                input_tags := ["quote-request"] |})].
Proof. split; vm_compute; reflexivity. Qed.

(** Without a client nothing is validated: the configuration error
    comes first. *)
Example createDraftOrder_unconfigured :
  createDraftOrder noLines quietWorld
  = (Thrown (Error "Admin API client not configured"), quietWorld).
Proof. reflexivity. Qed.

(* ================================================================== *)
(** * Polling for the file URL *)
(* ================================================================== *)

Local Open Scope list_scope.

Lemma requests_record (e : Event) (w : World) :
  requests (record e w) = requests w ++ (if is_request e then [e] else []).
Proof.
  unfold requests, record. simpl. rewrite filter_app. simpl.
  now destruct (is_request e).
Qed.

Lemma sleeps_record (e : Event) (w : World) :
  sleeps (record e w) = sleeps w ++ (if is_sleep e then [e] else []).
Proof.
  unfold sleeps, record. simpl. rewrite filter_app. simpl.
  now destruct (is_sleep e).
Qed.

Lemma status_is_true (s : string) (file : option FileNode) :
  status_is s file = true <-> exists node, file = Some node /\ fileStatus node = Some s.
Proof.
  unfold status_is, chain. split.
  - destruct file as [node|]; [|discriminate].
    destruct (fileStatus node) as [t|] eqn:Ht; [|discriminate].
    intros H. apply String.eqb_eq in H. subst. now exists node.
  - intros (node & -> & ->). apply String.eqb_refl.
Qed.

Lemma when_set_some (v : option string) (u : string) :
  when_set v = Some u <-> v = Some u /\ u <> "".
Proof.
  unfold when_set. split.
  - destruct (truthy_opt v) eqn:E; [|discriminate].
    intros ->. split; [reflexivity|]. now apply truthy_true_iff.
  - intros (-> & Hu). simpl. apply truthy_true_iff in Hu. now rewrite Hu.
Qed.

(** Every reply is of exactly one of four kinds; this is the case
    distinction of the loop body. *)
Lemma reply_cases (reply : Outcome Response) :
  (exists e, reply = Thrown e)
  \/ (exists u, readyAt reply u)
  \/ (exists errors, failedWith reply errors)
  \/ pending reply.
Proof.
  destruct reply as [r|e]; [|left; now exists e]. right.
  destruct (data_node r) as [node|] eqn:Hnode.
  - destruct (fileStatus node) as [st|] eqn:Hst.
    + destruct (String.eqb st "READY") eqn:Hready.
      * apply String.eqb_eq in Hready. subst st.
        destruct (when_set (file_url node)) as [u|] eqn:Hu.
        -- left. exists u. apply when_set_some in Hu. destruct Hu as (Hu & Hne).
           exists r, node. tauto.
        -- right. right. exists r. split; [reflexivity|]. split.
           ++ intros u (r' & node' & Hr & Hn & _ & Hurl & Hne).
              injection Hr as <-. rewrite Hnode in Hn. injection Hn as <-.
              assert (when_set (file_url node) = Some u) by (apply when_set_some; tauto).
              congruence.
           ++ intros (r' & node' & Hr & Hn & Hs).
              injection Hr as <-. rewrite Hnode in Hn. injection Hn as <-.
              rewrite Hst in Hs. discriminate.
      * destruct (String.eqb st "FAILED") eqn:Hfailed.
        -- apply String.eqb_eq in Hfailed. subst st.
           right. left. eexists. exists r, node. repeat split; eassumption || reflexivity.
        -- right. right. exists r. split; [reflexivity|]. split.
           ++ intros u (r' & node' & Hr & Hn & Hs & _).
              injection Hr as <-. rewrite Hnode in Hn. injection Hn as <-.
              rewrite Hst in Hs. injection Hs as ->. discriminate.
           ++ intros (r' & node' & Hr & Hn & Hs).
              injection Hr as <-. rewrite Hnode in Hn. injection Hn as <-.
              rewrite Hst in Hs. injection Hs as ->. discriminate.
    + right. right. exists r. split; [reflexivity|]. split.
      * intros u (r' & node' & Hr & Hn & Hs & _).
        injection Hr as <-. rewrite Hnode in Hn. injection Hn as <-. congruence.
      * intros (r' & node' & Hr & Hn & Hs).
        injection Hr as <-. rewrite Hnode in Hn. injection Hn as <-. congruence.
  - right. right. exists r. split; [reflexivity|]. split.
    + intros u (r' & node' & Hr & Hn & _). injection Hr as <-. congruence.
    + intros (r' & node' & Hr & Hn & _). injection Hr as <-. congruence.
Qed.

(** The statuses the specification calls non-terminal are pending, and
    so is a ready file without a URL. *)
Lemma named_statuses_pending (reply : Outcome Response) :
  reports "UPLOADED" reply \/ reports "PROCESSING" reply \/ readyWithoutUrl reply ->
  pending reply.
Proof.
  intros H.
  assert (Hr : exists r node, reply = Returned r /\ data_node r = Some node
                 /\ (fileStatus node = Some "UPLOADED"
                     \/ fileStatus node = Some "PROCESSING"
                     \/ (fileStatus node = Some "READY" /\ isEmpty (file_url node)))).
  { destruct H as [(r & n & ? & ? & ?) | [(r & n & ? & ? & ?) | (r & n & ? & ? & ? & ?)]];
      exists r, n; tauto. }
  destruct Hr as (r & node & -> & Hnode & Hst).
  exists r. split; [reflexivity|]. split.
  - intros u (r' & node' & Hr & Hn & Hs & Hurl & Hne).
    injection Hr as <-. rewrite Hnode in Hn. injection Hn as <-.
    destruct Hst as [Hst | [Hst | (_ & Hempty)]]; try congruence.
    apply (empty_not_nonEmpty _ Hempty). now exists u.
  - intros (r' & node' & Hr & Hn & Hs).
    injection Hr as <-. rewrite Hnode in Hn. injection Hn as <-.
    destruct Hst as [Hst | [Hst | (Hst & _)]]; congruence.
Qed.

Section Polling.

Variable platform : Platform.
Variable fileId : string.
Variables maxRetries delayMs : Z.

Let query : Event := Requested (NodeQuery fileId).

(** What one turn of the loop does, by the kind of the reply. *)

Lemma pollOnce_thrown (a : Z) (w : World) (e : exn) :
  adminClient w = Some platform ->
  pollReply platform w fileId 0 = Thrown e ->
  pollOnce fileId maxRetries delayMs a w = (Thrown e, record query w).
Proof.
  unfold pollReply. rewrite Nat.add_0_r. intros Hadmin Hreply.
  unfold pollOnce, bind, request. now rewrite Hadmin, Hreply.
Qed.

Lemma pollOnce_ready (a : Z) (w : World) (u : string) :
  adminClient w = Some platform ->
  readyAt (pollReply platform w fileId 0) u ->
  pollOnce fileId maxRetries delayMs a w
  = (Returned (Ready u), record (Logged info "File URL is ready") (record query w)).
Proof.
  unfold pollReply. rewrite Nat.add_0_r.
  intros Hadmin (r & node & Hreply & Hnode & Hst & Hurl & Hne).
  unfold pollOnce, bind, request. rewrite Hadmin, Hreply. rewrite Hnode.
  assert (Hs : status_is "READY" (Some node) = true).
  { apply status_is_true. now exists node. }
  rewrite Hs. unfold chain.
  assert (Hw : when_set (file_url node) = Some u) by (apply when_set_some; tauto).
  rewrite Hw. reflexivity.
Qed.

Lemma pollOnce_failed (a : Z) (w : World) (errors : string) :
  adminClient w = Some platform ->
  failedWith (pollReply platform w fileId 0) errors ->
  pollOnce fileId maxRetries delayMs a w
  = (Thrown (Error ("File processing failed: " ++ errors)%string), record query w).
Proof.
  unfold pollReply. rewrite Nat.add_0_r.
  intros Hadmin (r & node & Hreply & Hnode & Hst & ->).
  unfold pollOnce, bind, request. rewrite Hadmin, Hreply. rewrite Hnode.
  assert (Hs : status_is "READY" (Some node) = false).
  { unfold status_is, chain. now rewrite Hst. }
  rewrite Hs.
  assert (Hf : status_is "FAILED" (Some node) = true).
  { apply status_is_true. now exists node. }
  rewrite Hf. reflexivity.
Qed.

Let afterPending : Z -> World -> World := afterTurn fileId maxRetries delayMs.

Lemma pollOnce_pending (a : Z) (w : World) :
  adminClient w = Some platform ->
  pending (pollReply platform w fileId 0) ->
  pollOnce fileId maxRetries delayMs a w = (Returned (Again (a + 1)), afterPending a w).
Proof.
  unfold pollReply. rewrite Nat.add_0_r.
  intros Hadmin (r & Hreply & Hnotready & Hnotfailed).
  unfold pollOnce, bind, request, afterPending, afterTurn. rewrite Hadmin, Hreply.
  destruct (status_is "READY" (data_node r)) eqn:Hs.
  - apply status_is_true in Hs. destruct Hs as (node & Hnode & Hst).
    destruct (when_set (chain (data_node r) file_url)) as [u|] eqn:Hw.
    + exfalso. apply (Hnotready u). rewrite Hnode in Hw. simpl in Hw.
      apply when_set_some in Hw. exists r, node. rewrite Hreply. tauto.
    + assert (Hf : status_is "FAILED" (data_node r) = false).
      { unfold status_is, chain. rewrite Hnode, Hst. reflexivity. }
      rewrite Hf. destruct (a + 1 <? maxRetries)%Z; reflexivity.
  - destruct (status_is "FAILED" (data_node r)) eqn:Hf.
    + exfalso. apply Hnotfailed. apply status_is_true in Hf.
      destruct Hf as (node & Hnode & Hst). exists r, node. rewrite Hreply. tauto.
    + destruct (a + 1 <? maxRetries)%Z; reflexivity.
Qed.

Lemma afterPending_admin (a : Z) (w : World) :
  adminClient (afterPending a w) = adminClient w.
Proof. unfold afterPending, afterTurn. now destruct (a + 1 <? maxRetries)%Z. Qed.

Lemma afterPending_requests (a : Z) (w : World) :
  requests (afterPending a w) = requests w ++ [query].
Proof.
  unfold afterPending, afterTurn. destruct (a + 1 <? maxRetries)%Z.
  - unfold sleep, requests. simpl. rewrite !filter_app. simpl.
    now rewrite !app_nil_r.
  - now rewrite requests_record.
Qed.

Lemma afterPending_sleeps (a : Z) (w : World) :
  sleeps (afterPending a w)
  = sleeps w ++ (if (a + 1 <? maxRetries)%Z then [Slept delayMs] else []).
Proof.
  unfold afterPending, afterTurn. destruct (a + 1 <? maxRetries)%Z.
  - unfold sleep, sleeps. simpl. rewrite !filter_app. simpl.
    now rewrite !app_nil_r.
  - rewrite sleeps_record. reflexivity.
Qed.

Lemma pollReply_afterPending (a : Z) (w : World) (j : nat) :
  pollReply platform (afterPending a w) fileId j = pollReply platform w fileId (S j).
Proof.
  unfold pollReply. rewrite afterPending_requests, length_app. simpl.
  f_equal. lia.
Qed.

(** [k] pending replies in a row move the loop [k] turns on. *)
Lemma pollFile_pending (k : nat) :
  forall fuel a w,
    adminClient w = Some platform ->
    (forall j, j < k -> pending (pollReply platform w fileId j)) ->
    (a + Z.of_nat k <= maxRetries)%Z ->
    k <= fuel ->
    exists w',
      pollFile fuel fileId maxRetries delayMs a w
      = pollFile (fuel - k) fileId maxRetries delayMs (a + Z.of_nat k) w'
      /\ adminClient w' = Some platform
      /\ requests w' = requests w ++ repeat query k
      /\ sleeps w'
         = sleeps w
           ++ repeat (Slept delayMs)
                (if (a + Z.of_nat k <? maxRetries)%Z then k else k - 1).
Proof.
  induction k as [|k IH]; intros fuel a w Hadmin Hpending Hbudget Hfuel.
  - exists w. rewrite Nat.sub_0_r, Z.add_0_r. simpl.
    rewrite !app_nil_r. destruct (a <? maxRetries)%Z; simpl; now rewrite ?app_nil_r.
  - destruct fuel as [|fuel]; [lia|].
    assert (Hguard : (a <? maxRetries)%Z = true) by (apply Z.ltb_lt; lia).
    destruct (IH fuel (a + 1)%Z (afterPending a w)) as (w' & Hrun & Ha & Hr & Hs).
    + now rewrite afterPending_admin.
    + intros j Hj. rewrite pollReply_afterPending. apply Hpending. lia.
    + lia.
    + lia.
    + exists w'. split; [|split; [exact Ha|split]].
      * simpl pollFile at 1. rewrite Hguard.
        rewrite pollOnce_pending by (try assumption; apply Hpending; lia).
        rewrite Hrun. simpl Nat.sub. f_equal. lia.
      * rewrite Hr, afterPending_requests, <- app_assoc. reflexivity.
      * rewrite Hs, afterPending_sleeps, <- app_assoc. f_equal.
        replace (a + 1 + Z.of_nat k)%Z with (a + Z.of_nat (S k))%Z by lia.
        destruct (a + Z.of_nat (S k) <? maxRetries)%Z eqn:E.
        -- assert (E1 : (a + 1 <? maxRetries)%Z = true) by (apply Z.ltb_lt; apply Z.ltb_lt in E; lia).
           rewrite E1. reflexivity.
        -- destruct k as [|k].
           ++ simpl. replace (a + Z.of_nat 1)%Z with (a + 1)%Z in E by lia.
              rewrite E. reflexivity.
           ++ assert (E1 : (a + 1 <? maxRetries)%Z = true) by (apply Z.ltb_lt; lia).
              rewrite E1. simpl. now rewrite Nat.sub_0_r.
Qed.


End Polling.





(** The timeout message of the two runs above and of the defaults. *)
Example timeoutMessage_samples :
  timeoutMessage sampleFile 2 1000
  = "File gid://shopify/GenericFile/1 did not become ready after 2 attempts (2s timeout)"%string
  /\ timeoutMessage sampleFile 10 1000
     = "File gid://shopify/GenericFile/1 did not become ready after 10 attempts (10s timeout)"%string
  /\ timeoutMessage sampleFile 3 500
     = "File gid://shopify/GenericFile/1 did not become ready after 3 attempts (1.5s timeout)"%string.
Proof. repeat split. Qed.

(* ================================================================== *)
(** * Line items of the invoice *)
(* ================================================================== *)







(** The entries of the two sample nodes as the template receives them. *)
Example processInvoiceLineItems_sample :
  map (fun e => (description e, unitPrice e, vatRateFormatted e, amount e))
    (processInvoiceLineItems (Some (mkConnection (Some [lockNode; bareNode]))) euro)
  = [ ("Lock (Steel) (LK-1)", "€10.50", "24%", "€21.00");
      ("Product", "€0.00", "0%", "€0.00") ].
Proof. vm_compute. reflexivity. Qed.

(* ================================================================== *)
(** * The primary VAT rate *)
(* ================================================================== *)







Local Open Scope string_scope.

(* ================================================================== *)
(** * Two decimals *)
(* ================================================================== *)

Lemma take_digits_point (whole rest : string) :
  all_digits whole = true ->
  take_digits (whole ++ String "."%char rest) = whole
  /\ drop_digits (whole ++ String "."%char rest) = String "."%char rest.
Proof.
  induction whole as [|c w IH]; simpl; intros H; [split; reflexivity|].
  apply andb_true_iff in H. destruct H as (Hc & Hw). rewrite Hc.
  destruct (IH Hw) as (-> & ->). split; reflexivity.
Qed.

Lemma is_digit_not_minus (c : ascii) : is_digit c = true -> Ascii.eqb c "-" = false.
Proof.
  intros H. destruct (Ascii.eqb c "-") eqn:E; [|reflexivity].
  apply Ascii.eqb_eq in E. subst. vm_compute in H. discriminate.
Qed.

Lemma two_decimals_shape (negative : bool) (whole frac : string) :
  whole <> "" -> all_digits whole = true ->
  String.length frac = 2 -> all_digits frac = true ->
  two_decimals ((if negative then "-" else "") ++ whole ++ "." ++ frac) = true.
Proof.
  intros Hne Hw Hlen Hf.
  destruct frac as [|a [|b [|? ?]]]; try discriminate.
  cbn [all_digits] in Hf. rewrite andb_true_r in Hf. apply andb_true_iff in Hf.
  destruct Hf as (Ha & Hb).
  destruct whole as [|c w]; [contradiction|].
  assert (Hc : is_digit c = true) by (cbn [all_digits] in Hw; now apply andb_true_iff in Hw).
  destruct (take_digits_point (String c w) (String a (String b "")) Hw) as (Ht & Hd).
  assert (Hbody : unsignedPart ((if negative then "-" else "")
                                ++ String c w ++ "." ++ String a (String b ""))
                  = String c w ++ String "."%char (String a (String b ""))).
  { destruct negative; [reflexivity|].
    cbn [append unsignedPart]. now rewrite (is_digit_not_minus c Hc). }
  unfold two_decimals. rewrite Hbody, Ht, Hd.
  cbn [JsString.truthy]. now rewrite Ha, Hb.
Qed.

Lemma fixed2_shape (n : Z) :
  (0 <= n)%Z ->
  exists whole frac,
    fixed2 n = whole ++ "." ++ frac
    /\ whole <> "" /\ all_digits whole = true
    /\ String.length frac = 2 /\ all_digits frac = true
    /\ Decimal.value (whole ++ frac) = n.
Proof.
  intros Hn. unfold fixed2.
  set (digits := Decimal.pad_zeros 3 (Decimal.of_nonneg n)).
  destruct (pad_zeros_spec 3 (Decimal.of_nonneg n) (of_nonneg_all_digits n Hn))
    as (Hall & Hval & Hlen & _).
  fold digits in Hall, Hval, Hlen.
  exists (JsNumber.take (String.length digits - 2) digits), (slice_last 2 digits).
  assert (Hjoin : JsNumber.take (String.length digits - 2) digits ++ slice_last 2 digits
                  = digits) by apply take_drop.
  split_all.
  - reflexivity.
  - intros H.
    assert (L : String.length (JsNumber.take (String.length digits - 2) digits) = 0)
      by now rewrite H.
    rewrite take_length in L; lia.
  - now apply take_all_digits.
  - apply slice_last_length. lia.
  - now apply drop_all_digits.
  - rewrite Hjoin, Hval. now apply of_nonneg_value.
Qed.

Lemma hundredths_nonneg (m : positive) (e : Z) : (0 <= hundredths m e)%Z.
Proof.
  unfold hundredths. destruct (0 <=? e)%Z eqn:E.
  - apply Z.leb_le in E.
    assert (0 <= 2 ^ e)%Z by (apply Z.pow_nonneg; lia). nia.
  - apply Z.div_pos.
    + assert (0 <= 2 ^ (- e))%Z by (apply Z.pow_nonneg; lia). lia.
    + apply Z.pow_pos_nonneg; [lia|]. apply Z.leb_gt in E. lia.
Qed.


(* ================================================================== *)
(** * Prices *)
(* ================================================================== *)

Lemma toFixed2_shape (x : number) :
  fixedRange x = true ->
  exists whole frac,
    toFixed2 x = signOf x ++ whole ++ "." ++ frac
    /\ whole <> "" /\ all_digits whole = true
    /\ String.length frac = 2 /\ all_digits frac = true
    /\ Decimal.value (whole ++ frac) = roundedHundredths x
    /\ two_decimals (toFixed2 x) = true.
Proof.
  intros Hx. destruct x as [s|s| |s m e]; try discriminate.
  - exists "0", "00".
    split_all;
      try discriminate; vm_compute; reflexivity.
  - cbn [fixedRange] in Hx. apply negb_true_iff in Hx.
    destruct (fixed2_shape (hundredths m e) (hundredths_nonneg m e))
      as (whole & frac & Hfix & Hne & Hw & Hlen & Hf & Hval).
    exists whole, frac.
    assert (Heq : toFixed2 (S754_finite s m e)
                  = (if s then "-" else "") ++ whole ++ "." ++ frac).
    { cbn [toFixed2]. rewrite Hx, Hfix. now destruct s. }
    split_all; try assumption.
    rewrite Heq. now apply two_decimals_shape.
Qed.



(** The same price as the template receives it. *)
Example formatPrice_samples :
  formatPrice (Priced (parseAmount (Textual "10.50"))) (Some euro) = "€10.50"
  /\ formatPrice (Priced (parseAmount (Textual "1.005"))) (Some "$") = "$1.00"
  /\ formatPrice (Priced (parseAmount (Textual "-0.001"))) None = "€-0.00"
  /\ formatPrice (Priced (parseAmount (Textual "abc"))) None = "€0.00"
  /\ formatPrice (Unpriced null) None = "€0.00".
Proof. repeat split; vm_compute; reflexivity. Qed.


(* ================================================================== *)
(** * Company contacts *)
(* ================================================================== *)

Local Open Scope list_scope.

Lemma find_firstOf {A : Type} (test : A -> bool) (l : list A) :
  (forall x, firstOf test l x -> find test l = Some x)
  /\ (noneOf test l -> find test l = None).
Proof.
  split.
  - intros x (before & after & -> & Hbefore & Hx).
    induction Hbefore as [|y before Hy _ IH]; simpl.
    + now rewrite Hx.
    + now rewrite Hy.
  - intros H. induction H as [|y l Hy _ IH]; simpl; [reflexivity|].
    now rewrite Hy.
Qed.

Lemma issued_app (w w' : World) (l : list Event) :
  requests w' = requests w ++ l -> issued w w' = l.
Proof.
  intros H. unfold issued. rewrite H, skipn_app, skipn_all, Nat.sub_diag. reflexivity.
Qed.

(** What the lookup does with a client in place. *)
Lemma fetchCompanyContactId_run (customerId companyId : string) (w : World)
    (platform : Platform) :
  adminClient w = Some platform ->
  let asked := record (Requested (CustomerCompanyContacts customerId)) w in
  fetchCompanyContactId customerId companyId w
  = match platform (List.length (requests w)) (CustomerCompanyContacts customerId) with
    | Returned r =>
        (Returned match find (profileOf companyId) (profilesOf r) with
                  | Some found => profile_id found
                  | None => None
                  end,
         record (Logged console "profiles") asked)
    | Thrown _ =>
        (Returned None, record (Logged warn "Failed to fetch company contact ID") asked)
    end.
Proof.
  intros Hadmin. cbv zeta. unfold fetchCompanyContactId. rewrite Hadmin.
  unfold try_catch, bind, request. rewrite Hadmin.
  destruct (platform (List.length (requests w)) (CustomerCompanyContacts customerId))
    as [r|e]; [|reflexivity].
  unfold profilesOf, log.
  destruct (find (profileOf companyId) _); reflexivity.
Qed.

(** X1.  [fetchCompanyContactId] never throws.  Without an admin client
    it answers "no contact" and touches nothing.  With one it issues
    exactly one request, the contact lookup for the customer.  When the
    platform answers, the result is the identifier of the first contact
    profile whose company is the given one, and "no contact" when no
    profile is of that company; when the request fails, the failure is
    swallowed and the result is "no contact" as well. *)
Theorem fetchCompanyContactId_never_throws
    (customerId companyId : string) (w : World) :
  exists contact w',
    fetchCompanyContactId customerId companyId w = (Returned contact, w')
    /\ adminClient w' = adminClient w
    /\ (adminClient w = None -> contact = None /\ w' = w)
    /\ (forall platform,
           adminClient w = Some platform ->
           issued w w' = [Requested (CustomerCompanyContacts customerId)]
           /\ (forall e,
                  platform (List.length (requests w)) (CustomerCompanyContacts customerId)
                  = Thrown e ->
                  contact = None)
           /\ (forall r,
                  platform (List.length (requests w)) (CustomerCompanyContacts customerId)
                  = Returned r ->
                  (forall p, firstOf (profileOf companyId) (profilesOf r) p ->
                             contact = profile_id p)
                  /\ (noneOf (profileOf companyId) (profilesOf r) -> contact = None))).
Proof.
  destruct (adminClient w) as [platform|] eqn:Hadmin.
  - pose proof (fetchCompanyContactId_run customerId companyId w platform Hadmin) as Hrun.
    cbv zeta in Hrun.
    destruct (platform (List.length (requests w)) (CustomerCompanyContacts customerId))
      as [r|e] eqn:Hreply.
    + do 2 eexists. split; [exact Hrun|]. split; [exact Hadmin|]. split; [discriminate|].
      intros platform' Hp. injection Hp as <-. rewrite Hreply. split; [|split].
      * apply issued_app. now rewrite !requests_record, app_nil_r.
      * discriminate.
      * intros r' Hr. injection Hr as <-. split.
        -- intros p Hp. now rewrite (proj1 (find_firstOf _ _) p Hp).
        -- intros Hnone. now rewrite (proj2 (find_firstOf _ _) Hnone).
    + do 2 eexists. split; [exact Hrun|]. split; [exact Hadmin|]. split; [discriminate|].
      intros platform' Hp. injection Hp as <-. rewrite Hreply. split; [|split].
      * apply issued_app. now rewrite !requests_record, app_nil_r.
      * reflexivity.
      * discriminate.
  - exists None, w. unfold fetchCompanyContactId. rewrite Hadmin.
    split; [reflexivity|]. split; [reflexivity|]. split; [now split|]. discriminate.
Qed.

(* ================================================================== *)
(** * Creating a draft order *)
(* ================================================================== *)

Lemma contact_lookup (customerId companyId : string) (w : World) (platform : Platform) :
  adminClient w = Some platform ->
  exists w',
    fetchCompanyContactId customerId companyId w
    = (Returned (lookedUp platform (List.length (requests w)) customerId companyId), w')
    /\ adminClient w' = Some platform
    /\ requests w' = requests w ++ [Requested (CustomerCompanyContacts customerId)].
Proof.
  intros Hadmin.
  rewrite (fetchCompanyContactId_run customerId companyId w platform Hadmin).
  unfold lookedUp.
  destruct (platform (List.length (requests w)) (CustomerCompanyContacts customerId));
    eexists; (split; [reflexivity|]); (split; [exact Hadmin|]);
    now rewrite !requests_record, app_nil_r.
Qed.

(** The purchasing company is always resolved: the step cannot fail. *)
Lemma resolvePurchasingEntity_returns (data : CheckoutData) (w : World)
    (platform : Platform) :
  adminClient w = Some platform ->
  exists entity w',
    resolvePurchasingEntity data w = (Returned entity, w')
    /\ adminClient w' = Some platform
    /\ (requests w' = requests w
        \/ exists c, requests w' = requests w ++ [Requested (CustomerCompanyContacts c)]).
Proof.
  intros Hadmin. unfold resolvePurchasingEntity.
  destruct (when_set (chain (data_purchasingEntity data) entity_companyId)) as [c|];
    [|exists None, w; split; [reflexivity|]; split; [exact Hadmin|now left]].
  destruct (when_set (chain (data_purchasingEntity data) entity_locationId)) as [l|];
    [|exists None, w; split; [reflexivity|]; split; [exact Hadmin|now left]].
  destruct (when_set (chain (data_customer data) customer_id)) as [cu|].
  - destruct (contact_lookup cu c w platform Hadmin) as (w' & Hrun & Ha & Hr).
    unfold bind. rewrite Hrun. do 2 eexists. split; [reflexivity|].
    split; [exact Ha|]. right. now exists cu.
  - do 2 eexists. split; [reflexivity|]. split; [exact Hadmin|now left].
Qed.

(** The run of [createDraftOrder] past the validation, given how the
    purchasing company was resolved. *)
Lemma createDraftOrder_run (data : CheckoutData) (w : World) (platform : Platform)
    (l : CartLine) (ls : list CartLine) (entity : option PurchasingCompany) (w2 : World) :
  adminClient w = Some platform ->
  cartLines data = Some (l :: ls) ->
  resolvePurchasingEntity data
    (record (Logged info "Processing checkout data")
       (record (Logged info "Creating draft order") w))
  = (Returned entity, w2) ->
  adminClient w2 = Some platform ->
  let input := draftOrderInput data entity in
  let w3 := record (Requested (DraftOrderCreate input)) (record (Logged console "input") w2) in
  let failed := record (Logged error "Failed to create draft order") in
  createDraftOrder data w
  = match platform (List.length (requests w2)) (DraftOrderCreate input) with
    | Thrown e => (Thrown (createFailure (message e)), failed w3)
    | Returned r =>
        match userErrorsOf r with
        | e :: es =>
            (Thrown (createFailure
                       ("Draft order creation failed: "
                        ++ join (map userError_message (e :: es)))),
             failed (record (Logged error "Draft order creation failed with user errors") w3))
        | [] =>
            match draftOrderOf r with
            | Some d =>
                (Returned (formatDraftOrderResponse d),
                 record (Logged info "Draft order created successfully") w3)
            | None =>
                (Thrown (createFailure "Draft order creation failed: No draft order returned"),
                 failed w3)
            end
        end
    end.
Proof.
  intros Hadmin Hlines Hentity Hadmin2. cbv zeta.
  unfold createDraftOrder. rewrite Hadmin, Hlines.
  unfold bind at 1. unfold log at 1. unfold bind at 1. unfold log at 1.
  unfold bind at 1. rewrite Hentity.
  unfold try_catch, bind, log, request. cbn [adminClient record]. rewrite Hadmin2.
  rewrite requests_record, app_nil_r.
  unfold draftOrderInput. rewrite Hlines.
  match goal with
  | |- context [platform ?k ?r] => destruct (platform k r) as [r0|e0]; [|reflexivity]
  end.
  unfold userErrorsOf, draftOrderOf.
  destruct (data_draftOrderCreate r0) as [[d ue]|]; [|reflexivity].
  cbn [userErrors payload_draftOrder].
  destruct ue as [[|e es]|]; destruct d; reflexivity.
Qed.

Lemma createDraftOrder_resolved (data : CheckoutData) (w : World) (platform : Platform) :
  adminClient w = Some platform ->
  exists entity w2,
    resolvePurchasingEntity data
      (record (Logged info "Processing checkout data")
         (record (Logged info "Creating draft order") w))
    = (Returned entity, w2)
    /\ adminClient w2 = Some platform
    /\ (requests w2 = requests w
        \/ exists c, requests w2 = requests w ++ [Requested (CustomerCompanyContacts c)]).
Proof.
  intros Hadmin.
  set (w1 := record (Logged info "Processing checkout data")
               (record (Logged info "Creating draft order") w)).
  assert (H1 : adminClient w1 = Some platform) by exact Hadmin.
  assert (R1 : requests w1 = requests w).
  { unfold w1. now rewrite !requests_record, !app_nil_r. }
  destruct (resolvePurchasingEntity_returns data w1 platform H1) as (entity & w2 & H & Ha & Hr).
  exists entity, w2. rewrite R1 in Hr. auto.
Qed.

(** The requests of a run that reaches the mutation, whatever the
    platform answers to it. *)
Lemma createDraftOrder_requests (data : CheckoutData) (w : World) (platform : Platform)
    (line : CartLine) (lines : list CartLine) (entity : option PurchasingCompany)
    (w2 : World) :
  adminClient w = Some platform ->
  cartLines data = Some (line :: lines) ->
  resolvePurchasingEntity data
    (record (Logged info "Processing checkout data")
       (record (Logged info "Creating draft order") w))
  = (Returned entity, w2) ->
  adminClient w2 = Some platform ->
  requests (snd (createDraftOrder data w))
  = requests w2 ++ [Requested (DraftOrderCreate (draftOrderInput data entity))].
Proof.
  intros Hadmin Hlines Hentity Hadmin2.
  rewrite (createDraftOrder_run data w platform line lines entity w2
             Hadmin Hlines Hentity Hadmin2).
  destruct (platform _ _) as [r|e]; [|cbn [snd]; now rewrite !requests_record, !app_nil_r].
  destruct (userErrorsOf r) as [|e es].
  - destruct (draftOrderOf r); cbn [snd]; now rewrite !requests_record, !app_nil_r.
  - cbn [snd]. now rewrite !requests_record, !app_nil_r.
Qed.

(** The outcomes of a run that reaches the mutation. *)
Lemma createDraftOrder_cases (data : CheckoutData) (w : World)
    (platform : Platform) (line : CartLine) (lines : list CartLine) :
  adminClient w = Some platform ->
  cartLines data = Some (line :: lines) ->
  exists entity lookups,
    let input := draftOrderInput data entity in
    let reply :=
      platform (List.length (requests w) + List.length lookups) (DraftOrderCreate input) in
    let run := createDraftOrder data w in
    issued w (snd run) = lookups ++ [Requested (DraftOrderCreate input)]
    /\ (lookups = [] \/ exists c, lookups = [Requested (CustomerCompanyContacts c)])
    /\ (forall e, reply = Thrown e -> fst run = Thrown (createFailure (message e)))
    /\ (forall r e es,
           reply = Returned r ->
           userErrorsOf r = e :: es ->
           fst run
           = Thrown (createFailure
                       ("Draft order creation failed: "
                        ++ join (map userError_message (e :: es)))%string))
    /\ (forall r,
           reply = Returned r ->
           userErrorsOf r = [] ->
           draftOrderOf r = None ->
           fst run
           = Thrown (createFailure "Draft order creation failed: No draft order returned"))
    /\ (forall r d,
           reply = Returned r ->
           userErrorsOf r = [] ->
           draftOrderOf r = Some d ->
           fst run = Returned (formatDraftOrderResponse d)).
Proof.
  intros Hadmin Hlines.
  destruct (createDraftOrder_resolved data w platform Hadmin) as (entity & w2 & He & Ha & Hr).
  pose proof (createDraftOrder_run data w platform line lines entity w2 Hadmin Hlines He Ha)
    as Hrun.
  pose proof (createDraftOrder_requests data w platform line lines entity w2
                Hadmin Hlines He Ha) as Hreq.
  cbv zeta in Hrun.
  exists entity, (skipn (List.length (requests w)) (requests w2)).
  assert (Hlook : skipn (List.length (requests w)) (requests w2) = []
                  \/ exists c, skipn (List.length (requests w)) (requests w2)
                               = [Requested (CustomerCompanyContacts c)]).
  { destruct Hr as [Hr | (c & Hr)]; rewrite Hr.
    - left. apply skipn_all.
    - right. exists c. now rewrite skipn_app, skipn_all, Nat.sub_diag. }
  assert (Hlen : List.length (requests w)
                 + List.length (skipn (List.length (requests w)) (requests w2))
                 = List.length (requests w2)).
  { destruct Hr as [Hr | (c & Hr)]; rewrite Hr.
    - rewrite skipn_all. simpl. lia.
    - rewrite skipn_app, skipn_all, Nat.sub_diag, !length_app. simpl. lia. }
  cbv zeta. rewrite Hlen. split_all.
  - unfold issued. rewrite Hreq.
    destruct Hr as [Hr | (c & Hr)]; rewrite Hr.
    + now rewrite skipn_app, !skipn_all, Nat.sub_diag.
    + rewrite <- app_assoc. now rewrite !skipn_app, !skipn_all, Nat.sub_diag.
  - exact Hlook.
  - intros e Hreply. rewrite Hrun, Hreply. reflexivity.
  - intros r e es Hreply Herrors. rewrite Hrun, Hreply, Herrors. reflexivity.
  - intros r Hreply Herrors Horder. rewrite Hrun, Hreply, Herrors, Horder. reflexivity.
  - intros r d Hreply Herrors Horder. rewrite Hrun, Hreply, Herrors, Horder. reflexivity.
Qed.

(** X2.  Past the validation (a client in place, at least one cart
    line) [createDraftOrder] issues exactly one [draftOrderCreate]
    mutation, its last request, preceded by at most one contact lookup.
    The outcome is decided by the reply to the mutation.  A draft order
    without user errors is returned in the projected form.  Every
    failure is thrown under the prefix "Failed to create draft order: ":
    a failed request with the message of its error, user errors as
    "Draft order creation failed: " followed by their messages joined
    with ", ", and a reply without a draft order as "Draft order
    creation failed: No draft order returned". *)
Theorem createDraftOrder_outcomes (data : CheckoutData) (w : World)
    (platform : Platform) (line : CartLine) (lines : list CartLine) :
  adminClient w = Some platform ->
  cartLines data = Some (line :: lines) ->
  exists entity lookups,
    let input := draftOrderInput data entity in
    let reply :=
      platform (List.length (requests w) + List.length lookups) (DraftOrderCreate input) in
    let run := createDraftOrder data w in
    issued w (snd run) = lookups ++ [Requested (DraftOrderCreate input)]
    /\ (lookups = [] \/ exists c, lookups = [Requested (CustomerCompanyContacts c)])
    /\ (forall e, reply = Thrown e -> fst run = Thrown (createFailure (message e)))
    /\ (forall r e es,
           reply = Returned r ->
           userErrorsOf r = e :: es ->
           fst run
           = Thrown (createFailure
                       ("Draft order creation failed: "
                        ++ join (map userError_message (e :: es)))%string))
    /\ (forall r,
           reply = Returned r ->
           userErrorsOf r = [] ->
           draftOrderOf r = None ->
           fst run
           = Thrown (createFailure "Draft order creation failed: No draft order returned"))
    /\ (forall r d,
           reply = Returned r ->
           userErrorsOf r = [] ->
           draftOrderOf r = Some d ->
           fst run = Returned (formatDraftOrderResponse d)).
Proof. exact (createDraftOrder_cases data w platform line lines). Qed.

(** X2 on a platform that answers the mutation with two user errors. *)
Lemma createDraftOrder_outcomes_witness :
  fst (createDraftOrder oneLine (worldOf refusingPlatform))
  = Thrown (Error ("Failed to create draft order: Draft order creation failed: "
                   ++ "Email is invalid, Variant is gone")).
Proof.
  destruct (createDraftOrder_outcomes oneLine (worldOf refusingPlatform) refusingPlatform
              (mkCartLine (Some "gid://shopify/ProductVariant/42") (Some 1%Z) None) []
              eq_refl eq_refl)
    as (entity & lookups & _ & _ & _ & Herrors & _).
  exact (Herrors _ (mkUserError "Email is invalid") [mkUserError "Variant is gone"]
           eq_refl eq_refl).
Defined.

Lemma when_set_isEmpty (v : option string) : isEmpty v -> when_set v = None.
Proof. intros [-> | ->]; reflexivity. Qed.

Lemma when_set_nonEmpty (s : string) : s <> "" -> when_set (Some s) = Some s.
Proof. intros H. apply when_set_some. now split. Qed.

(** X3.  The purchasing company of the order that is sent.  When the
    payload names no company or no location, the mutation is the only
    request and carries no purchasing entity.  When it names both, the
    entity carries them, and its contact is found as follows: without a
    customer identifier nothing is looked up and the contact is that
    (empty) identifier; with one, the contact lookup for the customer
    precedes the mutation, and the contact is the one the platform
    names for the company, or the customer identifier itself when the
    platform names none or the lookup fails. *)
Theorem createDraftOrder_purchasing_company (data : CheckoutData) (w : World)
    (platform : Platform) (line : CartLine) (lines : list CartLine) :
  adminClient w = Some platform ->
  cartLines data = Some (line :: lines) ->
  let company := chain (data_purchasingEntity data) entity_companyId in
  let location := chain (data_purchasingEntity data) entity_locationId in
  let customerId := chain (data_customer data) customer_id in
  let sent := issued w (snd (createDraftOrder data w)) in
  let create entity := Requested (DraftOrderCreate (draftOrderInput data entity)) in
  (isEmpty company \/ isEmpty location -> sent = [create None])
  /\ (forall c l,
         company = Some c -> c <> "" ->
         location = Some l -> l <> "" ->
         (isEmpty customerId ->
          sent = [create (Some {| companyId := Some c;
                                  companyLocationId := Some l;
                                  companyContactId := customerId |})])
         /\ (forall cu,
                customerId = Some cu -> cu <> "" ->
                sent
                = [Requested (CustomerCompanyContacts cu);
                   create (Some {| companyId := Some c;
                                   companyLocationId := Some l;
                                   companyContactId :=
                                     or_opt (lookedUp platform (List.length (requests w)) cu c)
                                            (Some cu) |})])).
Proof.
  intros Hadmin Hlines. cbv zeta.
  set (w1 := record (Logged info "Processing checkout data")
               (record (Logged info "Creating draft order") w)).
  assert (H1 : adminClient w1 = Some platform) by exact Hadmin.
  assert (R1 : requests w1 = requests w).
  { unfold w1. now rewrite !requests_record, !app_nil_r. }
  assert (Hsent : forall entity w2,
             resolvePurchasingEntity data w1 = (Returned entity, w2) ->
             adminClient w2 = Some platform ->
             forall lookups, requests w2 = requests w ++ lookups ->
             issued w (snd (createDraftOrder data w))
             = lookups ++ [Requested (DraftOrderCreate (draftOrderInput data entity))]).
  { intros entity w2 He Ha lookups Hr. apply issued_app.
    rewrite (createDraftOrder_requests data w platform line lines entity w2
               Hadmin Hlines He Ha).
    now rewrite Hr, <- app_assoc. }
  split.
  - intros Hnone.
    refine (Hsent None w1 _ H1 [] _); [|now rewrite R1, app_nil_r].
    unfold resolvePurchasingEntity.
    destruct Hnone as [Hc | Hl].
    + now rewrite (when_set_isEmpty _ Hc).
    + rewrite (when_set_isEmpty _ Hl). now destruct (when_set _).
  - intros c l Hc Hcne Hl Hlne. split.
    + intros Hcu.
      refine (Hsent _ w1 _ H1 [] _); [|now rewrite R1, app_nil_r].
      unfold resolvePurchasingEntity.
      rewrite Hc, Hl, (when_set_nonEmpty c Hcne), (when_set_nonEmpty l Hlne).
      now rewrite (when_set_isEmpty _ Hcu).
    + intros cu Hcu Hcune.
      destruct (contact_lookup cu c w1 platform H1) as (w2 & Hrun & Ha & Hr).
      rewrite R1 in Hrun, Hr.
      refine (Hsent _ w2 _ Ha [_] Hr).
      unfold resolvePurchasingEntity.
      rewrite Hc, Hl, Hcu, (when_set_nonEmpty c Hcne), (when_set_nonEmpty l Hlne),
        (when_set_nonEmpty cu Hcune).
      unfold bind. rewrite Hrun. reflexivity.
Qed.

(** X3 for a customer who is contact 5 of the company they buy for. *)
Lemma createDraftOrder_purchasing_company_witness :
  issued (worldOf companyPlatform) (snd (createDraftOrder companyOrder (worldOf companyPlatform)))
  = [Requested (CustomerCompanyContacts "gid://shopify/Customer/9");
     Requested
       (DraftOrderCreate
          (draftOrderInput companyOrder
             (Some {| companyId := Some "gid://shopify/Company/3";
                      companyLocationId := Some "gid://shopify/CompanyLocation/1";
                      companyContactId := Some "gid://shopify/CompanyContact/5" |})))].
Proof.
  destruct (createDraftOrder_purchasing_company companyOrder (worldOf companyPlatform)
              companyPlatform
              (mkCartLine (Some "gid://shopify/ProductVariant/42") (Some 2%Z) None) []
              eq_refl eq_refl)
    as (_ & H).
  destruct (H "gid://shopify/Company/3" "gid://shopify/CompanyLocation/1"
              eq_refl ltac:(discriminate) eq_refl ltac:(discriminate)) as (_ & Hcu).
  exact (Hcu "gid://shopify/Customer/9" eq_refl ltac:(discriminate)).
Defined.

(* ================================================================== *)
(** * Addresses as they are sent *)
(* ================================================================== *)

Lemma when_set_sentAs (v : option string) : sentAs v (when_set v).
Proof.
  split.
  - intros (s & -> & Hs). now apply when_set_nonEmpty.
  - apply when_set_isEmpty.
Qed.

Lemma when_set_idempotent (v : option string) : when_set (when_set v) = when_set v.
Proof. destruct v as [[|c s]|]; reflexivity. Qed.

Lemma truthy_when_set (v : option string) : truthy_opt (when_set v) = truthy_opt v.
Proof. destruct v as [[|c s]|]; reflexivity. Qed.

(** X4.  An address of the payload is sent only when it has a street, a
    city, a country or a country code.  Of an address that is sent,
    every non-empty property is sent as it is and every other property
    is left out, so that no empty string reaches the platform.
    Cleaning an address twice changes nothing, and a cleaned address
    has address data exactly when the original has. *)
Theorem addressInput_sends_no_empty_property (a : Address) :
  (hasAddressData a = true
   <-> nonEmpty (address1 a) \/ nonEmpty (city a) \/ nonEmpty (country a)
       \/ nonEmpty (countryCode a))
  /\ (hasAddressData a = false -> addressInput (Some a) = None)
  /\ (hasAddressData a = true ->
      addressInput (Some a) = Some (buildShopifyAddress a))
  /\ Forall (fun field => sentAs (snd field a) (snd field (buildShopifyAddress a)))
            address_fields
  /\ buildShopifyAddress (buildShopifyAddress a) = buildShopifyAddress a
  /\ hasAddressData (buildShopifyAddress a) = hasAddressData a
  /\ addressInput None = None.
Proof.
  split_all.
  - unfold hasAddressData. rewrite !orb_true_iff, !nonEmpty_truthy. tauto.
  - intros H. unfold addressInput. now rewrite H.
  - intros H. unfold addressInput. now rewrite H.
  - unfold address_fields.
    repeat (apply Forall_cons; [cbn [snd buildShopifyAddress firstName lastName address1
                                      address2 city province provinceCode country
                                      countryCode zip phone company];
                                apply when_set_sentAs|]).
    apply Forall_nil.
  - unfold buildShopifyAddress; cbn [firstName lastName address1 address2 city province
      provinceCode country countryCode zip phone company].
    now rewrite !when_set_idempotent.
  - unfold hasAddressData, buildShopifyAddress; cbn [address1 city country countryCode].
    now rewrite !truthy_when_set.
  - reflexivity.
Qed.

Lemma truthy_mergeField (p f : option string) :
  truthy_opt (mergeField p f) = truthy_opt p || truthy_opt f.
Proof. destruct p as [[|c s]|], f as [[|d t]|]; reflexivity. Qed.

Lemma when_set_mergeField (p f : option string) :
  sentFrom p f (when_set (mergeField p f)).
Proof.
  split; [|split].
  - intros (s & -> & Hs). destruct s; [congruence|]. reflexivity.
  - intros Hp (s & -> & Hs). destruct s; [congruence|].
    destruct Hp as [-> | ->]; reflexivity.
  - intros [-> | ->] [-> | ->]; reflexivity.
Qed.

Lemma mergeField_absorbs (p f : option string) :
  mergeField (mergeField p f) f = mergeField p f.
Proof. destruct p as [[|c s]|], f as [[|d t]|]; reflexivity. Qed.

(** X5.  The shipping address merged from a live cart and the payload,
    as it is sent.  The merged address has address data exactly when
    one of the two has.  Every property that is sent is the live cart's
    when that is non-empty, otherwise the payload's when that is
    non-empty, and is left out otherwise: the empty strings the merge
    fills in do not reach the platform.  Merging the payload in a
    second time changes nothing. *)
Theorem mergeAddress_as_sent (primary fallback : Address) :
  hasAddressData (mergeAddress primary (Some fallback))
  = hasAddressData primary || hasAddressData fallback
  /\ Forall (fun field =>
               sentFrom (snd field primary) (snd field fallback)
                 (snd field (buildShopifyAddress (mergeAddress primary (Some fallback)))))
            address_fields
  /\ mergeAddress (mergeAddress primary (Some fallback)) (Some fallback)
     = mergeAddress primary (Some fallback)
  /\ hasAddressData (mergeAddress primary None) = hasAddressData primary.
Proof.
  split_all.
  - unfold hasAddressData, mergeAddress; cbn [address1 city country countryCode].
    rewrite !truthy_mergeField.
    destruct (truthy_opt (address1 primary)), (truthy_opt (city primary)),
      (truthy_opt (country primary)), (truthy_opt (countryCode primary)),
      (truthy_opt (address1 fallback)), (truthy_opt (city fallback)),
      (truthy_opt (country fallback)), (truthy_opt (countryCode fallback)); reflexivity.
  - unfold address_fields.
    repeat (apply Forall_cons; [cbn [snd buildShopifyAddress mergeAddress firstName lastName
                                      address1 address2 city province provinceCode country
                                      countryCode zip phone company];
                                apply when_set_mergeField|]).
    apply Forall_nil.
  - unfold mergeAddress; cbn [firstName lastName address1 address2 city province
      provinceCode country countryCode zip phone company].
    now rewrite !mergeField_absorbs.
  - unfold hasAddressData, mergeAddress, emptyAddress;
      cbn [address1 city country countryCode].
    rewrite !truthy_mergeField. cbn [truthy_opt]. now rewrite !orb_false_r.
Qed.

(* ================================================================== *)
(** * Polling in every world *)
(* ================================================================== *)

Lemma afterTurn_clock (fileId : string) (maxRetries delayMs a : Z) (w : World) :
  clock (afterTurn fileId maxRetries delayMs a w)
  = (clock w + if (a + 1 <? maxRetries)%Z then Z.max delayMs 0 else 0)%Z.
Proof.
  unfold afterTurn. destruct (a + 1 <? maxRetries)%Z; simpl; lia.
Qed.

Lemma pollOnce_unconfigured (fileId : string) (maxRetries delayMs a : Z) (w : World) :
  adminClient w = None ->
  exists e, pollOnce fileId maxRetries delayMs a w = (Thrown e, w).
Proof.
  intros Hadmin. unfold pollOnce, bind, request. rewrite Hadmin. now eexists.
Qed.

(** The loop ends in every world, and what it leaves behind is [k]
    polls of the one file with a wait between every two of them. *)
Lemma pollFile_bounded (fileId : string) (maxRetries delayMs : Z) (n : nat) :
  forall fuel a w,
    (maxRetries - a <= Z.of_nat n)%Z ->
    n <= fuel ->
    exists out w' k,
      pollFile fuel fileId maxRetries delayMs a w = Some (out, w')
      /\ adminClient w' = adminClient w
      /\ requests w' = requests w ++ repeat (Requested (NodeQuery fileId)) k
      /\ sleeps w' = sleeps w ++ repeat (Slept delayMs) (k - 1)
      /\ clock w' = (clock w + Z.of_nat (k - 1) * Z.max delayMs 0)%Z
      /\ (Z.of_nat k <= Z.max 0 (maxRetries - a))%Z
      /\ (adminClient w = None -> k = 0)
      /\ ((a < maxRetries)%Z -> adminClient w <> None -> 1 <= k)
      /\ ((maxRetries <= a)%Z ->
          out = Thrown (Error (timeoutMessage fileId maxRetries delayMs))).
Proof.
  induction n as [|n IH]; intros fuel a w Hleft Hfuel.
  - assert (Hguard : (a <? maxRetries)%Z = false) by (apply Z.ltb_ge; lia).
    exists (Thrown (Error (timeoutMessage fileId maxRetries delayMs))), w, 0.
    split; [destruct fuel; simpl; now rewrite Hguard|].
    simpl. rewrite !app_nil_r. split_all; try reflexivity; lia.
  - destruct (a <? maxRetries)%Z eqn:Hguard.
    2:{ exists (Thrown (Error (timeoutMessage fileId maxRetries delayMs))), w, 0.
        split; [destruct fuel; simpl; now rewrite Hguard|].
        apply Z.ltb_ge in Hguard.
        simpl. rewrite !app_nil_r. split_all; try reflexivity; lia. }
    destruct fuel as [|fuel]; [lia|].
    simpl pollFile. rewrite Hguard. apply Z.ltb_lt in Hguard.
    destruct (adminClient w) as [platform|] eqn:Hadmin.
    2:{ destruct (pollOnce_unconfigured fileId maxRetries delayMs a w Hadmin) as (e & ->).
        exists (Thrown e), w, 0. split; [reflexivity|].
        simpl. rewrite !app_nil_r. split_all; try reflexivity; try lia; congruence. }
    destruct (reply_cases (pollReply platform w fileId 0))
      as [(e & He) | [(u & Hu) | [(errors & Herr) | Hp]]].
    + rewrite (pollOnce_thrown platform fileId maxRetries delayMs a w e Hadmin He).
      eexists _, _, 1. split; [reflexivity|].
      rewrite !requests_record, !sleeps_record. simpl. rewrite !app_nil_r.
      split_all; try reflexivity; try lia; congruence.
    + rewrite (pollOnce_ready platform fileId maxRetries delayMs a w u Hadmin Hu).
      eexists _, _, 1. split; [reflexivity|].
      rewrite !requests_record, !sleeps_record. simpl. rewrite !app_nil_r.
      split_all; try reflexivity; try lia; congruence.
    + rewrite (pollOnce_failed platform fileId maxRetries delayMs a w errors Hadmin Herr).
      eexists _, _, 1. split; [reflexivity|].
      rewrite !requests_record, !sleeps_record. simpl. rewrite !app_nil_r.
      split_all; try reflexivity; try lia; congruence.
    + rewrite (pollOnce_pending platform fileId maxRetries delayMs a w Hadmin Hp).
      destruct (IH fuel (a + 1)%Z (afterTurn fileId maxRetries delayMs a w))
        as (out & w' & k & Hrun & Ha & Hr & Hs & Hc & Hk & _ & Hmore & Hend); [lia|lia|].
      rewrite afterPending_admin in Ha, Hmore.
      rewrite afterPending_requests in Hr.
      rewrite afterPending_sleeps in Hs.
      rewrite afterTurn_clock in Hc.
      exists out, w', (S k). split; [exact Hrun|].
      split; [congruence|]. split; [now rewrite Hr, <- app_assoc|].
      destruct (a + 1 <? maxRetries)%Z eqn:Hnext.
      * apply Z.ltb_lt in Hnext.
        assert (1 <= k) by (apply Hmore; [lia | congruence]).
        destruct k as [|k]; [lia|].
        simpl Nat.sub in *. rewrite Nat.sub_0_r in *.
        split; [now rewrite Hs, <- app_assoc|].
        split; [rewrite Hc; lia|].
        split_all; try lia; try congruence.
      * apply Z.ltb_ge in Hnext.
        assert (k = 0) by lia. subst k. simpl in Hs, Hc |- *.
        rewrite !app_nil_r in Hs.
        split; [now rewrite Hs, app_nil_r|]. split; [rewrite Hc; lia|].
        split_all; try lia; try congruence.
Qed.

Lemma waitForFileUrl_unfolds (fileId : string) (maxRetries delayMs : option Z) (w : World) :
  waitForFileUrl fileId maxRetries delayMs w
  = pollFile (Z.to_nat (match maxRetries with Some n => n | None => 10%Z end)) fileId
      (match maxRetries with Some n => n | None => 10%Z end)
      (match delayMs with Some d => d | None => 1000%Z end) 0
      (record (Logged info "Waiting for file URL to become available") w).
Proof. reflexivity. Qed.

Lemma naps_app (w w' : World) (l : list Event) :
  sleeps w' = sleeps w ++ l -> naps w w' = l.
Proof.
  intros H. unfold naps. rewrite H, skipn_app, skipn_all, Nat.sub_diag. reflexivity.
Qed.

(** X6.  [waitForFileUrl] ends in every world and for every choice of
    its arguments, the omitted ones standing for 10 attempts and
    1000 ms.  Whatever the platform answers, the requests of the run
    are polls of the given file and nothing else, there are at most
    [maxRetries] of them, exactly one wait of [delayMs] lies between two
    consecutive polls and none before the first or after the last, the
    clock has advanced by those waits alone, and the admin client is
    the one the run started with. *)
Theorem waitForFileUrl_always_ends
    (fileId : string) (maxRetries delayMs : option Z) (w : World) :
  let limit := match maxRetries with Some n => n | None => 10%Z end in
  let delay := match delayMs with Some d => d | None => 1000%Z end in
  exists out w' k,
    waitForFileUrl fileId maxRetries delayMs w = Some (out, w')
    /\ adminClient w' = adminClient w
    /\ issued w w' = repeat (Requested (NodeQuery fileId)) k
    /\ naps w w' = repeat (Slept delay) (k - 1)
    /\ (Z.of_nat k <= Z.max 0 limit)%Z
    /\ clock w' = (clock w + Z.of_nat (k - 1) * Z.max delay 0)%Z.
Proof.
  cbv zeta. rewrite waitForFileUrl_unfolds.
  set (limit := match maxRetries with Some n => n | None => 10%Z end).
  set (delay := match delayMs with Some d => d | None => 1000%Z end).
  set (w0 := record (Logged info "Waiting for file URL to become available") w).
  destruct (pollFile_bounded fileId limit delay (Z.to_nat limit) (Z.to_nat limit) 0%Z w0)
    as (out & w' & k & Hrun & Ha & Hr & Hs & Hc & Hk & _); [lia|lia|].
  exists out, w', k. split; [exact Hrun|]. split; [exact Ha|].
  unfold w0 in Hr, Hs. rewrite requests_record, app_nil_r in Hr.
  rewrite sleeps_record, app_nil_r in Hs.
  split; [now apply issued_app|]. split; [now apply naps_app|].
  split; [lia|exact Hc].
Qed.

(** X7.  The edge cases of the wait.  With [maxRetries] of zero or
    less the loop is never entered: no request is issued, nothing is
    awaited, and the timeout error is thrown at once, whether or not
    there is an admin client.  Without an admin client and with
    [maxRetries] of at least one, the first turn of the loop throws
    before any request; that error is not the timeout error. *)
Theorem waitForFileUrl_without_attempts
    (fileId : string) (maxRetries delayMs : Z) (w : World) :
  let started := record (Logged info "Waiting for file URL to become available") w in
  ((maxRetries <= 0)%Z ->
   waitForFileUrl fileId (Some maxRetries) (Some delayMs) w
   = Some (Thrown (Error (timeoutMessage fileId maxRetries delayMs)), started))
  /\ ((1 <= maxRetries)%Z ->
      adminClient w = None ->
      exists e,
        waitForFileUrl fileId (Some maxRetries) (Some delayMs) w = Some (Thrown e, started)
        /\ e <> Error (timeoutMessage fileId maxRetries delayMs)).
Proof.
  cbv zeta. split.
  - intros Hmax. rewrite waitForFileUrl_unfolds.
    assert (Hguard : (0 <? maxRetries)%Z = false) by (apply Z.ltb_ge; lia).
    destruct (Z.to_nat maxRetries); simpl; now rewrite Hguard.
  - intros Hmax Hadmin. rewrite waitForFileUrl_unfolds.
    assert (Hguard : (0 <? maxRetries)%Z = true) by (apply Z.ltb_lt; lia).
    destruct (Z.to_nat maxRetries) as [|fuel] eqn:Hfuel; [lia|].
    simpl pollFile. rewrite Hguard.
    unfold pollOnce, bind, request. cbn [adminClient record]. rewrite Hadmin.
    eexists. split; [reflexivity|].
    unfold timeoutMessage. intros H. injection H as H. discriminate H.
Qed.

(** X7 with no attempt allowed, and with ten attempts in a world
    without a client. *)
Lemma waitForFileUrl_without_attempts_witness :
  waitForFileUrl sampleFile (Some 0%Z) (Some 1000%Z) (worldOf stuckPlatform)
  = Some (Thrown (Error ("File gid://shopify/GenericFile/1 did not become ready "
                         ++ "after 0 attempts (0s timeout)")),
          record (Logged info "Waiting for file URL to become available")
            (worldOf stuckPlatform))
  /\ exists e,
       waitForFileUrl sampleFile (Some 10%Z) (Some 1000%Z) quietWorld
       = Some (Thrown e,
               record (Logged info "Waiting for file URL to become available") quietWorld)
       /\ e <> Error (timeoutMessage sampleFile 10 1000).
Proof.
  split.
  - apply (proj1 (waitForFileUrl_without_attempts sampleFile 0 1000 (worldOf stuckPlatform))).
    lia.
  - apply (proj2 (waitForFileUrl_without_attempts sampleFile 10 1000 quietWorld)).
    + lia.
    + reflexivity.
Defined.

(** X8.  A request that fails is not retried.  When the first [k]
    polls end nothing and the next request fails, with [k] below
    [maxRetries], the error of that request leaves [waitForFileUrl] as
    it is, neither wrapped nor replaced by the timeout error, after
    [k + 1] polls and [k] waits. *)
Theorem waitForFileUrl_request_failure
    (platform : Platform) (fileId : string) (maxRetries delayMs : Z) (w : World)
    (k : nat) (e : exn) :
  adminClient w = Some platform ->
  (Z.of_nat k < maxRetries)%Z ->
  (forall j, j < k -> pending (pollReply platform w fileId j)) ->
  pollReply platform w fileId k = Thrown e ->
  exists w',
    waitForFileUrl fileId (Some maxRetries) (Some delayMs) w = Some (Thrown e, w')
    /\ issued w w' = repeat (Requested (NodeQuery fileId)) (k + 1)
    /\ naps w w' = repeat (Slept delayMs) k.
Proof.
  intros Hadmin Hk Hpend Hfail. rewrite waitForFileUrl_unfolds.
  set (w0 := record (Logged info "Waiting for file URL to become available") w).
  assert (Hadmin0 : adminClient w0 = Some platform) by exact Hadmin.
  assert (Hreq0 : requests w0 = requests w).
  { unfold w0. now rewrite requests_record, app_nil_r. }
  assert (Hsl0 : sleeps w0 = sleeps w).
  { unfold w0. now rewrite sleeps_record, app_nil_r. }
  destruct (pollFile_pending platform fileId maxRetries delayMs k
              (Z.to_nat maxRetries) 0%Z w0) as (wk & Hrun & Hak & Hrk & Hsk);
    try assumption; try lia.
  { intros j Hj. unfold pollReply. rewrite Hreq0. now apply Hpend. }
  rewrite Hrun. simpl Z.add in *.
  assert (Hguard : (Z.of_nat k <? maxRetries)%Z = true) by (apply Z.ltb_lt; lia).
  rewrite Hguard in Hsk.
  destruct (Z.to_nat maxRetries - k) as [|fuel] eqn:Hfuel; [lia|].
  simpl pollFile. rewrite Hguard.
  rewrite (pollOnce_thrown platform fileId maxRetries delayMs (Z.of_nat k) wk e Hak).
  2:{ unfold pollReply in *. rewrite Hrk, Hreq0, length_app, repeat_length, Nat.add_0_r.
      exact Hfail. }
  eexists. split; [reflexivity|]. split.
  - apply issued_app. rewrite requests_record, Hrk, Hreq0, <- app_assoc. f_equal.
    simpl. now rewrite repeat_app.
  - apply naps_app. now rewrite sleeps_record, app_nil_r, Hsk, Hsl0.
Qed.

(** X8 on a platform whose second answer is a broken connection. *)
Lemma waitForFileUrl_request_failure_witness :
  exists w',
    waitForFileUrl sampleFile (Some 10%Z) (Some 1000%Z) (worldOf flakyPlatform)
    = Some (Thrown (Error "socket hang up"), w')
    /\ issued (worldOf flakyPlatform) w' = repeat (Requested (NodeQuery sampleFile)) 2
    /\ naps (worldOf flakyPlatform) w' = [Slept 1000].
Proof.
  apply (waitForFileUrl_request_failure flakyPlatform sampleFile 10 1000
           (worldOf flakyPlatform) 1 (Error "socket hang up") eq_refl).
  - lia.
  - intros j Hj. apply named_statuses_pending. right; left.
    assert (j = 0) by lia. subst j.
    do 2 eexists. repeat split.
  - reflexivity.
Defined.

(* ================================================================== *)
(** * Uploading a file *)
(* ================================================================== *)

Lemma quiet_refl (w : World) : quiet w w.
Proof. repeat split. Qed.

Lemma quiet_trans (w1 w2 w3 : World) : quiet w1 w2 -> quiet w2 w3 -> quiet w1 w3.
Proof.
  intros (A1 & C1 & R1 & S1) (A2 & C2 & R2 & S2). repeat split; congruence.
Qed.

Lemma quiet_log (w w' : World) (level : Level) (text : string) :
  quiet w w' -> quiet w (record (Logged level text) w').
Proof.
  intros (A & C & R & S). unfold quiet. split_all.
  - exact A.
  - exact C.
  - now rewrite requests_record, app_nil_r.
  - now rewrite sleeps_record, app_nil_r.
Qed.

Lemma quiet_issued (w w' : World) : quiet w w' -> issued w w' = [].
Proof. intros (_ & _ & R & _). apply issued_app. now rewrite app_nil_r. Qed.

Lemma someErrors_listOf (errors : option (list UserError)) :
  someErrors errors = match listOf errors with
                      | [] => None
                      | e :: es => Some (e :: es)
                      end.
Proof. destruct errors as [[|e es]|]; reflexivity. Qed.

(** The staged upload, by the answer of the platform. *)
Lemma createStagedUpload_run (answers : Backend) (filename : string) (w : World) :
  adminClient w <> None ->
  exists w',
    quiet w w'
    /\ ShopifyFileService.createStagedUpload answers filename w
       = (staging answers filename, w').
Proof.
  intros Hadmin.
  unfold ShopifyFileService.createStagedUpload, bind, log, adminRequest.
  cbn [adminClient record].
  destruct (adminClient w) as [platform|] eqn:Ha; [|congruence]. clear Hadmin.
  fold (stagedInput filename). unfold staging.
  destruct (answers (stagedInput filename)) as [r|e].
  - unfold stagedErrors, stagedTargetOf.
    destruct (data_stagedUploadsCreate r) as [[targets errors]|];
      cbn [staged_userErrors stagedTargets].
    + rewrite someErrors_listOf.
      destruct (listOf errors) as [|e es]; unfold throw.
      * destruct targets as [[|t ts]|]; eexists; (split; [|reflexivity]);
          repeat apply quiet_log; apply quiet_refl.
      * eexists; (split; [|reflexivity]); repeat apply quiet_log; apply quiet_refl.
    + eexists; (split; [|reflexivity]); repeat apply quiet_log; apply quiet_refl.
  - eexists; (split; [|reflexivity]); repeat apply quiet_log; apply quiet_refl.
Qed.

Lemma uploadToStagedUrl_run (post : Uploader) (pdf : list Byte.byte)
    (target : StagedTarget) (w : World) :
  exists w',
    quiet w w'
    /\ ShopifyFileService.uploadToStagedUrl post pdf target w
       = (post (target_url target) (uploadForm target pdf), w').
Proof.
  unfold ShopifyFileService.uploadToStagedUrl, bind, log, httpPost.
  fold (uploadForm target pdf).
  destruct (post (target_url target) (uploadForm target pdf)) as [[]|e];
    eexists; (split; [|reflexivity]); repeat apply quiet_log; apply quiet_refl.
Qed.

Lemma createFileRecord_run (answers : Backend) (resourceUrl : option string)
    (filename : string) (alt : option string) (w : World) :
  adminClient w <> None ->
  exists w',
    quiet w w'
    /\ ShopifyFileService.createFileRecord answers resourceUrl filename alt w
       = (creating answers (or_str alt (defaultAlt filename)) resourceUrl, w').
Proof.
  intros Hadmin.
  unfold ShopifyFileService.createFileRecord, bind, log, adminRequest.
  cbn [adminClient record].
  destruct (adminClient w) as [platform|] eqn:Ha; [|congruence]. clear Hadmin.
  fold (defaultAlt filename).
  fold (fileInput (or_str alt (defaultAlt filename)) resourceUrl). unfold creating.
  destruct (answers (fileInput (or_str alt (defaultAlt filename)) resourceUrl)) as [r|e].
  - unfold createdErrors, createdFileOf.
    destruct (data_fileCreate r) as [[files errors]|];
      cbn [created_userErrors created_files].
    + rewrite someErrors_listOf.
      destruct (listOf errors) as [|e es]; unfold throw.
      * destruct files as [[|f fs]|]; eexists; (split; [|reflexivity]);
          repeat apply quiet_log; apply quiet_refl.
      * eexists; (split; [|reflexivity]); repeat apply quiet_log; apply quiet_refl.
    + eexists; (split; [|reflexivity]); repeat apply quiet_log; apply quiet_refl.
  - eexists; (split; [|reflexivity]); repeat apply quiet_log; apply quiet_refl.
Qed.

(** ** The wait inside the upload *)

(** The wait ends, and what it leaves behind. *)
Lemma wait_ends (fileId : string) (maxRetries delayMs : Z) (w : World) :
  exists out w' n,
    waitForFileUrl fileId (Some maxRetries) (Some delayMs) w = Some (out, w')
    /\ adminClient w' = adminClient w
    /\ requests w' = requests w ++ repeat (Requested (NodeQuery fileId)) n
    /\ sleeps w' = sleeps w ++ repeat (Slept delayMs) (n - 1)
    /\ clock w' = (clock w + Z.of_nat (n - 1) * Z.max delayMs 0)%Z.
Proof.
  rewrite waitForFileUrl_unfolds.
  set (w0 := record (Logged info "Waiting for file URL to become available") w).
  destruct (pollFile_bounded fileId maxRetries delayMs (Z.to_nat maxRetries)
              (Z.to_nat maxRetries) 0%Z w0)
    as (out & w' & n & Hrun & Ha & Hr & Hs & Hc & _); [lia|lia|].
  exists out, w', n. unfold w0 in Hr, Hs.
  rewrite requests_record, app_nil_r in Hr. rewrite sleeps_record, app_nil_r in Hs.
  split_all; assumption.
Qed.

Lemma repeat_same_length {A : Type} (x : A) (l : list A) (n m : nat) :
  l ++ repeat x n = l ++ repeat x m -> n = m.
Proof.
  intros H. apply (f_equal (@List.length A)) in H.
  rewrite !length_app, !repeat_length in H. lia.
Qed.

(** The state of the wait after [k] polls that ended nothing. *)
Lemma wait_skips (platform : Platform) (fileId : string) (maxRetries delayMs : Z)
    (w : World) (k : nat) :
  adminClient w = Some platform ->
  (Z.of_nat k < maxRetries)%Z ->
  (forall j, j < k -> pending (pollReply platform w fileId j)) ->
  exists wk fuel,
    waitForFileUrl fileId (Some maxRetries) (Some delayMs) w
    = pollFile (S fuel) fileId maxRetries delayMs (Z.of_nat k) wk
    /\ adminClient wk = Some platform
    /\ requests wk = requests w ++ repeat (Requested (NodeQuery fileId)) k
    /\ pollReply platform wk fileId 0 = pollReply platform w fileId k.
Proof.
  intros Hadmin Hk Hpend. rewrite waitForFileUrl_unfolds.
  set (w0 := record (Logged info "Waiting for file URL to become available") w).
  assert (Hadmin0 : adminClient w0 = Some platform) by exact Hadmin.
  assert (Hreq0 : requests w0 = requests w).
  { unfold w0. now rewrite requests_record, app_nil_r. }
  destruct (pollFile_pending platform fileId maxRetries delayMs k
              (Z.to_nat maxRetries) 0%Z w0) as (wk & Hrun & Hak & Hrk & _);
    try assumption; try lia.
  { intros j Hj. unfold pollReply. rewrite Hreq0. now apply Hpend. }
  exists wk, (Z.to_nat maxRetries - k - 1).
  rewrite Hrun. simpl Z.add. rewrite Hreq0 in Hrk.
  split_all.
  - f_equal. lia.
  - exact Hak.
  - exact Hrk.
  - unfold pollReply. rewrite Hrk, length_app, repeat_length. f_equal. lia.
Qed.

(** The wait returns the URL of the first poll that sees the file
    ready, after polls that ended nothing. *)
Lemma wait_ready (platform : Platform) (fileId : string) (maxRetries delayMs : Z)
    (w : World) (k : nat) (u : string) :
  adminClient w = Some platform ->
  (Z.of_nat k < maxRetries)%Z ->
  (forall j, j < k -> pending (pollReply platform w fileId j)) ->
  readyAt (pollReply platform w fileId k) u ->
  exists w',
    waitForFileUrl fileId (Some maxRetries) (Some delayMs) w = Some (Returned u, w')
    /\ adminClient w' = adminClient w
    /\ requests w' = requests w ++ repeat (Requested (NodeQuery fileId)) (k + 1)
    /\ sleeps w' = sleeps w ++ repeat (Slept delayMs) k
    /\ clock w' = (clock w + Z.of_nat k * Z.max delayMs 0)%Z.
Proof.
  intros Hadmin Hk Hpend Hready.
  destruct (wait_skips platform fileId maxRetries delayMs w k Hadmin Hk Hpend)
    as (wk & fuel & Hrun & Hak & Hrk & Hreply).
  assert (Hguard : (Z.of_nat k <? maxRetries)%Z = true) by (apply Z.ltb_lt; lia).
  simpl pollFile in Hrun. rewrite Hguard in Hrun.
  rewrite (pollOnce_ready platform fileId maxRetries delayMs (Z.of_nat k) wk u Hak) in Hrun
    by now rewrite Hreply.
  destruct (wait_ends fileId maxRetries delayMs w)
    as (out & w' & n & Hwait & Ha & Hr & Hs & Hc).
  rewrite Hrun in Hwait. injection Hwait as <- <-.
  assert (Hn : n = k + 1).
  { apply (f_equal (@List.length Event)) in Hr.
    rewrite !requests_record, !length_app, Hrk, !length_app, !repeat_length in Hr.
    simpl in Hr. lia. }
  subst n. replace (k + 1 - 1) with k in Hs, Hc by lia.
  rewrite Hrun. eexists. split; [reflexivity|]. split_all; assumption.
Qed.

(** The wait gives up when none of its polls ends anything. *)
Lemma wait_timeout (platform : Platform) (fileId : string) (maxRetries delayMs : Z)
    (w : World) :
  adminClient w = Some platform ->
  (forall j, (Z.of_nat j < maxRetries)%Z -> pending (pollReply platform w fileId j)) ->
  exists w',
    waitForFileUrl fileId (Some maxRetries) (Some delayMs) w
    = Some (Thrown (Error (timeoutMessage fileId maxRetries delayMs)), w')
    /\ adminClient w' = adminClient w
    /\ requests w'
       = requests w ++ repeat (Requested (NodeQuery fileId)) (Z.to_nat maxRetries).
Proof.
  intros Hadmin Hpend. rewrite waitForFileUrl_unfolds.
  set (w0 := record (Logged info "Waiting for file URL to become available") w).
  assert (Hadmin0 : adminClient w0 = Some platform) by exact Hadmin.
  assert (Hreq0 : requests w0 = requests w).
  { unfold w0. now rewrite requests_record, app_nil_r. }
  destruct (Z.le_gt_cases maxRetries 0) as [Hnone | Hsome].
  { assert (Hguard : (0 <? maxRetries)%Z = false) by (apply Z.ltb_ge; lia).
    replace (Z.to_nat maxRetries) with 0 by lia. simpl. rewrite Hguard.
    exists w0. split; [reflexivity|]. split; [reflexivity|]. now rewrite app_nil_r. }
  destruct (pollFile_pending platform fileId maxRetries delayMs (Z.to_nat maxRetries)
              (Z.to_nat maxRetries) 0%Z w0) as (wk & Hrun & Hak & Hrk & _);
    try assumption; try lia.
  { intros j Hj. unfold pollReply. rewrite Hreq0. apply Hpend. lia. }
  rewrite Hrun, Nat.sub_diag. cbn [pollFile].
  replace (0 + Z.of_nat (Z.to_nat maxRetries))%Z with maxRetries by lia.
  rewrite Z.ltb_irrefl. exists wk. split; [reflexivity|].
  split; [congruence|]. now rewrite Hrk, Hreq0.
Qed.

(** ** The upload as a whole *)

Lemma awaitFileUrl_run (fileId : string) (w : World) :
  exists out w',
    waitForFileUrl fileId (Some 10%Z) (Some 1000%Z) w = Some (out, w')
    /\ awaitFileUrl fileId w = (out, w').
Proof.
  destruct (wait_ends fileId 10 1000 w) as (out & w' & n & Hrun & _).
  exists out, w'. split; [exact Hrun|].
  unfold awaitFileUrl.
  change (waitForFileUrl fileId None None w)
    with (waitForFileUrl fileId (Some 10%Z) (Some 1000%Z) w).
  now rewrite Hrun.
Qed.

(** The phases of [uploadPdf], one after the other. *)
Lemma uploadPdf_run (answers : Backend) (post : Uploader) (pdf : list Byte.byte)
    (filename : string) (alt : option string) (w : World) :
  adminClient w <> None ->
  let run := ShopifyFileService.uploadPdf answers post pdf filename alt w in
  let failed e w' :=
    run = (Thrown (uploadFailure (message e)),
           record (Logged error "Failed to upload PDF to Shopify") w') in
  match staging answers filename with
  | Thrown e => exists w', quiet w w' /\ failed e w'
  | Returned target =>
      match post (target_url target) (uploadForm target pdf) with
      | Thrown e => exists w', quiet w w' /\ failed e w'
      | Returned _ =>
          match creating answers (defaultAlt filename) (target_resourceUrl target) with
          | Thrown e => exists w', quiet w w' /\ failed e w'
          | Returned file =>
              exists w3 out w4,
                quiet w w3
                /\ waitForFileUrl (file_id file) (Some 10%Z) (Some 1000%Z) w3
                   = Some (out, w4)
                /\ match out with
                   | Returned url =>
                       run = (Returned (withUrl file url),
                              record (Logged info "PDF uploaded successfully and ready") w4)
                   | Thrown e => failed e w4
                   end
          end
      end
  end.
Proof.
  intros Hadmin. cbv zeta.
  remember (ShopifyFileService.uploadPdf answers post pdf filename alt w) as run eqn:Hrun.
  unfold ShopifyFileService.uploadPdf in Hrun.
  destruct (adminClient w) as [platform|] eqn:Ha; [|congruence].
  set (w0 := record (Logged info "Uploading PDF to Shopify") w) in *.
  assert (Q0 : quiet w w0) by (apply quiet_log, quiet_refl).
  assert (H0 : adminClient w0 <> None) by (cbn; congruence).
  unfold bind at 1 in Hrun. unfold log at 1 in Hrun. fold w0 in Hrun.
  unfold try_catch in Hrun. unfold bind at 1 in Hrun.
  destruct (createStagedUpload_run answers filename w0 H0) as (w1 & Q1 & E1).
  rewrite E1 in Hrun. clear E1.
  pose proof (quiet_trans _ _ _ Q0 Q1) as Q01.
  destruct (staging answers filename) as [target|e].
  2:{ exists w1. split; [exact Q01|exact Hrun]. }
  unfold bind at 1 in Hrun.
  destruct (uploadToStagedUrl_run post pdf target w1) as (w2 & Q2 & E2).
  rewrite E2 in Hrun. clear E2.
  pose proof (quiet_trans _ _ _ Q01 Q2) as Q02.
  destruct (post (target_url target) (uploadForm target pdf)) as [[]|e].
  2:{ exists w2. split; [exact Q02|exact Hrun]. }
  unfold bind at 1 in Hrun. unfold log at 1 in Hrun.
  set (w2' := record (Logged info "just before file create") w2) in *.
  assert (Q2' : quiet w w2') by (apply quiet_log; exact Q02).
  assert (H2 : adminClient w2' <> None).
  { destruct Q2' as (A & _). rewrite A. congruence. }
  unfold bind at 1 in Hrun.
  destruct (createFileRecord_run answers (target_resourceUrl target) filename None w2' H2)
    as (w3 & Q3 & E3).
  rewrite E3 in Hrun. clear E3.
  pose proof (quiet_trans _ _ _ Q2' Q3) as Q03.
  change (or_str None (defaultAlt filename)) with (defaultAlt filename) in Hrun.
  destruct (creating answers (defaultAlt filename) (target_resourceUrl target)) as [file|e].
  2:{ exists w3. split; [exact Q03|exact Hrun]. }
  unfold bind at 1 in Hrun.
  destruct (awaitFileUrl_run (file_id file) w3) as (out & w4 & Hwait & E4).
  rewrite E4 in Hrun. clear E4.
  exists w3, out, w4. split; [exact Q03|]. split; [exact Hwait|].
  destruct out as [url|e]; exact Hrun.
Qed.

Lemma stagedAt_staging (answers : Backend) (filename : string) (target : StagedTarget) :
  stagedAt answers filename target -> staging answers filename = Returned target.
Proof. intros (r & Hr & He & Ht). unfold staging. now rewrite Hr, He, Ht. Qed.

Lemma createdAs_creating (answers : Backend) (alt : string) (target : StagedTarget)
    (file : GenericFile) :
  createdAs answers alt target file ->
  creating answers alt (target_resourceUrl target) = Returned file.
Proof. intros (r & Hr & He & Hf). unfold creating. now rewrite Hr, He, Hf. Qed.

(** X9.  How an upload fails.  Without an admin client [uploadPdf]
    throws "Shopify Admin API client not configured" and does nothing
    else.  With one, every failure of a phase reaches the caller under
    the prefix "Shopify file upload failed: ", and the phases after it
    are not entered: a failed staging request or upload or file
    creation request with the message of its error, user errors of the
    staging as "Staged upload creation failed: ..." and of the file
    creation as "File creation failed: ...", their messages joined with
    ", ", and a missing target or file as "No staged target returned"
    and "No file returned from fileCreate".  In all these cases the
    file status has not been polled and nothing has been awaited. *)
Theorem uploadPdf_failures_wrapped (answers : Backend) (post : Uploader)
    (pdf : list Byte.byte) (filename : string) (alt : option string) (w : World) :
  let run := ShopifyFileService.uploadPdf answers post pdf filename alt w in
  let fails reason := fst run = Thrown (uploadFailure reason) /\ quiet w (snd run) in
  (adminClient w = None ->
   run = (Thrown (Error "Shopify Admin API client not configured"), w))
  /\ (adminClient w <> None ->
      (forall e, answers (stagedInput filename) = Thrown e -> fails (message e))
      /\ (forall r e es,
             answers (stagedInput filename) = Returned r ->
             stagedErrors r = e :: es ->
             fails ("Staged upload creation failed: " ++ errorMessages (e :: es))%string)
      /\ (forall r,
             answers (stagedInput filename) = Returned r ->
             stagedErrors r = [] ->
             stagedTargetOf r = None ->
             fails "No staged target returned")
      /\ (forall target,
             stagedAt answers filename target ->
             let created := answers (fileInput (defaultAlt filename)
                                       (target_resourceUrl target)) in
             (forall e, post (target_url target) (uploadForm target pdf) = Thrown e ->
                        fails (message e))
             /\ (post (target_url target) (uploadForm target pdf) = Returned tt ->
                 (forall e, created = Thrown e -> fails (message e))
                 /\ (forall r e es,
                        created = Returned r ->
                        createdErrors r = e :: es ->
                        fails ("File creation failed: " ++ errorMessages (e :: es))%string)
                 /\ (forall r,
                        created = Returned r ->
                        createdErrors r = [] ->
                        createdFileOf r = None ->
                        fails "No file returned from fileCreate")))).
Proof.
  cbv zeta. split.
  - intros Hadmin. unfold ShopifyFileService.uploadPdf. now rewrite Hadmin.
  - intros Hadmin.
    pose proof (uploadPdf_run answers post pdf filename alt w Hadmin) as Hrun.
    cbv zeta in Hrun.
    assert (Hstage : forall e,
               staging answers filename = Thrown e ->
               fst (ShopifyFileService.uploadPdf answers post pdf filename alt w)
               = Thrown (uploadFailure (message e))
               /\ quiet w (snd (ShopifyFileService.uploadPdf answers post pdf filename alt w))).
    { intros e He. rewrite He in Hrun. destruct Hrun as (w' & Q & ->).
      split; [reflexivity|]. now apply quiet_log. }
    split_all.
    + intros e He. apply Hstage. unfold staging. now rewrite He.
    + intros r e es Hr He.
      apply (Hstage (Error ("Staged upload creation failed: " ++ errorMessages (e :: es))%string)).
      unfold staging. now rewrite Hr, He.
    + intros r Hr He Ht. apply (Hstage (Error "No staged target returned")).
      unfold staging. now rewrite Hr, He, Ht.
    + intros target Htarget. rewrite (stagedAt_staging _ _ _ Htarget) in Hrun.
      split.
      * intros e He. rewrite He in Hrun. destruct Hrun as (w' & Q & ->).
        split; [reflexivity|]. now apply quiet_log.
      * intros Hpost. rewrite Hpost in Hrun.
        assert (Hcreate : forall e,
                   creating answers (defaultAlt filename) (target_resourceUrl target)
                   = Thrown e ->
                   fst (ShopifyFileService.uploadPdf answers post pdf filename alt w)
                   = Thrown (uploadFailure (message e))
                   /\ quiet w (snd (ShopifyFileService.uploadPdf answers post pdf
                                      filename alt w))).
        { intros e He. rewrite He in Hrun. destruct Hrun as (w' & Q & ->).
          split; [reflexivity|]. now apply quiet_log. }
        split_all.
        -- intros e He. apply Hcreate. unfold creating. now rewrite He.
        -- intros r e es Hr He.
           apply (Hcreate (Error ("File creation failed: " ++ errorMessages (e :: es))%string)).
           unfold creating. now rewrite Hr, He.
        -- intros r Hr He Hf. apply (Hcreate (Error "No file returned from fileCreate")).
           unfold creating. now rewrite Hr, He, Hf.
Qed.

(** X9 on a platform that answers the staging with a user error, and
    on one that stages the upload and then answers nothing to the file
    creation. *)
Lemma uploadPdf_failures_wrapped_witness :
  fst (ShopifyFileService.uploadPdf strictBackend openUploader samplePdf "a.pdf" None
         shopWorld)
  = Thrown (Error "Shopify file upload failed: Staged upload creation failed: Draft order is locked")
  /\ ShopifyFileService.uploadPdf sampleBackend openUploader samplePdf "a.pdf" None
       quietWorld
     = (Thrown (Error "Shopify Admin API client not configured"), quietWorld).
Proof.
  pose proof (uploadPdf_failures_wrapped strictBackend openUploader samplePdf "a.pdf" None
                shopWorld) as (_ & H).
  pose proof (uploadPdf_failures_wrapped sampleBackend openUploader samplePdf "a.pdf" None
                quietWorld) as (H' & _).
  split.
  - destruct (H ltac:(discriminate)) as (_ & Herrors & _).
    exact (proj1 (Herrors _ (mkUserError "Draft order is locked") [] eq_refl eq_refl)).
  - exact (H' eq_refl).
Defined.

Lemma quiet_pollReply (platform : Platform) (w w' : World) (fileId : string) (k : nat) :
  quiet w w' -> pollReply platform w' fileId k = pollReply platform w fileId k.
Proof. intros (_ & _ & R & _). unfold pollReply. now rewrite R. Qed.

(** X10.  What an upload returns.  When the upload is staged, posted
    and recorded, [uploadPdf] waits for the file with the default of 10
    attempts.  If the first poll that ends anything sees the file ready
    with a URL, it returns the recorded file with that URL in place of
    the one the record had; if all ten polls end nothing, it throws the
    timeout error of the wait under the prefix "Shopify file upload
    failed: ".  The file is recorded under the alternative text "Quote
    PDF - " followed by the file name: the [alt] of the caller's
    metadata is not used, and the outcome does not depend on it. *)
Theorem uploadPdf_returns_polled_url (answers : Backend) (post : Uploader)
    (pdf : list Byte.byte) (filename : string) (alt : option string) (w : World)
    (platform : Platform) (target : StagedTarget) (file : GenericFile) :
  adminClient w = Some platform ->
  stagedAt answers filename target ->
  post (target_url target) (uploadForm target pdf) = Returned tt ->
  createdAs answers (defaultAlt filename) target file ->
  let run := ShopifyFileService.uploadPdf answers post pdf filename alt w in
  let reply := pollReply platform w (file_id file) in
  (forall k u,
      k < 10 ->
      (forall j, j < k -> pending (reply j)) ->
      readyAt (reply k) u ->
      fst run = Returned (withUrl file u)
      /\ issued w (snd run) = repeat (Requested (NodeQuery (file_id file))) (k + 1))
  /\ ((forall j, j < 10 -> pending (reply j)) ->
      fst run = Thrown (uploadFailure (timeoutMessage (file_id file) 10 1000))
      /\ issued w (snd run) = repeat (Requested (NodeQuery (file_id file))) 10)
  /\ run = ShopifyFileService.uploadPdf answers post pdf filename None w.
Proof.
  intros Hadmin Hstaged Hpost Hcreated. cbv zeta.
  assert (Hne : adminClient w <> None) by congruence.
  pose proof (uploadPdf_run answers post pdf filename alt w Hne) as Hrun.
  cbv zeta in Hrun.
  rewrite (stagedAt_staging _ _ _ Hstaged), Hpost,
    (createdAs_creating _ _ _ _ Hcreated) in Hrun.
  destruct Hrun as (w3 & out & w4 & Q & Hwait & Hrun).
  assert (H3 : adminClient w3 = Some platform).
  { destruct Q as (A & _). congruence. }
  assert (R3 : requests w3 = requests w) by apply Q.
  split_all.
  - intros k u Hk Hpend Hready.
    destruct (wait_ready platform (file_id file) 10 1000 w3 k u H3)
      as (w' & Hw & _ & Hr & _).
    + lia.
    + intros j Hj. rewrite (quiet_pollReply platform w w3 _ _ Q). now apply Hpend.
    + now rewrite (quiet_pollReply platform w w3 _ _ Q).
    + rewrite Hw in Hwait. injection Hwait as <- <-. rewrite Hrun.
      split; [reflexivity|]. apply issued_app. cbn [snd].
      now rewrite requests_record, app_nil_r, Hr, R3.
  - intros Hpend.
    destruct (wait_timeout platform (file_id file) 10 1000 w3 H3) as (w' & Hw & _ & Hr).
    + intros j Hj. rewrite (quiet_pollReply platform w w3 _ _ Q). apply Hpend. lia.
    + rewrite Hw in Hwait. injection Hwait as <- <-. rewrite Hrun.
      split; [reflexivity|]. apply issued_app. cbn [snd].
      now rewrite requests_record, app_nil_r, Hr, R3.
  - reflexivity.
Qed.

(** X10 on the platform that reports the file ready at the tenth
    poll: the URL of that poll is returned, whatever alternative text
    the caller asks for. *)
Lemma uploadPdf_returns_polled_url_witness :
  fst (ShopifyFileService.uploadPdf sampleBackend openUploader samplePdf "a.pdf"
         (Some "VAT Invoice 7") (worldOf slowPlatform))
  = Returned (withUrl sampleRecord "https://cdn.example/invoice.pdf").
Proof.
  assert (Hstaged : stagedAt sampleBackend "a.pdf" sampleTarget).
  { eexists. repeat split. }
  assert (Hcreated : createdAs sampleBackend (defaultAlt "a.pdf") sampleTarget sampleRecord).
  { eexists. repeat split. }
  destruct (uploadPdf_returns_polled_url sampleBackend openUploader samplePdf "a.pdf"
              (Some "VAT Invoice 7") (worldOf slowPlatform) slowPlatform sampleTarget
              sampleRecord eq_refl Hstaged eq_refl Hcreated) as (Hready & _).
  apply (Hready 9 "https://cdn.example/invoice.pdf").
  - lia.
  - intros j Hj. apply named_statuses_pending. right; left.
    unfold pollReply, slowPlatform. simpl.
    apply Nat.ltb_lt in Hj. rewrite Hj.
    do 2 eexists. repeat split.
  - do 2 eexists. repeat split. discriminate.
Defined.

(* ================================================================== *)
(** * Attaching the PDF to the draft order *)
(* ================================================================== *)

(** The update, by the answer of the platform. *)
Lemma attachFileToDraftOrder_run (answers : Backend) (draftOrderId pdfUrl : option string)
    (w : World) :
  adminClient w <> None ->
  exists w',
    quiet w w'
    /\ ShopifyFileService.attachFileToDraftOrder answers draftOrderId pdfUrl w
       = (match answers (attachInput draftOrderId pdfUrl (clock w)) with
          | Thrown e => Thrown e
          | Returned r =>
              match updateErrors r with
              | e :: es =>
                  Thrown (Error ("Failed to attach PDF metafield: "
                                 ++ errorMessages (e :: es)))
              | [] => Returned (updatedOrderOf r)
              end
          end, w').
Proof.
  intros Hadmin.
  unfold ShopifyFileService.attachFileToDraftOrder, bind, log, dateNow, adminRequest.
  cbn [adminClient record clock].
  destruct (adminClient w) as [platform|] eqn:Ha; [|congruence]. clear Hadmin.
  fold (attachInput draftOrderId pdfUrl (clock w)).
  destruct (answers (attachInput draftOrderId pdfUrl (clock w))) as [r|e].
  - unfold updateErrors, updatedOrderOf.
    destruct (data_draftOrderUpdate r) as [[order errors]|];
      cbn [updated_userErrors updated_draftOrder].
    + rewrite someErrors_listOf.
      destruct (listOf errors) as [|e es]; unfold throw.
      * destruct order; eexists; (split; [|reflexivity]);
          repeat apply quiet_log; apply quiet_refl.
      * eexists; (split; [|reflexivity]); repeat apply quiet_log; apply quiet_refl.
    + eexists; (split; [|reflexivity]); repeat apply quiet_log; apply quiet_refl.
  - eexists; (split; [|reflexivity]); repeat apply quiet_log; apply quiet_refl.
Qed.

(** [toISOString] on time values whose date is known: the epoch, leap
    days, the turn of a century without one, and the ends of the range
    of four-digit years. *)
Example toISOString_samples :
  map JsDate.toISOString
    [0; 1709164800000; 951782400000; -1; 1730548800123; 4107542400000;
     -2208988800000; 253402300799999; 253402300800000]%Z
  = ["1970-01-01T00:00:00.000Z"; "2024-02-29T00:00:00.000Z"; "2000-02-29T00:00:00.000Z";
     "1969-12-31T23:59:59.999Z"; "2024-11-02T12:00:00.123Z"; "2100-03-01T00:00:00.000Z";
     "1900-01-01T00:00:00.000Z"; "9999-12-31T23:59:59.999Z";
     "+010000-01-01T00:00:00.000Z"]%string.
Proof. vm_compute. reflexivity. Qed.



(* ================================================================== *)
(** * The coordinator over the real file service *)
(* ================================================================== *)

(** X12.  The invoice workflow from end to end, with the file service
    of the repository behind the coordinator.  Let the renderer return
    a PDF, the platform stage the upload of the file name
    [vat_invoice_<number>.pdf], the upload be posted, the file be
    recorded, and the [k]-th poll be the first that ends anything and
    see the file ready with the URL [u].  Then the outcome rests on the
    update that attaches [u], stamped with the time after the [k] waits
    of one second: if it goes through the result is "completed" with
    [u], and if it is rejected or fails the result is "pdf_failed",
    although the file has been uploaded.  The file is recorded under
    "Quote PDF - " and the file name; the text "VAT Invoice <number>"
    that the coordinator passes as [alt] does not reach the platform. *)
Theorem generateAndAttachPdf_live (renderer : InvoiceData -> M Pdf) (answers : Backend)
    (post : Uploader) (draftOrder : DraftOrder) (payload : option CheckoutData)
    (w w1 : World) (platform : Platform) (pdf : Pdf) (target : StagedTarget)
    (file : GenericFile) (k : nat) (u : string) :
  renderer (mkInvoiceData draftOrder payload) w = (Returned pdf, w1) ->
  adminClient w1 = Some platform ->
  let filename := uploadName (clock w1) draftOrder in
  stagedAt answers filename target ->
  post (target_url target) (uploadForm target pdf) = Returned tt ->
  createdAs answers (defaultAlt filename) target file ->
  k < 10 ->
  (forall j, j < k -> pending (pollReply platform w1 (file_id file) j)) ->
  readyAt (pollReply platform w1 (file_id file) k) u ->
  let run :=
    generateAndAttachPdf (liveServices renderer answers post) draftOrder payload w in
  let attach :=
    answers (attachInput (id draftOrder) (Some u) (clock w1 + Z.of_nat k * 1000)) in
  (forall r, attach = Returned r -> updateErrors r = [] ->
             fst run = Returned (completed (Some u)))
  /\ (forall r e es, attach = Returned r -> updateErrors r = e :: es ->
                     fst run = Returned pdf_failed)
  /\ (forall e, attach = Thrown e -> fst run = Returned pdf_failed)
  /\ issued w1 (snd run) = repeat (Requested (NodeQuery (file_id file))) (k + 1).
Proof.
  intros Hrender Hadmin filename Hstaged Hpost Hcreated Hk Hpend Hready. cbv zeta.
  remember (generateAndAttachPdf (liveServices renderer answers post) draftOrder payload w)
    as run eqn:Hgen.
  rewrite generateAndAttachPdf_steps in Hgen. cbv zeta in Hgen.
  cbn [generateInvoicePdf liveServices] in Hgen. rewrite Hrender in Hgen.
  cbn [uploadPdf liveServices] in Hgen. fold filename in Hgen.
  assert (Hne : adminClient w1 <> None) by congruence.
  pose proof (uploadPdf_run answers post pdf filename
                (Some (uploadAlt (clock w1) draftOrder)) w1 Hne) as Hrun.
  cbv zeta in Hrun.
  rewrite (stagedAt_staging _ _ _ Hstaged), Hpost,
    (createdAs_creating _ _ _ _ Hcreated) in Hrun.
  destruct Hrun as (w3 & out & w4 & Q & Hwait & Hrun).
  assert (H3 : adminClient w3 = Some platform).
  { destruct Q as (A & _). congruence. }
  destruct (wait_ready platform (file_id file) 10 1000 w3 k u H3)
    as (w' & Hw & Ha & Hr & _ & Hc).
  { lia. }
  { intros j Hj. rewrite (quiet_pollReply platform w1 w3 _ _ Q). now apply Hpend. }
  { now rewrite (quiet_pollReply platform w1 w3 _ _ Q). }
  rewrite Hw in Hwait. injection Hwait as <- <-.
  unfold bind at 1 in Hgen. rewrite Hrun in Hgen. unfold ret at 1 in Hgen.
  cbn [attachFileToDraftOrder liveServices record_url withUrl generic_url] in Hgen.
  set (w5 := record (Logged info "PDF uploaded successfully and ready") w') in *.
  assert (H5 : adminClient w5 <> None).
  { unfold w5. cbn. rewrite Ha, H3. discriminate. }
  assert (C5 : clock w5 = (clock w1 + Z.of_nat k * 1000)%Z).
  { unfold w5. cbn. rewrite Hc. destruct Q as (_ & C & _). rewrite C. lia. }
  assert (R5 : requests w5
               = requests w1 ++ repeat (Requested (NodeQuery (file_id file))) (k + 1)).
  { unfold w5. rewrite requests_record, app_nil_r, Hr. destruct Q as (_ & _ & R & _).
    now rewrite R. }
  destruct (attachFileToDraftOrder_run answers (id draftOrder) (Some u) w5 H5)
    as (w6 & Q6 & Hattach).
  unfold bind at 1 in Hgen. rewrite Hattach, C5 in Hgen.
  assert (R6 : forall l t (o : Outcome PdfResult),
             issued w1 (snd (o, record (Logged l t) w6))
             = repeat (Requested (NodeQuery (file_id file))) (k + 1)).
  { intros l t o. apply issued_app. cbn [snd].
    rewrite requests_record, app_nil_r. destruct Q6 as (_ & _ & R & _).
    now rewrite R, R5. }
  destruct (answers (attachInput (id draftOrder) (Some u) (clock w1 + Z.of_nat k * 1000)))
    as [r|e].
  - destruct (updateErrors r) as [|e es] eqn:He; unfold ret in Hgen; subst run; split_all;
      try apply R6; intros; try reflexivity; try discriminate;
      match goal with
      | H : Returned _ = Returned _ |- _ => injection H as <-; congruence
      end.
  - subst run. split_all; try apply R6; intros; try reflexivity; discriminate.
Qed.

(** X12 for the draft order [#D7] on the platform that reports the
    file ready at the tenth poll. *)
Lemma generateAndAttachPdf_live_witness :
  fst (generateAndAttachPdf (liveServices sampleRenderer sampleBackend openUploader)
         (draftNamed (Some "#D7")) None (worldOf slowPlatform))
  = Returned (completed (Some "https://cdn.example/invoice.pdf")).
Proof.
  assert (Hstaged : stagedAt sampleBackend
                      (uploadName (clock (worldOf slowPlatform)) (draftNamed (Some "#D7")))
                      sampleTarget).
  { eexists. repeat split. }
  assert (Hcreated : createdAs sampleBackend
                       (defaultAlt (uploadName (clock (worldOf slowPlatform))
                                      (draftNamed (Some "#D7"))))
                       sampleTarget sampleRecord).
  { eexists. repeat split. }
  assert (Hpend : forall j, j < 9 ->
             pending (pollReply slowPlatform (worldOf slowPlatform) (file_id sampleRecord) j)).
  { intros j Hj. apply named_statuses_pending. right; left.
    unfold pollReply, slowPlatform. simpl.
    apply Nat.ltb_lt in Hj. rewrite Hj.
    do 2 eexists. repeat split. }
  assert (Hready : readyAt (pollReply slowPlatform (worldOf slowPlatform)
                              (file_id sampleRecord) 9)
                     "https://cdn.example/invoice.pdf").
  { do 2 eexists. repeat split. discriminate. }
  destruct (generateAndAttachPdf_live sampleRenderer sampleBackend openUploader
              (draftNamed (Some "#D7")) None (worldOf slowPlatform) (worldOf slowPlatform)
              slowPlatform samplePdf sampleTarget sampleRecord 9
              "https://cdn.example/invoice.pdf"
              eq_refl eq_refl Hstaged eq_refl Hcreated ltac:(lia) Hpend Hready)
    as (Hdone & _).
  eapply Hdone; reflexivity.
Defined.

(* ================================================================== *)
(** * The note, the invoice e-mail, the draft order by identifier *)
(* ================================================================== *)

(** X13.  [addPdfToNote] keeps an existing note: the note it sends is
    the existing one followed by an empty line and "Quote PDF: " with
    the URL.  User errors of the update are logged and swallowed: the
    call returns the draft order of the answer whatever user errors
    come with it.  Only a failed request makes it throw, with the error
    of the request as it is. *)
Theorem addPdfToNote_keeps_note (answers : Backend) (draftOrderId : option string)
    (pdfUrl existing : string) (w : World) :
  adminClient w <> None ->
  existing <> "" ->
  let run :=
    ShopifyFileService.addPdfToNote answers draftOrderId pdfUrl (Some existing) w in
  let update := answers (noteInput draftOrderId (existing ++ pdfNote pdfUrl)) in
  quiet w (snd run)
  /\ (forall r, update = Returned r -> fst run = Returned (updatedOrderOf r))
  /\ (forall e, update = Thrown e -> fst run = Thrown e).
Proof.
  intros Hadmin Hexisting. cbv zeta.
  unfold ShopifyFileService.addPdfToNote, bind, log, adminRequest.
  cbn [adminClient record].
  destruct (adminClient w) as [platform|] eqn:Ha; [|congruence].
  apply truthy_true_iff in Hexisting. rewrite Hexisting.
  fold (pdfNote pdfUrl). fold (noteInput draftOrderId (existing ++ pdfNote pdfUrl)%string).
  destruct (answers (noteInput draftOrderId (existing ++ pdfNote pdfUrl)%string)) as [r|e].
  - unfold updatedOrderOf.
    destruct (someErrors _); cbn [fst snd]; split_all;
      try (repeat apply quiet_log; apply quiet_refl);
      try discriminate; intros r' Hr; injection Hr as <-; reflexivity.
  - cbn [fst snd]. split_all.
    + repeat apply quiet_log; apply quiet_refl.
    + discriminate.
    + intros e' He. now injection He as <-.
Qed.

(** X13 on a platform that answers the update of the note with a user
    error: the call returns all the same. *)
Lemma addPdfToNote_keeps_note_witness :
  fst (ShopifyFileService.addPdfToNote strictBackend (Some "gid://shopify/DraftOrder/1")
         "https://cdn.example/invoice.pdf" (Some "Call before delivery") shopWorld)
  = Returned (Some (mkUpdatedDraftOrder (Some "gid://shopify/DraftOrder/1") None)).
Proof.
  destruct (addPdfToNote_keeps_note strictBackend (Some "gid://shopify/DraftOrder/1")
              "https://cdn.example/invoice.pdf" "Call before delivery" shopWorld
              ltac:(discriminate) ltac:(discriminate)) as (_ & H & _).
  exact (H _ eq_refl).
Defined.

(** Without a note to keep, the text is trimmed: the line feeds in
    front of it go. *)
Example addPdfToNote_first_note :
  trim (pdfNote "https://cdn.example/invoice.pdf")
  = "Quote PDF: https://cdn.example/invoice.pdf".
Proof. vm_compute. reflexivity. Qed.

(** ** Sending the invoice *)

Lemma sendInvoice_run (answers : Backend) (draftOrderId : option string)
    (emailOptions : option EmailInput) (w : World) :
  adminClient w <> None ->
  exists w',
    quiet w w'
    /\ sendInvoice answers draftOrderId emailOptions w
       = (match answers (DraftOrderInvoiceSend draftOrderId (emailSent emailOptions)) with
          | Thrown e => Thrown (sendFailure (message e))
          | Returned r =>
              match sendErrors r with
              | e :: es =>
                  Thrown (sendFailure ("Failed to send invoice: "
                                       ++ errorMessages (e :: es)))
              | [] =>
                  match sentOrderOf r with
                  | Some d => Returned d
                  | None =>
                      Thrown (sendFailure "Failed to send invoice: No draft order returned")
                  end
              end
          end, w').
Proof.
  intros Hadmin. unfold sendInvoice.
  destruct (adminClient w) as [platform|] eqn:Ha; [|congruence]. clear Hadmin.
  unfold try_catch, bind, log, adminRequest. cbn [adminClient record]. rewrite Ha.
  fold (emailSent emailOptions).
  destruct (answers (DraftOrderInvoiceSend draftOrderId (emailSent emailOptions))) as [r|e].
  - unfold sendErrors, sentOrderOf.
    destruct (data_draftOrderInvoiceSend r) as [[order errors]|];
      cbn [sent_userErrors sent_draftOrder].
    + rewrite someErrors_listOf.
      destruct (listOf errors) as [|e es]; unfold throw.
      * destruct order as [[i n s u]|]; eexists; (split; [|reflexivity]);
          repeat apply quiet_log; apply quiet_refl.
      * eexists; (split; [|reflexivity]); repeat apply quiet_log; apply quiet_refl.
    + eexists; (split; [|reflexivity]); repeat apply quiet_log; apply quiet_refl.
  - eexists; (split; [|reflexivity]); repeat apply quiet_log; apply quiet_refl.
Qed.



Lemma hasKeys_false (email : EmailInput) :
  hasKeys email = false
  <-> email_to email = None /\ email_from email = None /\ email_bcc email = None
      /\ email_subject email = None /\ email_customMessage email = None.
Proof.
  destruct email as [[t|] [f|] [b|] [s|] [m|]]; cbn; split;
    try discriminate; try tauto; intros (H1 & H2 & H3 & H4 & H5); discriminate.
Qed.

(** X15.  Which e-mail options reach the platform.  Of the options of
    a call, the recipient, the sender, the subject and the custom
    message are forwarded when they are non-empty and left out
    otherwise, and the hidden recipients when their list is not empty.
    The [email] variable itself is sent exactly when one of them is
    forwarded; a call without options, or with none that is set, sends
    the mutation without it. *)
Theorem sendInvoice_email_options (options : EmailInput) :
  emailSent None = None
  /\ (emailSent (Some options) = None
      <-> isEmpty (email_to options) /\ isEmpty (email_from options)
          /\ recipients (email_bcc options) = None
          /\ isEmpty (email_subject options) /\ isEmpty (email_customMessage options))
  /\ (forall email,
         emailSent (Some options) = Some email ->
         forwardedAs (email_to options) (email_to email)
         /\ forwardedAs (email_from options) (email_from email)
         /\ email_bcc email = recipients (email_bcc options)
         /\ forwardedAs (email_subject options) (email_subject email)
         /\ forwardedAs (email_customMessage options) (email_customMessage email)).
Proof.
  split_all.
  - reflexivity.
  - unfold emailSent. destruct (hasKeys (emailOf options)) eqn:Hkeys.
    + split; [discriminate|]. intros (H1 & H2 & H3 & H4 & H5).
      assert (Hno : hasKeys (emailOf options) = false).
      { apply hasKeys_false. unfold emailOf; cbn.
        fold (recipients (email_bcc options)).
        now rewrite (when_set_isEmpty _ H1), (when_set_isEmpty _ H2),
          (when_set_isEmpty _ H4), (when_set_isEmpty _ H5), H3. }
      congruence.
    + split; [|reflexivity]. intros _.
      apply hasKeys_false in Hkeys. unfold emailOf in Hkeys; cbn in Hkeys.
      fold (recipients (email_bcc options)) in Hkeys.
      destruct Hkeys as (H1 & H2 & H3 & H4 & H5).
      assert (Hempty : forall v, when_set v = None -> isEmpty v).
      { intros v Hv. apply isEmpty_truthy. unfold when_set in Hv.
        destruct (truthy_opt v) eqn:E; [|reflexivity].
        rewrite Hv in E. discriminate E. }
      split_all; auto.
  - intros email Hsent. unfold emailSent in Hsent.
    destruct (hasKeys (emailOf options)); [|discriminate].
    injection Hsent as <-. unfold emailOf; cbn.
    fold (recipients (email_bcc options)).
    split_all; try reflexivity; apply when_set_sentAs.
Qed.

(** X15 for options that set a subject, an empty recipient and an
    empty list of hidden recipients: the subject alone is sent. *)
Lemma sendInvoice_email_options_witness :
  exists email,
    emailSent (Some subjectOnly) = Some email
    /\ email_subject email = Some "Your quote"
    /\ email_to email = None
    /\ email_bcc email = None.
Proof.
  exists (emailOf subjectOnly). split; [reflexivity|].
  destruct (sendInvoice_email_options subjectOnly) as (_ & _ & H).
  destruct (H (emailOf subjectOnly) eq_refl) as (Hto & _ & Hbcc & Hsubject & _).
  split_all.
  - apply Hsubject. exists "Your quote". split; [reflexivity|discriminate].
  - apply Hto. right. reflexivity.
  - exact Hbcc.
Defined.

(* ================================================================== *)
(** * The live cart *)
(* ================================================================== *)

Lemma fetchCartByToken_run (client : Storefront) (token : string) (w : World) :
  token <> "" ->
  exists w',
    quiet w w'
    /\ fetchCartByToken (Some client) (Some token) w
       = (match client (cartIdOf token) with
          | Returned cart => Returned cart
          | Thrown e => Thrown (Error ("Failed to fetch cart: " ++ message e))
          end, w').
Proof.
  intros Htoken. unfold fetchCartByToken.
  rewrite (when_set_nonEmpty token Htoken).
  unfold try_catch, bind, log, storefrontRequest. fold (cartIdOf token).
  destruct (client (cartIdOf token)) as [[cart|]|e];
    eexists; (split; [|reflexivity]); repeat apply quiet_log; apply quiet_refl.
Qed.



(** ** The transformed cart *)

Lemma or_str_filledFrom (v : option string) : filledFrom v (Some (or_str v "")).
Proof.
  split.
  - intros (s & -> & Hs). f_equal. now apply or_str_nonEmpty.
  - intros H. f_equal. now apply or_str_isEmpty.
Qed.

Lemma truthy_or_str (v : option string) : truthy_opt (Some (or_str v "")) = truthy_opt v.
Proof. destruct v as [[|c s]|]; reflexivity. Qed.

(** X17.  What [transformCartToPayload] makes of a cart.  There is one
    line per line of the cart, in the same order, with the identifier
    of the variant, the quantity and the attributes of that line, and
    the price read by [parseFloat].  All twelve properties of the
    shipping address are strings: the property of the delivery address
    when that is non-empty, the empty string otherwise and for a cart
    without a delivery address; so the address has address data
    exactly when the delivery address has.  The discount codes are
    those the cart marks applicable, in their order.  The e-mail is the
    customer's own when that is non-empty and the buyer identity's
    otherwise, and an empty note counts as none. *)
Theorem transformCartToPayload_shape (cart : Cart) :
  let result := transformCartToPayload cart in
  let delivery := match deliveryAddress cart with Some a => a | None => emptyAddress end in
  List.length (transformed_cartLines result) = List.length (cart_lines cart)
  /\ (forall i node,
         nth_error (cart_lines cart) i = Some node ->
         exists line,
           nth_error (transformed_cartLines result) i = Some line
           /\ quote_variantId line = merchandise_id (cartLine_merchandise node)
           /\ quote_quantity line = cartLine_quantity node
           /\ quote_properties line = cartLine_attributes node
           /\ quote_price line
              = parseFloat (money_amount (merchandise_price (cartLine_merchandise node))))
  /\ Forall (fun field =>
               filledFrom (snd field delivery)
                 (snd field (transformed_shippingAddress result)))
            address_fields
  /\ hasAddressData (transformed_shippingAddress result) = hasAddressData delivery
  /\ pricing_discountCodes (transformed_pricing result)
     = map discount_code (filter applicable (discountCodes cart))
  /\ (forall code,
         In code (pricing_discountCodes (transformed_pricing result))
         <-> exists entry,
               In entry (discountCodes cart)
               /\ applicable entry = true /\ discount_code entry = code)
  /\ (isEmpty (cart_note cart) -> transformed_note result = None)
  /\ (nonEmpty (cart_note cart) -> transformed_note result = cart_note cart)
  /\ (let own :=
        chain (match buyerIdentity cart with
               | Some identity => identity_customer identity
               | None => None
               end) buyer_email in
      (nonEmpty own -> customer_email (transformed_customer result) = own)
      /\ (isEmpty own ->
          customer_email (transformed_customer result)
          = chain (buyerIdentity cart) identity_email)).
Proof.
  cbv zeta. split_all.
  - unfold transformCartToPayload; cbn [transformed_cartLines]. apply length_map.
  - intros i node Hnode. exists (transformLine node).
    unfold transformCartToPayload; cbn [transformed_cartLines].
    split; [now apply map_nth_error|].
    unfold transformLine; cbn. split_all; try reflexivity.
    induction (cartLine_attributes node) as [|[k v] l IH]; [reflexivity|].
    cbn. now rewrite IH.
  - unfold address_fields, transformCartToPayload; cbn [transformed_shippingAddress].
    repeat (apply Forall_cons; [cbn [snd firstName lastName address1 address2 city province
                                      provinceCode country countryCode zip phone company];
                                apply or_str_filledFrom|]).
    apply Forall_nil.
  - unfold hasAddressData, transformCartToPayload;
      cbn [transformed_shippingAddress address1 city country countryCode].
    now rewrite !truthy_or_str.
  - reflexivity.
  - intros code. unfold transformCartToPayload;
      cbn [transformed_pricing pricing_discountCodes].
    rewrite in_map_iff. split.
    + intros (entry & Hcode & Hin). apply filter_In in Hin. exists entry. tauto.
    + intros (entry & Hin & Happ & Hcode). exists entry. rewrite filter_In. tauto.
  - intros H. unfold transformCartToPayload; cbn [transformed_note].
    now apply when_set_isEmpty.
  - intros (s & Hs & Hne). unfold transformCartToPayload; cbn [transformed_note].
    rewrite Hs. now apply when_set_nonEmpty.
  - unfold transformCartToPayload; cbn [transformed_customer customer_email]. unfold or_opt.
    intros H. apply nonEmpty_truthy in H. now rewrite H.
  - unfold transformCartToPayload; cbn [transformed_customer customer_email]. unfold or_opt.
    intros H. apply isEmpty_truthy in H. now rewrite H.
Qed.

(** X17 on the sample cart: three bolts of variant 77, the applicable
    code alone, a shipping address that has the street and an empty
    city, the e-mail of the buyer identity. *)
Lemma transformCartToPayload_shape_witness :
  map cartLineOf (transformed_cartLines (transformCartToPayload sampleCart))
  = [mkCartLine (Some "gid://shopify/ProductVariant/77") (Some 3%Z)
       (Some [mkProperty (Some "engraving") (Some "ES")])]
  /\ pricing_discountCodes (transformed_pricing (transformCartToPayload sampleCart))
     = ["B2B10"]
  /\ city (transformed_shippingAddress (transformCartToPayload sampleCart)) = Some ""
  /\ customer_email (transformed_customer (transformCartToPayload sampleCart))
     = Some "mari@example.com".
Proof.
  destruct (transformCartToPayload_shape sampleCart)
    as (_ & Hline & Haddress & _ & Hcodes & _ & _ & _ & Hemail).
  split_all.
  - destruct (Hline 0 _ eq_refl) as (line & Hnth & Hv & Hq & Hp & _).
    destruct (transformed_cartLines (transformCartToPayload sampleCart)) as [|l [|l2 ls]] eqn:E;
      try discriminate E.
    injection Hnth as ->. unfold cartLineOf. cbn [map]. now rewrite Hv, Hq, Hp.
  - exact Hcodes.
  - rewrite Forall_forall in Haddress.
    destruct (Haddress ("city", city)) as (_ & H); [simpl; tauto|].
    apply H. right. reflexivity.
  - apply (proj2 Hemail). left. reflexivity.
Defined.


(* ================================================================== *)
(** * Processing the checkout data *)
(* ================================================================== *)

(** The call ends as [createDraftOrder] ends on the data it settles
    on, in a world that differs by log lines. *)
Lemma processCheckoutData_run (storefrontClient : option Storefront)
    (payload : CheckoutData) (w : World) :
  exists w1,
    quiet w w1
    /\ processCheckoutData storefrontClient payload w
       = createDraftOrder (settledData storefrontClient payload) w1.
Proof.
  unfold processCheckoutData, settledData, liveCart.
  unfold bind at 1. unfold log at 1. unfold bind at 1.
  destruct (truthy_opt (cartToken payload)) eqn:Htoken.
  - assert (Hsome : exists token, cartToken payload = Some token /\ token <> "").
    { apply nonEmpty_truthy in Htoken. exact Htoken. }
    destruct Hsome as (token & Hc & Hne).
    rewrite Hc, (when_set_nonEmpty token Hne).
    unfold bind at 1. unfold log at 1. unfold try_catch. unfold bind at 1.
    destruct storefrontClient as [client|].
    + destruct (fetchCartByToken_run client token
                  (record (Logged info "Cart token provided, fetching cart data")
                     (record (Logged info "Processing checkout data") w)) Hne)
        as (w' & Q & ->).
      destruct (client (cartIdOf token)) as [[cart|]|e];
        eexists; (split; [|reflexivity]);
        repeat apply quiet_log;
        (eapply quiet_trans; [|exact Q]); repeat apply quiet_log; apply quiet_refl.
    + eexists; (split; [|reflexivity]); repeat apply quiet_log; apply quiet_refl.
  - unfold when_set. rewrite Htoken.
    destruct storefrontClient;
      eexists; (split; [|reflexivity]); repeat apply quiet_log; apply quiet_refl.
Qed.

(** X18.  The cart step never fails the call.  When the payload has no
    cart token, when there is no storefront client, when the request
    to the storefront fails and when the storefront does not know the
    cart, [processCheckoutData] does what [createDraftOrder] does on
    the payload as it came: the same outcome and the same requests,
    after log lines only. *)
Theorem processCheckoutData_falls_back (storefrontClient : option Storefront)
    (payload : CheckoutData) (w : World) :
  isEmpty (cartToken payload)
  \/ storefrontClient = None
  \/ (exists client token,
         storefrontClient = Some client
         /\ cartToken payload = Some token
         /\ (client (cartIdOf token) = Returned None
             \/ exists e, client (cartIdOf token) = Thrown e)) ->
  exists w1,
    quiet w w1
    /\ processCheckoutData storefrontClient payload w = createDraftOrder payload w1.
Proof.
  intros H.
  destruct (processCheckoutData_run storefrontClient payload w) as (w1 & Q & ->).
  exists w1. split; [exact Q|]. f_equal.
  unfold settledData, liveCart.
  destruct H as [Hempty | [-> | (client & token & -> & Htoken & Hcart)]].
  - rewrite (when_set_isEmpty _ Hempty). now destruct storefrontClient.
  - reflexivity.
  - rewrite Htoken. destruct (when_set (Some token)) as [t|] eqn:Ht; [|reflexivity].
    apply when_set_some in Ht. destruct Ht as (Ht & _). injection Ht as <-.
    destruct Hcart as [-> | (e & ->)]; reflexivity.
Qed.

(** X18 with a storefront whose requests fail. *)
Lemma processCheckoutData_falls_back_witness :
  exists w1,
    quiet shopWorld w1
    /\ processCheckoutData (Some downStorefront) tokenOrder shopWorld
       = createDraftOrder tokenOrder w1.
Proof.
  apply (processCheckoutData_falls_back (Some downStorefront) tokenOrder shopWorld).
  right. right. exists downStorefront, "c1-abc".
  split; [reflexivity|]. split; [reflexivity|]. right. now eexists.
Defined.

Lemma buildLineItem_live (node : CartLineNode) :
  buildLineItem (cartLineOf (transformLine node))
  = {| input_variantId := merchandise_id (cartLine_merchandise node);
       input_quantity := Some (cartLine_quantity node);
       customAttributes :=
         match cartLine_attributes node with
         | [] => None
         | attributes => Some attributes
         end |}.
Proof.
  assert (Hid : forall l : list Property,
             map (fun p => mkProperty (prop_key p) (prop_value p)) l = l).
  { induction l as [|[k v] l IH]; [reflexivity|]. cbn. now rewrite IH. }
  unfold buildLineItem, cartLineOf, transformLine;
    cbn [line_variantId line_quantity line_properties quote_variantId quote_quantity
         quote_properties].
  rewrite Hid. destruct (cartLine_attributes node) as [|p ps]; [reflexivity|].
  now rewrite Hid.
Qed.

(** X19.  A live cart supersedes the payload.  When the payload has a
    cart token and the storefront returns the cart, the draft order is
    created from the cart: [processCheckoutData] does what
    [createDraftOrder] does on the merged data.  The line items that
    are sent are those of the cart, one per line and in its order, with
    the variant, the quantity and the attributes of the line; the lines
    of the payload are not used, so that a cart that has been emptied
    fails the call with "No line items provided" whatever the payload
    carries.  The shipping address is the cart's delivery address with
    gaps filled from the payload; the billing address is the payload's,
    or without one the delivery address of the cart alone.  The
    customer is the cart's when that has an e-mail and the payload's
    otherwise, the note the cart's when it is non-empty; the purchasing
    entity and the token stay the payload's. *)
Theorem processCheckoutData_live_cart (client : Storefront) (payload : CheckoutData)
    (token : string) (cart : Cart) (w : World) :
  cartToken payload = Some token ->
  token <> "" ->
  client (cartIdOf token) = Returned (Some cart) ->
  let live := transformCartToPayload cart in
  let data := mergeCart payload live in
  (exists w1,
      quiet w w1
      /\ processCheckoutData (Some client) payload w = createDraftOrder data w1)
  /\ (forall entity,
         input_lineItems (draftOrderInput data entity)
         = map (fun node =>
                  {| input_variantId := merchandise_id (cartLine_merchandise node);
                     input_quantity := Some (cartLine_quantity node);
                     customAttributes :=
                       match cartLine_attributes node with
                       | [] => None
                       | attributes => Some attributes
                       end |})
             (cart_lines cart))
  /\ (cart_lines cart = [] ->
      adminClient w <> None ->
      fst (processCheckoutData (Some client) payload w)
      = Thrown (Error "No line items provided"))
  /\ data_shippingAddress data
     = Some (mergeAddress (transformed_shippingAddress live) (data_shippingAddress payload))
  /\ (forall billing, data_billingAddress payload = Some billing ->
                      data_billingAddress data = Some billing)
  /\ (data_billingAddress payload = None ->
      data_billingAddress data = Some (transformed_shippingAddress live))
  /\ (nonEmpty (customer_email (transformed_customer live)) ->
      data_customer data = Some (transformed_customer live))
  /\ (isEmpty (customer_email (transformed_customer live)) ->
      data_customer data = data_customer payload)
  /\ (nonEmpty (cart_note cart) -> note data = cart_note cart)
  /\ (isEmpty (cart_note cart) -> note data = note payload)
  /\ data_purchasingEntity data = data_purchasingEntity payload
  /\ cartToken data = cartToken payload.
Proof.
  intros Htoken Hne Hcart. cbv zeta.
  assert (Hsettled : settledData (Some client) payload
                     = mergeCart payload (transformCartToPayload cart)).
  { unfold settledData, liveCart.
    now rewrite Htoken, (when_set_nonEmpty token Hne), Hcart. }
  destruct (processCheckoutData_run (Some client) payload w) as (w1 & Q & Hrun).
  rewrite Hsettled in Hrun.
  split_all.
  - exists w1. split; [exact Q|exact Hrun].
  - intros entity. unfold draftOrderInput, mergeCart, transformCartToPayload;
      cbn [input_lineItems cartLines transformed_cartLines].
    rewrite !map_map. apply map_ext. intros node. apply buildLineItem_live.
  - intros Hlines Hadmin. rewrite Hrun. unfold createDraftOrder.
    destruct Q as (A & _). rewrite A.
    destruct (adminClient w); [|congruence].
    unfold mergeCart, transformCartToPayload; cbn [cartLines transformed_cartLines].
    now rewrite Hlines.
  - reflexivity.
  - intros billing Hb. unfold mergeCart; cbn [data_billingAddress]. now rewrite Hb.
  - intros Hb. unfold mergeCart; cbn [data_billingAddress]. now rewrite Hb.
  - intros H. apply nonEmpty_truthy in H. unfold mergeCart; cbn [data_customer].
    now rewrite H.
  - intros H. apply isEmpty_truthy in H. unfold mergeCart; cbn [data_customer].
    now rewrite H.
  - intros (s & Hs & Hsne). unfold mergeCart, transformCartToPayload, or_opt;
      cbn [note transformed_note].
    rewrite Hs, (when_set_nonEmpty s Hsne). cbn.
    apply truthy_true_iff in Hsne. now rewrite Hsne.
  - intros H. unfold mergeCart, transformCartToPayload, or_opt; cbn [note transformed_note].
    now rewrite (when_set_isEmpty _ H).
  - reflexivity.
  - reflexivity.
Qed.

(** X19 on a cart that has been emptied: the payload has a line, and
    the call fails for want of line items. *)
Lemma processCheckoutData_live_cart_witness :
  fst (processCheckoutData (Some emptiedStorefront) tokenOrder shopWorld)
  = Thrown (Error "No line items provided").
Proof.
  destruct (processCheckoutData_live_cart emptiedStorefront tokenOrder "c1-abc" emptiedCart
              shopWorld eq_refl ltac:(discriminate) eq_refl) as (_ & _ & H & _).
  apply H; [reflexivity|discriminate].
Defined.

(* ================================================================== *)
(** * The draft order by identifier *)
(* ================================================================== *)

Lemma fetchDraftOrderById_run (answers : Backend) (draftOrderId : string) (w : World) :
  adminClient w <> None ->
  exists w',
    quiet w w'
    /\ fetchDraftOrderById answers draftOrderId w
       = (match answers (DraftOrderById draftOrderId) with
          | Thrown e => Thrown (fetchFailure (message e))
          | Returned r =>
              match data_draftOrder r with
              | Some d => Returned (formatDraftOrderResponse d)
              | None => Thrown (fetchFailure ("Draft order not found: " ++ draftOrderId))
              end
          end, w').
Proof.
  intros Hadmin. unfold fetchDraftOrderById.
  destruct (adminClient w) as [platform|] eqn:Ha; [|congruence]. clear Hadmin.
  unfold try_catch, bind, log, adminRequest. cbn [adminClient record]. rewrite Ha.
  destruct (answers (DraftOrderById draftOrderId)) as [r|e].
  - destruct (data_draftOrder r);
      eexists; (split; [|reflexivity]); repeat apply quiet_log; apply quiet_refl.
  - eexists; (split; [|reflexivity]); repeat apply quiet_log; apply quiet_refl.
Qed.



(* ================================================================== *)
(** * The routes *)
(* ================================================================== *)

Lemma prefix_empty (s : string) : String.prefix "" s = true.
Proof. destruct s; reflexivity. Qed.

Lemma prefix_app (needle a b : string) :
  String.prefix needle a = true -> String.prefix needle (a ++ b) = true.
Proof.
  revert a. induction needle as [|c needle IH]; intros a H; [apply prefix_empty|].
  destruct a as [|d a]; [discriminate|]. cbn in *.
  destruct (ascii_dec c d); [now apply IH|discriminate].
Qed.

Lemma includes_app_l (needle a b : string) :
  includes needle a = true -> includes needle (a ++ b) = true.
Proof.
  induction a as [|c a IH]; intros H.
  - cbn in H. rewrite orb_false_r in H.
    destruct needle; [|discriminate].
    destruct b; cbn; [reflexivity|]. reflexivity.
  - cbn [includes] in H. apply orb_true_iff in H.
    change (String c a ++ b)%string with (String c (a ++ b)). cbn [includes].
    apply orb_true_iff. destruct H as [H | H].
    + left. now apply (prefix_app needle (String c a) b).
    + right. now apply IH.
Qed.

(** The prefixes the services put in front of a message do not
    contain the words the routes look for, whole or in part. *)
Lemma createStatus_wrapped (m : string) :
  createStatus ("Failed to create draft order: " ++ m) = createStatus m.
Proof. reflexivity. Qed.

Lemma fetchStatus_wrapped (m : string) :
  fetchStatus ("Failed to fetch draft order: " ++ m) = fetchStatus m.
Proof. reflexivity. Qed.

Lemma sendStatus_wrapped (m : string) :
  sendStatus ("Failed to send invoice: " ++ m) = sendStatus m.
Proof. reflexivity. Qed.

Lemma createStatus_refused (reason : string) :
  createStatus ("Draft order creation failed: " ++ reason) = 400%Z.
Proof.
  unfold createStatus.
  assert (H : includes "Draft order creation failed"
                ("Draft order creation failed: " ++ reason) = true).
  { apply (includes_app_l _ "Draft order creation failed: " reason). reflexivity. }
  rewrite H, orb_true_r. reflexivity.
Qed.

Lemma fetchStatus_not_found (draftOrderId : string) :
  fetchStatus ("Draft order not found: " ++ draftOrderId) = 400%Z.
Proof.
  unfold fetchStatus.
  assert (H : includes "not found" ("Draft order not found: " ++ draftOrderId) = true).
  { apply (includes_app_l _ "Draft order not found: " draftOrderId). reflexivity. }
  now rewrite H.
Qed.

(** ** The routes that create a draft order *)

(** How [processCheckoutData] ends, by the data it settles on and the
    answer to the mutation. *)
Lemma processCheckoutData_cases (storefrontClient : option Storefront)
    (payload : CheckoutData) (w : World) :
  let data := settledData storefrontClient payload in
  let out := fst (processCheckoutData storefrontClient payload w) in
  (adminClient w = None -> out = Thrown (Error "Admin API client not configured"))
  /\ (adminClient w <> None ->
      cartLines data = None \/ cartLines data = Some [] ->
      out = Thrown (Error "No line items provided"))
  /\ (forall platform line lines,
         adminClient w = Some platform ->
         cartLines data = Some (line :: lines) ->
         exists entity (lookups : list Event),
           let reply :=
             platform (List.length (requests w) + List.length lookups)
               (DraftOrderCreate (draftOrderInput data entity)) in
           (forall e, reply = Thrown e -> out = Thrown (createFailure (message e)))
           /\ (forall r e es,
                  reply = Returned r ->
                  userErrorsOf r = e :: es ->
                  out = Thrown (createFailure
                                  ("Draft order creation failed: "
                                   ++ join (map userError_message (e :: es)))%string))
           /\ (forall r,
                  reply = Returned r ->
                  userErrorsOf r = [] ->
                  draftOrderOf r = None ->
                  out = Thrown (createFailure
                                  "Draft order creation failed: No draft order returned"))
           /\ (forall r d,
                  reply = Returned r ->
                  userErrorsOf r = [] ->
                  draftOrderOf r = Some d ->
                  out = Returned (formatDraftOrderResponse d))).
Proof.
  cbv zeta.
  destruct (processCheckoutData_run storefrontClient payload w) as (w1 & Q & ->).
  destruct Q as (A & _ & R & _).
  split_all.
  - intros Hadmin. unfold createDraftOrder. now rewrite A, Hadmin.
  - intros Hadmin Hlines. unfold createDraftOrder. rewrite A.
    destruct (adminClient w); [|congruence].
    destruct Hlines as [-> | ->]; reflexivity.
  - intros platform line lines Hadmin Hlines.
    rewrite <- A in Hadmin.
    destruct (createDraftOrder_cases (settledData storefrontClient payload) w1 platform
                line lines Hadmin Hlines)
      as (entity & lookups & _ & _ & H1 & H2 & H3 & H4).
    exists entity, lookups. rewrite <- R. split_all; assumption.
Qed.





Lemma draftOrders_run (services : Registry) (api : DraftOrderApi)
    (payload : CheckoutData) (w : World) :
  services_draftOrder services = Some api ->
  draftOrders (Some services) payload w
  = match api_processCheckoutData api payload
            (record (Logged info "Creating draft order from checkout data") w) with
    | (Returned d, w1) =>
        (Returned (replied 201 (OrderSuccess d "Draft order created successfully")), w1)
    | (Thrown e, w1) =>
        (Returned (replied (createStatus (message e))
                     (OrderError (message e)
                        (if createStatus (message e) =? 400
                         then "Invalid request data"
                         else "Failed to create draft order")%Z)),
         record (Logged error "Failed to create draft order") w1)
    end.
Proof.
  intros Hapi. unfold draftOrders, draftOrderService, try_catch, bind, log. rewrite Hapi.
  destruct (api_processCheckoutData api payload _) as [[d|e] w1]; [reflexivity|].
  unfold createStatus, replied.
  destruct (includes "No line items" (message e)
            || includes "Draft order creation failed" (message e)); reflexivity.
Qed.

(** X22.  What [POST /draft-orders] answers, with the services of the
    repository behind it.  The handler never throws.  It answers 500
    without a draft order service or without an admin client, 400 with
    "Invalid request data" when the data the order is created from have
    no line items and when the platform answers the mutation with user
    errors or without a draft order, the status that the message of the
    error calls for when the request of the mutation fails, and 201
    with the projected draft order when it is created. *)
Theorem draftOrders_replies (renderer : InvoiceData -> M Pdf)
    (storefrontClient : option Storefront) (answers : Backend) (post : Uploader)
    (payload : CheckoutData) (w : World) :
  let registry := liveRegistry renderer storefrontClient answers post in
  let out := fst (draftOrders (Some registry) payload w) in
  let data := settledData storefrontClient payload in
  let invalid m := out = Returned (replied 400 (OrderError m "Invalid request data")) in
  draftOrders None payload w
  = (Returned (replied 500 (OrderError unconfigured
                              "Please configure Shopify API credentials")), w)
  /\ (adminClient w = None ->
      out = Returned (replied 500 (OrderError "Admin API client not configured"
                                     "Failed to create draft order")))
  /\ (adminClient w <> None ->
      cartLines data = None \/ cartLines data = Some [] ->
      invalid "No line items provided")
  /\ (forall platform line lines,
         adminClient w = Some platform ->
         cartLines data = Some (line :: lines) ->
         exists entity (lookups : list Event),
           let reply :=
             platform (List.length (requests w) + List.length lookups)
               (DraftOrderCreate (draftOrderInput data entity)) in
           (forall e, reply = Thrown e ->
                      exists text,
                        out = Returned (replied (createStatus (message e))
                                          (OrderError ("Failed to create draft order: "
                                                       ++ message e)%string text)))
           /\ (forall r e es,
                  reply = Returned r ->
                  userErrorsOf r = e :: es ->
                  invalid
                    ("Failed to create draft order: Draft order creation failed: "
                     ++ join (map userError_message (e :: es)))%string)
           /\ (forall r,
                  reply = Returned r ->
                  userErrorsOf r = [] ->
                  draftOrderOf r = None ->
                  invalid
                    ("Failed to create draft order: Draft order creation failed: "
                     ++ "No draft order returned")%string)
           /\ (forall r d,
                  reply = Returned r ->
                  userErrorsOf r = [] ->
                  draftOrderOf r = Some d ->
                  out = Returned (replied 201
                                    (OrderSuccess (formatDraftOrderResponse d)
                                       "Draft order created successfully")))).
Proof.
  cbv zeta. split; [reflexivity|].
  set (started := record (Logged info "Creating draft order from checkout data") w).
  pose proof (draftOrders_run (liveRegistry renderer storefrontClient answers post)
                _ payload w eq_refl) as Hrun.
  cbn [api_processCheckoutData] in Hrun. fold started in Hrun.
  destruct (processCheckoutData_cases storefrontClient payload started)
    as (Hnone & Hempty & Hsent).
  assert (Hthrown : forall e,
             fst (processCheckoutData storefrontClient payload started) = Thrown e ->
             fst (draftOrders (Some (liveRegistry renderer storefrontClient answers post))
                    payload w)
             = Returned (replied (createStatus (message e))
                           (OrderError (message e)
                              (if createStatus (message e) =? 400
                               then "Invalid request data"
                               else "Failed to create draft order")%Z))).
  { intros e He. rewrite Hrun.
    destruct (processCheckoutData storefrontClient payload started) as [[d|e'] w1];
      cbn [fst] in He; [discriminate|]. now injection He as ->. }
  split_all.
  - intros Hadmin. apply (Hthrown _ (Hnone Hadmin)).
  - intros Hadmin Hlines. apply (Hthrown _ (Hempty Hadmin Hlines)).
  - intros platform line lines Hadmin Hlines.
    destruct (Hsent platform line lines Hadmin Hlines)
      as (entity & lookups & H1 & H2 & H3 & H4).
    exists entity, lookups.
    change (requests started) with (requests (record (Logged info
              "Creating draft order from checkout data") w)) in *.
    rewrite requests_record, app_nil_r in *.
    split_all.
    + intros e He. rewrite (Hthrown _ (H1 e He)).
      cbn [message createFailure]. rewrite createStatus_wrapped. now eexists.
    + intros r e es Hr He. rewrite (Hthrown _ (H2 r e es Hr He)).
      cbn [message createFailure]. now rewrite createStatus_wrapped, createStatus_refused.
    + intros r Hr He Hd. rewrite (Hthrown _ (H3 r Hr He Hd)). reflexivity.
    + intros r d Hr He Hd. specialize (H4 r d Hr He Hd). rewrite Hrun.
      destruct (processCheckoutData storefrontClient payload started) as [[d'|e'] w1];
        cbn [fst] in H4; [|discriminate].
      now injection H4 as ->.
Qed.

(** X22 on a platform that turns every order down. *)
Lemma draftOrders_replies_witness :
  fst (draftOrders (Some (liveRegistry sampleRenderer None sampleBackend openUploader))
         oneLine (worldOf refusingPlatform))
  = Returned (replied 400
                (OrderError ("Failed to create draft order: Draft order creation failed: "
                             ++ "Email is invalid, Variant is gone")
                   "Invalid request data")).
Proof.
  destruct (draftOrders_replies sampleRenderer None sampleBackend openUploader oneLine
              (worldOf refusingPlatform)) as (_ & _ & _ & Hsent).
  destruct (Hsent refusingPlatform _ _ eq_refl eq_refl)
    as (entity & lookups & _ & Herrors & _).
  exact (Herrors _ (mkUserError "Email is invalid") [mkUserError "Variant is gone"]
           eq_refl eq_refl).
Defined.

(** ** The route that works on an existing draft order *)

Lemma generateAndAttachPdf_returns (services : Services) (draftOrder : DraftOrder)
    (payload : option CheckoutData) (w : World) :
  exists result w',
    generateAndAttachPdf services draftOrder payload w = (Returned result, w')
    /\ (result = pdf_failed \/ exists url, result = completed url).
Proof.
  rewrite generateAndAttachPdf_steps. cbv zeta.
  destruct (generateInvoicePdf services _ w) as [[pdf|e] w1];
    [|do 2 eexists; split; [reflexivity|now left]].
  destruct (uploadPdf services pdf _ _ w1) as [[file|e] w2];
    [|do 2 eexists; split; [reflexivity|now left]].
  destruct (attachFileToDraftOrder services _ _ w2) as [[u|e] w3];
    do 2 eexists; (split; [reflexivity|]); [right; now eexists|now left].
Qed.

Lemma printQuoteFromDraft_run (services : Registry) (api : DraftOrderApi)
    (generateAndAttach : DraftOrder -> option CheckoutData -> M PdfResult)
    (draftOrderId : string) (w : World) :
  services_draftOrder services = Some api ->
  services_invoicePdf services = Some generateAndAttach ->
  let failed e w' :=
    (Returned (replied (fetchStatus (message e)) (QuoteError (message e))),
     record (Logged error "Failed to generate PDF from draft order") w') in
  printQuoteFromDraft (Some services) draftOrderId w
  = match api_fetchDraftOrderById api draftOrderId
            (record (Logged info "Generating PDF for existing draft order") w) with
    | (Returned d, w1) =>
        match generateAndAttach d None w1 with
        | (Returned result, w2) => (Returned (replied 201 (QuoteResult result)), w2)
        | (Thrown e, w2) => failed e w2
        end
    | (Thrown e, w1) => failed e w1
    end.
Proof.
  intros Hapi Hpdf. cbv zeta. unfold printQuoteFromDraft, try_catch, bind, log.
  destruct services as [a p]. cbn in Hapi, Hpdf. subst a p.
  assert (Hfail : forall (e : exn) (w' : World),
             (if includes "not found" (message e) || includes "Draft order" (message e)
              then ret {| reply_code := 400; reply_body := QuoteError (message e) |}
              else ret {| reply_code := 500; reply_body := QuoteError (message e) |})
               (record (Logged error "Failed to generate PDF from draft order") w')
             = (Returned (replied (fetchStatus (message e)) (QuoteError (message e))),
                record (Logged error "Failed to generate PDF from draft order") w')).
  { intros e w'. unfold fetchStatus, replied.
    destruct (includes "not found" (message e) || includes "Draft order" (message e));
      reflexivity. }
  destruct (api_fetchDraftOrderById api draftOrderId _) as [[d|e] w1]; [|apply Hfail].
  destruct (generateAndAttach d None w1) as [[result|e] w2]; [reflexivity|apply Hfail].
Qed.

(** X23.  What [POST /print-quote/from-draft] answers, with the
    services of the repository behind it.  The handler never throws.
    Without a registry of services it answers 500; without an admin
    client 500 with "Admin API client not configured"; for an
    identifier the platform does not know 400 with "Failed to fetch
    draft order: Draft order not found: " and the identifier; when the
    request for the draft order fails, the status the message of that
    error calls for.  Once the draft order is found it answers 201 with
    the result of the invoice workflow, which is "completed" with a URL
    or "pdf_failed": a PDF that could not be made is answered 201 as
    well. *)
Theorem printQuoteFromDraft_replies (renderer : InvoiceData -> M Pdf)
    (storefrontClient : option Storefront) (answers : Backend) (post : Uploader)
    (draftOrderId : string) (w : World) :
  let registry := liveRegistry renderer storefrontClient answers post in
  let out := fst (printQuoteFromDraft (Some registry) draftOrderId w) in
  let found := answers (DraftOrderById draftOrderId) in
  printQuoteFromDraft None draftOrderId w
  = (Returned (replied 500 (QuoteError unconfigured)), w)
  /\ (exists reply, out = Returned reply)
  /\ (adminClient w = None ->
      out = Returned (replied 500 (QuoteError "Admin API client not configured")))
  /\ (adminClient w <> None ->
      (forall r, found = Returned r -> data_draftOrder r = None ->
                 out = Returned (replied 400
                                   (QuoteError
                                      ("Failed to fetch draft order: Draft order not found: "
                                       ++ draftOrderId))))
      /\ (forall e, found = Thrown e ->
                    out = Returned (replied (fetchStatus (message e))
                                      (QuoteError ("Failed to fetch draft order: "
                                                   ++ message e))))
      /\ (forall r d, found = Returned r -> data_draftOrder r = Some d ->
                      exists result,
                        out = Returned (replied 201 (QuoteResult result))
                        /\ (result = pdf_failed \/ exists url, result = completed url))).
Proof.
  cbv zeta. split; [reflexivity|].
  set (started := record (Logged info "Generating PDF for existing draft order") w).
  pose proof (printQuoteFromDraft_run (liveRegistry renderer storefrontClient answers post)
                _ _ draftOrderId w eq_refl eq_refl) as Hrun.
  cbv zeta in Hrun. cbn [api_fetchDraftOrderById] in Hrun. fold started in Hrun.
  destruct (adminClient w) as [platform|] eqn:Ha.
  - assert (Hs : adminClient started <> None) by (cbn; congruence).
    destruct (fetchDraftOrderById_run answers draftOrderId started Hs) as (w1 & Q & Hfetch).
    rewrite Hfetch in Hrun. clear Hfetch.
    destruct (answers (DraftOrderById draftOrderId)) as [r|e].
    + destruct (data_draftOrder r) as [d|] eqn:Hd.
      * destruct (generateAndAttachPdf_returns (liveServices renderer answers post)
                    (formatDraftOrderResponse d) None w1) as (result & w2 & Hgen & Hres).
        rewrite Hgen in Hrun. rewrite Hrun. cbn [fst].
        split; [now eexists|]. split; [discriminate|]. intros _. split_all.
        -- intros r' Hr Hn. injection Hr as <-. congruence.
        -- discriminate.
        -- intros r' d' Hr Hd'. exists result. split; [reflexivity|exact Hres].
      * rewrite Hrun. cbn [fst message fetchFailure].
        rewrite fetchStatus_wrapped, fetchStatus_not_found.
        split; [now eexists|]. split; [discriminate|]. intros _. split_all.
        -- reflexivity.
        -- discriminate.
        -- intros r' d' Hr Hd'. injection Hr as <-. congruence.
    + rewrite Hrun. cbn [fst message fetchFailure]. rewrite fetchStatus_wrapped.
      split; [now eexists|]. split; [discriminate|]. intros _. split_all.
      * discriminate.
      * intros e' He. now injection He as <-.
      * discriminate.
  - assert (Hfetch : fetchDraftOrderById answers draftOrderId started
                     = (Thrown (Error "Admin API client not configured"), started)).
    { unfold fetchDraftOrderById. cbn [adminClient started record]. now rewrite Ha. }
    rewrite Hfetch in Hrun. rewrite Hrun. cbn [fst].
    split; [now eexists|]. split; [reflexivity|]. congruence.
Qed.

(** X23: an unknown identifier is answered 400, a known one 201 even
    when the PDF cannot be made. *)
Lemma printQuoteFromDraft_replies_witness :
  fst (printQuoteFromDraft
         (Some (liveRegistry sampleRenderer None silentBackend openUploader))
         "gid://shopify/DraftOrder/404" shopWorld)
  = Returned (replied 400
                (QuoteError ("Failed to fetch draft order: Draft order not found: "
                             ++ "gid://shopify/DraftOrder/404")))
  /\ exists result,
       fst (printQuoteFromDraft
              (Some (liveRegistry brokenRendererOf None sampleBackend openUploader))
              "gid://shopify/DraftOrder/1" shopWorld)
       = Returned (replied 201 (QuoteResult result))
       /\ (result = pdf_failed \/ exists url, result = completed url).
Proof.
  split.
  - destruct (printQuoteFromDraft_replies sampleRenderer None silentBackend openUploader
                "gid://shopify/DraftOrder/404" shopWorld) as (_ & _ & _ & H).
    destruct (H ltac:(discriminate)) as (Hnone & _).
    exact (Hnone _ eq_refl eq_refl).
  - destruct (printQuoteFromDraft_replies brokenRendererOf None sampleBackend openUploader
                "gid://shopify/DraftOrder/1" shopWorld) as (_ & _ & _ & H).
    destruct (H ltac:(discriminate)) as (_ & _ & Hfound).
    exact (Hfound _ _ eq_refl eq_refl).
Defined.

(** ** The route that sends the invoice *)

Lemma sendQuote_run (services : Registry) (api : DraftOrderApi) (draftOrderId : string)
    (email : option EmailInput) (w : World) :
  services_draftOrder services = Some api ->
  sendQuote (Some services) draftOrderId email w
  = match api_sendInvoice api (Some draftOrderId) email
            (record (Logged info "Sending invoice for draft order") w) with
    | (Returned result, w1) => (Returned (replied 200 (SendSuccess result)), w1)
    | (Thrown e, w1) =>
        (Returned (replied (sendStatus (message e)) (SendError (message e))),
         record (Logged error "Failed to send invoice") w1)
    end.
Proof.
  intros Hapi. unfold sendQuote, draftOrderService, try_catch, bind, log. rewrite Hapi.
  destruct (api_sendInvoice api (Some draftOrderId) email _) as [[d|e] w1]; [reflexivity|].
  unfold sendStatus, replied.
  destruct (includes "not found" (message e) || includes "not configured" (message e)
            || includes "user errors" (message e)); reflexivity.
Qed.

(** X24.  What [POST /send-quote] answers, with the services of the
    repository behind it.  The handler never throws.  It answers 200
    with the draft order when the invoice is sent, 500 without a draft
    order service, and 400 without an admin client, as "Admin API
    client not configured" contains "not configured".  The errors of
    the platform are answered by their wording alone: user errors give
    "Failed to send invoice: Failed to send invoice: " followed by
    their messages and the status those messages call for, which is 500
    unless the platform itself writes "not found", "not configured" or
    "user errors"; an answer without a draft order gives 500; a failed
    request gives the status the message of its error calls for. *)
Theorem sendQuote_replies (renderer : InvoiceData -> M Pdf)
    (storefrontClient : option Storefront) (answers : Backend) (post : Uploader)
    (draftOrderId : string) (email : option EmailInput) (w : World) :
  let registry := liveRegistry renderer storefrontClient answers post in
  let out := fst (sendQuote (Some registry) draftOrderId email w) in
  let send := answers (DraftOrderInvoiceSend (Some draftOrderId) (emailSent email)) in
  sendQuote None draftOrderId email w = (Returned (replied 500 (SendError unconfigured)), w)
  /\ (adminClient w = None ->
      out = Returned (replied 400 (SendError "Admin API client not configured")))
  /\ (adminClient w <> None ->
      (forall r d, send = Returned r -> sendErrors r = [] -> sentOrderOf r = Some d ->
                   out = Returned (replied 200 (SendSuccess d)))
      /\ (forall r e es,
             send = Returned r ->
             sendErrors r = e :: es ->
             out = Returned (replied (sendStatus (errorMessages (e :: es)))
                               (SendError
                                  ("Failed to send invoice: Failed to send invoice: "
                                   ++ errorMessages (e :: es)))))
      /\ (forall r, send = Returned r -> sendErrors r = [] -> sentOrderOf r = None ->
                    out = Returned (replied 500
                                      (SendError
                                         ("Failed to send invoice: Failed to send invoice: "
                                          ++ "No draft order returned"))))
      /\ (forall e, send = Thrown e ->
                    out = Returned (replied (sendStatus (message e))
                                      (SendError ("Failed to send invoice: " ++ message e))))).
Proof.
  cbv zeta. split; [reflexivity|].
  set (started := record (Logged info "Sending invoice for draft order") w).
  pose proof (sendQuote_run (liveRegistry renderer storefrontClient answers post)
                _ draftOrderId email w eq_refl) as Hrun.
  cbn [api_sendInvoice] in Hrun. fold started in Hrun.
  destruct (adminClient w) as [platform|] eqn:Ha.
  - assert (Hs : adminClient started <> None) by (cbn; congruence).
    destruct (sendInvoice_run answers (Some draftOrderId) email started Hs)
      as (w1 & Q & Hsend).
    rewrite Hsend in Hrun. clear Hsend.
    split; [discriminate|]. intros _.
    destruct (answers (DraftOrderInvoiceSend (Some draftOrderId) (emailSent email)))
      as [r|e].
    + destruct (sendErrors r) as [|e es] eqn:He.
      * destruct (sentOrderOf r) as [d|] eqn:Hd; rewrite Hrun; cbn [fst]; split_all;
          intros; try discriminate;
          repeat match goal with
                 | H : Returned _ = Returned _ |- _ => injection H as <-
                 end; try congruence; reflexivity.
      * rewrite Hrun. cbn [fst message sendFailure]. rewrite !sendStatus_wrapped.
        split_all; intros; try discriminate;
          repeat match goal with
                 | H : Returned _ = Returned _ |- _ => injection H as <-
                 end; try congruence.
        match goal with
        | H : sendErrors r = _ |- _ => rewrite He in H; injection H as <- <-
        end. reflexivity.
    + rewrite Hrun. cbn [fst message sendFailure]. rewrite sendStatus_wrapped.
      split_all; intros; try discriminate.
      match goal with H : Thrown _ = Thrown _ |- _ => injection H as <- end.
      reflexivity.
  - assert (Hsend : sendInvoice answers (Some draftOrderId) email started
                    = (Thrown (Error "Admin API client not configured"), started)).
    { unfold sendInvoice. cbn [adminClient started record]. now rewrite Ha. }
    rewrite Hsend in Hrun. rewrite Hrun. cbn [fst].
    split; [reflexivity|]. congruence.
Qed.

(** X24: a user error of the platform is answered 500, a missing
    admin client 400. *)
Lemma sendQuote_replies_witness :
  fst (sendQuote (Some (liveRegistry sampleRenderer None strictBackend openUploader))
         "gid://shopify/DraftOrder/1" None shopWorld)
  = Returned (replied 500
                (SendError ("Failed to send invoice: Failed to send invoice: "
                            ++ "Draft order is locked")))
  /\ fst (sendQuote (Some (liveRegistry sampleRenderer None sampleBackend openUploader))
            "gid://shopify/DraftOrder/1" None quietWorld)
     = Returned (replied 400 (SendError "Admin API client not configured")).
Proof.
  split.
  - destruct (sendQuote_replies sampleRenderer None strictBackend openUploader
                "gid://shopify/DraftOrder/1" None shopWorld) as (_ & _ & H).
    destruct (H ltac:(discriminate)) as (_ & Herrors & _).
    exact (Herrors _ (mkUserError "Draft order is locked") [] eq_refl eq_refl).
  - destruct (sendQuote_replies sampleRenderer None sampleBackend openUploader
                "gid://shopify/DraftOrder/1" None quietWorld) as (_ & H & _).
    exact (H eq_refl).
Defined.

(* ================================================================== *)
(** * The helpers of the legacy quote *)
(* ================================================================== *)

(** X25.  [getFullName] never leaves a customer without a name.  For
    no customer it is the empty string.  For a customer it is the first
    and the last name joined by a space and trimmed, an absent name
    counting as empty (and not printed as "undefined"); when nothing
    but white space is left of that, and so when both names are absent
    or empty, it is "Customer". *)
Theorem getFullName_never_empty (c : Customer) :
  let joined :=
    trim (or_str (customer_firstName c) "" ++ " " ++ or_str (customer_lastName c) "") in
  getFullName None = ""
  /\ getFullName (Some c) <> ""
  /\ (joined <> "" -> getFullName (Some c) = joined)
  /\ (joined = "" -> getFullName (Some c) = "Customer")
  /\ (isEmpty (customer_firstName c) -> isEmpty (customer_lastName c) ->
      getFullName (Some c) = "Customer").
Proof.
  cbv zeta. unfold getFullName.
  set (joined := trim (or_str (customer_firstName c) "" ++ " "
                       ++ or_str (customer_lastName c) "")%string).
  split_all.
  - reflexivity.
  - unfold or_str. destruct (truthy joined) eqn:E.
    + now apply truthy_true_iff.
    + discriminate.
  - intros H. unfold or_str. apply truthy_true_iff in H. now rewrite H.
  - intros H. now rewrite H.
  - intros Hf Hl. unfold joined.
    rewrite (or_str_isEmpty _ "" Hf), (or_str_isEmpty _ "" Hl). reflexivity.
Qed.

(** X25 on a customer with a first name only, and on one with none. *)
Example getFullName_samples :
  getFullName (Some (mkCustomer None None (Some "Mari") None)) = "Mari"
  /\ getFullName (Some (mkCustomer None None (Some " ") (Some ""))) = "Customer"
  /\ getFullName (Some sampleCustomer) = "Mari Tamm".
Proof. split_all; vm_compute; reflexivity. Qed.

(** X26.  [formatPriceLegacy] writes what [formatPrice] writes after
    the currency symbol: "0.00" for a missing price, and for a finite
    number of magnitude below 10^21 a sign when it is negative, at
    least one digit, a point and two digits that are the magnitude in
    hundredths, rounded to the nearest. *)
Theorem formatPriceLegacy_two_decimals :
  (forall n, formatPriceLegacy (Unpriced n) = "0.00")
  /\ (forall p s, formatPrice p (Some s) = (s ++ formatPriceLegacy p)%string)
  /\ (forall x,
         fixedRange x = true ->
         exists whole frac,
           formatPriceLegacy (Priced x) = (signOf x ++ whole ++ "." ++ frac)%string
           /\ whole <> "" /\ all_digits whole = true
           /\ String.length frac = 2 /\ all_digits frac = true
           /\ Decimal.value (whole ++ frac) = roundedHundredths x).
Proof.
  split_all.
  - reflexivity.
  - intros [n|x] s; reflexivity.
  - intros x Hx.
    destruct (toFixed2_shape x Hx) as (whole & frac & Heq & Hne & Hw & Hlen & Hf & Hval & _).
    exists whole, frac. cbn [formatPriceLegacy]. split_all; assumption.
Qed.

Lemma present_cons (v : option string) (l : list (option string)) :
  (nonEmpty v -> exists s, v = Some s /\ s <> "" /\ present (v :: l) = s :: present l)
  /\ (isEmpty v -> present (v :: l) = present l).
Proof.
  split.
  - intros (s & -> & Hs). exists s. split; [reflexivity|]. split; [exact Hs|].
    unfold present. cbn [flat_map]. now rewrite (when_set_nonEmpty s Hs).
  - intros H. unfold present. cbn [flat_map]. now rewrite (when_set_isEmpty _ H).
Qed.





(** X27 on the billing address of the samples: three lines, the
    province missing from the line of the city, no line for the second
    street line. *)
Example getFormattedAddress_sample :
  getFormattedAddress (Some namelessAddress)
  = ("Pikk 1" ++ lineFeed ++ "Tallinn, 10123" ++ lineFeed ++ "Estonia")%string.
Proof. vm_compute. reflexivity. Qed.

(* ================================================================== *)
(** * The tax rates of shipping and of a line *)
(* ================================================================== *)

(** X28.  The rate of the shipping tax is never zero.
    [getShippingTaxRate] reads the first tax line of the shipping line
    and nothing else; when there is no shipping line or no tax line,
    and also when the rate of that line is absent, zero or NaN, the
    result is the default of 24%.  A shipping line that the platform
    taxes at 0% is therefore shown with 24%, while a line item with the
    same tax line keeps its 0%: [getLineItemVatRate] falls back to 0,
    and is never NaN.  [calculateShippingTax] is 0 without tax lines. *)
Theorem getShippingTaxRate_never_zero :
  (forall shippingLine, truthy_num (getShippingTaxRate shippingLine) = true)
  /\ (forall shippingLine,
         getShippingTaxRate shippingLine = defaultVatRate
         \/ exists line first rest r,
              shippingLine = Some line
              /\ shipping_taxLines line = Some (first :: rest)
              /\ tax_rate first = Some r
              /\ truthy_num r = true
              /\ getShippingTaxRate shippingLine = r)
  /\ (forall line first rest r,
         shipping_taxLines line = Some (first :: rest) ->
         tax_rate first = Some r ->
         truthy_num r = false ->
         getShippingTaxRate (Some line) = defaultVatRate
         /\ getLineItemVatRate (Some (first :: rest)) = zero)
  /\ (forall taxLines, getLineItemVatRate taxLines <> NaN)
  /\ (forall line,
         shipping_taxLines line = None \/ shipping_taxLines line = Some [] ->
         calculateShippingTax (Some line) = zero
         /\ getShippingTaxRate (Some line) = defaultVatRate)
  /\ formatRate defaultVatRate = "24%".
Proof.
  split_all.
  - intros [line|]; [|reflexivity]. unfold getShippingTaxRate.
    destruct (shipping_taxLines line) as [[|first rest]|]; try reflexivity.
    unfold or_num. destruct (tax_rate first) as [r|]; [|reflexivity].
    destruct (truthy_num r) eqn:E; [exact E|reflexivity].
  - intros [line|]; [|now left]. unfold getShippingTaxRate.
    destruct (shipping_taxLines line) as [[|first rest]|] eqn:Ht; try now left.
    unfold or_num. destruct (tax_rate first) as [r|] eqn:Hr; [|now left].
    destruct (truthy_num r) eqn:E; [|now left].
    right. exists line, first, rest, r. rewrite Ht. tauto.
  - intros line first rest r Ht Hr E. unfold getShippingTaxRate, getLineItemVatRate, or_num.
    now rewrite Ht, Hr, E.
  - intros [[|first rest]|]; try discriminate. unfold getLineItemVatRate, or_num.
    destruct (tax_rate first) as [r|]; [|discriminate].
    destruct (truthy_num r) eqn:E; [|discriminate].
    intros ->. discriminate E.
  - intros line [H | H]; unfold calculateShippingTax, getShippingTaxRate; rewrite H;
      split; reflexivity.
  - vm_compute. reflexivity.
Qed.

(** X28 on a shipping line taxed at 0%. *)
Example getShippingTaxRate_zero_rated :
  getShippingTaxRate
    (Some (mkShippingLine (Some "Courier") (Textual "5.00")
             (Some [mkTaxLine (Some "VAT") (Some zero) (Textual "0.00")])))
  = defaultVatRate.
Proof. reflexivity. Qed.

(* ================================================================== *)
(** * The discount of an invoice *)
(* ================================================================== *)

(** [Number::toString] on numbers whose text is known. *)
Example toString_samples :
  map NumberString.toString
    [of_Z 10; of_decimal false 125 (-1); of_decimal false 1 (-1);
     add (of_decimal false 1 (-1)) (of_decimal false 2 (-1));
     of_decimal true 435 (-2); of_decimal false 1 21; of_decimal false 1 (-7);
     of_decimal false 123456 (-11); of_Z (2 ^ 63); of_decimal false 5 (-324);
     of_decimal false 17976931348623157 292; NaN; S754_zero true]
  = ["10"; "12.5"; "0.1"; "0.30000000000000004"; "-4.35"; "1e+21"; "1e-7";
     "0.00000123456"; "9223372036854776000"; "5e-324"; "1.7976931348623157e+308";
     "NaN"; "0"]%string.
Proof. vm_compute. reflexivity. Qed.

Lemma gt_zero_truthy (x : number) : gt x zero = true -> truthy_num x = true.
Proof. destruct x as [s| | |s m e]; simpl; intros H; try reflexivity; discriminate H. Qed.

Lemma binary_round_aux_negative (mx ex : Z) (lx : location) :
  gt (binary_round_aux prec emax true mx ex lx) zero = false.
Proof.
  unfold binary_round_aux.
  destruct (shr_fexp prec emax mx ex lx) as [mrs' e'].
  destruct (shr_fexp prec emax _ e' loc_Exact) as [mrs'' e''].
  destruct (shr_m mrs''); [reflexivity| |reflexivity].
  destruct (Z.leb e'' (Z.sub emax prec)); reflexivity.
Qed.

Lemma of_decimal_negative (m e : Z) : gt (of_decimal true m e) zero = false.
Proof.
  unfold of_decimal. destruct m as [|p|p]; try reflexivity.
  destruct (0 <=? e)%Z eqn:He.
  - apply Z.leb_le in He.
    assert (Hpos : (0 < Zpos p * 10 ^ e)%Z).
    { apply Z.mul_pos_pos; [lia|]. apply Z.pow_pos_nonneg; lia. }
    destruct (Zpos p * 10 ^ e)%Z as [|q|q]; try lia.
    cbn [cond_Zopp Z.opp binary_normalize]. unfold binary_round.
    destruct (shl_align _ _ _) as [mz ez]. apply binary_round_aux_negative.
  - destruct (SFdiv_core_binary _ _ _ _ _ _) as [[q e'] l].
    apply binary_round_aux_negative.
Qed.

Lemma unsigned_literal_negative (s : string) : gt (unsigned_literal true s) zero = false.
Proof.
  unfold unsigned_literal.
  repeat match goal with
         | |- context [if ?b then _ else _] => destruct b
         | |- context [match ?x with _ => _ end] => destruct x
         end;
    first [reflexivity | apply of_decimal_negative].
Qed.

Lemma white_prefix_minus (r : string) : white_prefix (String "-" r) = 0.
Proof. destruct r as [|c2 [|c3 r3]]; reflexivity. Qed.

(** A text that starts with a minus sign is never read as a positive
    number. *)
Lemma parseFloat_minus (r : string) : gt (parseFloat (String "-" r)) zero = false.
Proof.
  unfold parseFloat, trimStart. cbn [String.length trim_with].
  rewrite white_prefix_minus. apply unsigned_literal_negative.
Qed.

(** An amount that counts as a discount is a positive number. *)
Lemma hasDiscount_positive (amount : Amount) :
  truthy_amount amount && gt (parseFloat (amount_text amount)) zero = true ->
  gt (parseAmount amount) zero = true.
Proof.
  intros H. apply andb_true_iff in H as [Htruthy Hgt].
  destruct amount as [n|x|s]; cbn [truthy_amount amount_text parseAmount] in *.
  - discriminate Htruthy.
  - destruct x as [sg|sg| |sg m e]; try discriminate Htruthy.
    + destruct sg; [discriminate Hgt|reflexivity].
    + destruct sg; [|reflexivity].
      cbn [NumberString.toString] in Hgt. rewrite parseFloat_minus in Hgt.
      discriminate Hgt.
  - unfold or_num. rewrite (gt_zero_truthy _ Hgt). exact Hgt.
Qed.

(** The text a discount of the merchant is described with, before the
    percentage: the title, else the description, else "Discount". *)
Lemma discount_base (title description : option string) :
  let base :=
    match when_set title with
    | Some text => text
    | None =>
        match when_set description with
        | Some text => text
        | None => "Discount"%string
        end
    end in
  base <> ""%string
  /\ (nonEmpty title -> title = Some base)
  /\ (isEmpty title -> nonEmpty description -> description = Some base)
  /\ (isEmpty title -> isEmpty description -> base = "Discount"%string).
Proof.
  cbv zeta.
  destruct title as [[|c s]|], description as [[|d t]|]; cbn [when_set truthy_opt truthy];
    split_all; try discriminate; try reflexivity;
    try (intros (x & Hx & Hne); congruence);
    try (intros _ (x & Hx & Hne); congruence);
    try (intros [H | H]; discriminate H);
    try (intros _ [H | H]; discriminate H).
Qed.

(** X29.  What [processDiscountInfo] tells about a discount.  There is
    no discount to show for no draft order, for an order without a
    total of discounts, and for a total that [parseFloat] does not read
    as a number above zero; so the amount of a discount that is shown
    is always a positive number, and it is shown formatted as a price.
    The description is never empty.  A discount the merchant has
    applied is described by its title, by its description when it has
    no title, and by "Discount" when it has neither, followed by the
    value and a percent sign in brackets when the discount is a
    percentage; the discount codes do not take part in that text.
    Without such a discount the description is "Discount Code: " and
    the codes joined with ", ", and only "Discount" when there is no
    code.  The codes are handed on in every case. *)
Theorem processDiscountInfo_description (order : DiscountedOrder) (symbol : option string) :
  let total := totalDiscount (Some order) in
  let codes := listOf (order_discountCodes order) in
  let result := processDiscountInfo (Some order) symbol in
  processDiscountInfo None symbol = None
  /\ (forall n, total = Missing n -> result = None)
  /\ (forall s, total = Textual s -> (result = None <-> gt (parseFloat s) zero = false))
  /\ (forall info,
         result = Some info ->
         gt (info_amount info) zero = true
         /\ info_amount info = parseAmount total
         /\ info_amountFormatted info = formatPrice (Priced (parseAmount total)) symbol
         /\ info_codes info = codes
         /\ info_description info <> ""%string
         /\ (appliedDiscount order = None ->
             (codes = [] -> info_description info = "Discount"%string)
             /\ (codes <> [] ->
                 info_description info = ("Discount Code: " ++ join codes)%string))
         /\ (forall applied,
                appliedDiscount order = Some applied ->
                exists base,
                  (nonEmpty (applied_title applied) -> applied_title applied = Some base)
                  /\ (isEmpty (applied_title applied) ->
                      nonEmpty (applied_description applied) ->
                      applied_description applied = Some base)
                  /\ (isEmpty (applied_title applied) ->
                      isEmpty (applied_description applied) ->
                      base = "Discount"%string)
                  /\ (applied_valueType applied = Some "PERCENTAGE"%string ->
                      info_description info
                      = (base ++ " (" ++ amount_text (applied_value applied) ++ "%)")%string)
                  /\ (applied_valueType applied <> Some "PERCENTAGE"%string ->
                      info_description info = base))).
Proof.
  cbv zeta. split_all.
  - reflexivity.
  - intros n H. unfold processDiscountInfo. rewrite H. reflexivity.
  - intros s H. unfold processDiscountInfo. rewrite H.
    cbn [truthy_amount amount_text].
    destruct s as [|c r]; [split; intros _; reflexivity|].
    cbn [truthy andb].
    destruct (gt (parseFloat (String c r)) zero); cbn [negb]; split; intros E;
      first [reflexivity | discriminate E].
  - intros info Hres. unfold processDiscountInfo in Hres.
    destruct (truthy_amount (totalDiscount (Some order))
              && gt (parseFloat (amount_text (totalDiscount (Some order)))) zero)
      eqn:Hhas; cbn [negb] in Hres; [|discriminate Hres].
    injection Hres as <-.
    cbn [info_amount info_amountFormatted info_description info_codes].
    split_all.
    + now apply hasDiscount_positive.
    + reflexivity.
    + reflexivity.
    + reflexivity.
    + destruct (appliedDiscount order) as [applied|].
      * destruct (discount_base (applied_title applied) (applied_description applied))
          as (Hbase & _).
        destruct (match applied_valueType applied with
                  | Some valueType => String.eqb valueType "PERCENTAGE"
                  | None => false
                  end); [|exact Hbase].
        intros E. apply Hbase.
        destruct (match when_set (applied_title applied) with
                  | Some text => text
                  | None => _
                  end); [reflexivity|discriminate E].
      * destruct (order_discountCodes order) as [[|code rest]|]; discriminate.
    + intros Happlied. rewrite Happlied.
      destruct (order_discountCodes order) as [[|code rest]|]; cbn [listOf];
        split; intros E; first [reflexivity | discriminate E | contradiction].
    + intros applied Happlied. rewrite Happlied.
      destruct (discount_base (applied_title applied) (applied_description applied))
        as (_ & Htitle & Hdescription & Hneither).
      eexists. split; [exact Htitle|]. split; [exact Hdescription|].
      split; [exact Hneither|].
      destruct (applied_valueType applied) as [valueType|].
      * destruct (String.eqb valueType "PERCENTAGE") eqn:E.
        -- split; [reflexivity|]. apply String.eqb_eq in E. subst valueType.
           intros H. contradiction H. reflexivity.
        -- apply String.eqb_neq in E. split; [|reflexivity].
           intros H. injection H as H. contradiction.
      * split; [discriminate|reflexivity].
Qed.

(** X29 on the two sample orders: a percentage that is described but
    not titled, with a code that goes unmentioned, and two codes. *)
Example processDiscountInfo_samples :
  processDiscountInfo (Some springSale) None
  = Some {| info_amount := of_decimal false 125 (-1);
            info_amountFormatted := "€12.50";
            info_description := "Spring sale (10%)";
            info_codes := ["SPRING"%string] |}
  /\ option_map info_description (processDiscountInfo (Some codedDiscount) None)
     = Some "Discount Code: WELCOME, B2B"%string.
Proof. split; vm_compute; reflexivity. Qed.
